(** * Luco-Mintos backend: prepaid SMS dispatch, ledger and delivery reports

    A shallow embedding of [app/api/routes/smssend.py] (the send endpoint, the
    wallet debit, the delivery-report webhook and the WebSocket manager), of
    the admin credit, the prebuilt templates and the plan change of
    [app/api/routes/adminpre.py], of [create_user] of [app/crud.py] and of
    the rows of [app/models.py] they touch.

    Conventions of the embedding.
    - Python [int] is [Z]; [len] of a [str] is [String.length] (text is
      taken to be ASCII, one byte per character).
    - [decimal.Decimal] is a coefficient and an exponent. Arithmetic is
      exact, as Python's is while results fit the 28 significant digits of
      the default context.
    - A binary double is a primitive [float]; [+] on doubles is
      [PrimFloat.add]. Conversions between decimal text and doubles belong
      to the Python runtime and are taken as an interface ([PyRuntime]).
    - A handler is a computation in the monad [M]: it reads an environment
      (clock, gateway, sockets), threads the [World] (database, session,
      connection manager) and may raise.
    - Requests are served one at a time, each within one reading of the
      clock; request bodies are taken as already validated.
    - The database is seen through what the handlers can observe of it.
      A query without ORDER BY returns its matching rows in an order of the
      database's choosing ([first_match]). Whether text longer than a
      VARCHAR column is refused depends on the engine
      ([enforces_max_length]: PostgreSQL refuses it, SQLite does not); the
      one limit carried is the 1000 characters of [SmsHistory.message],
      which a request (1600 characters) or a template can exceed. Texts
      that come from the gateway, the provider's callbacks and the admin are
      taken to fit their columns. *)

From Stdlib Require Import ZArith QArith Qround Qabs Qpower Lia String Ascii List Bool.
From Stdlib Require Import Floats.PrimFloat.
From Corelib Require Import Uint63Axioms FloatOps SpecFloat.
From stdpp Require Import base gmap sets list strings pretty.

#[local] Open Scope string_scope.
#[local] Open Scope Z_scope.

(** ** Python strings *)

Module Str.

(** [c.lower()] on an ASCII letter. *)
Definition lower_ascii (c : ascii) : ascii :=
  let n := nat_of_ascii c in
  if (65 <=? n)%nat && (n <=? 90)%nat then ascii_of_nat (n + 32) else c.

(** [s.lower()]. *)
Fixpoint lower (s : string) : string :=
  match s with
  | EmptyString => EmptyString
  | String c t => String (lower_ascii c) (lower t)
  end.

(** [s.startswith(p)]. *)
Fixpoint startswith (p s : string) : bool :=
  match p, s with
  | EmptyString, _ => true
  | String a p', String b s' => if Ascii.eqb a b then startswith p' s' else false
  | String _ _, EmptyString => false
  end.

(** [needle in hay]: the substring test, case-sensitive. *)
Fixpoint contains (needle hay : string) : bool :=
  startswith needle hay ||
  match hay with
  | EmptyString => false
  | String _ t => contains needle t
  end.

(** [s.replace(old, "")] for a non-empty [old]: occurrences are removed
    left to right without overlap. [skip] counts the characters of a
    matched occurrence still to drop. *)
Fixpoint remove_from (old : string) (skip : nat) (s : string) : string :=
  match s with
  | EmptyString => EmptyString
  | String c t =>
      match skip with
      | S k => remove_from old k t
      | O =>
          if startswith old s
          then remove_from old (String.length old - 1) t
          else String c (remove_from old O t)
      end
  end.

Definition remove (old s : string) : string := remove_from old O s.

(** [str.isspace] on one ASCII character. *)
Definition is_space (c : ascii) : bool :=
  let n := nat_of_ascii c in
  ((9 <=? n)%nat && (n <=? 13)%nat) || ((28 <=? n)%nat && (n <=? 32)%nat).

Fixpoint lstrip (s : string) : string :=
  match s with
  | EmptyString => EmptyString
  | String c t => if is_space c then lstrip t else s
  end.

(** [rstrip]: a character is kept when it is not white space or when
    something is kept after it. *)
Fixpoint rstrip (s : string) : string :=
  match s with
  | EmptyString => EmptyString
  | String c t =>
      match rstrip t with
      | EmptyString => if is_space c then EmptyString else String c EmptyString
      | t' => String c t'
      end
  end.

(** [s.strip()]. *)
Definition strip (s : string) : string := rstrip (lstrip s).

(** [x or default] on an optional string: [None] and [""] are falsy. *)
Definition or_else (x : option string) (default : string) : string :=
  match x with
  | Some EmptyString | None => default
  | Some s => s
  end.

End Str.

(** ** decimal.Decimal *)

Record Decimal := Dec { coef : Z; expo : Z }.

Module Decimal_.

(** The coefficient of [d] written with exponent [e], for [e <= expo d]. *)
Definition rescale (e : Z) (d : Decimal) : Z := coef d * 10 ^ (expo d - e).

(** [a - b]: both operands are aligned on the smaller exponent. *)
Definition sub (a b : Decimal) : Decimal :=
  let e := Z.min (expo a) (expo b) in
  Dec (rescale e a - rescale e b) e.

(** [d * n] for a Python [int] [n] (converted to [Decimal(n)], exponent 0). *)
Definition mul_int (d : Decimal) (n : Z) : Decimal := Dec (coef d * n) (expo d).

(** [a < b]. *)
Definition ltb (a b : Decimal) : bool :=
  let e := Z.min (expo a) (expo b) in
  rescale e a <? rescale e b.

(** [a == b] (equality of values: [Decimal("5") == Decimal("5.00")]). *)
Definition eqb (a b : Decimal) : bool :=
  let e := Z.min (expo a) (expo b) in
  rescale e a =? rescale e b.

(** [n / p] rounded to the nearest integer, ties to the even one
    (ROUND_HALF_EVEN, the default context's rounding), for [0 < p]. *)
Definition round_half_even (n p : Z) : Z :=
  let q := n / p in
  let r := n mod p in
  if 2 * r <? p then q
  else if p <? 2 * r then q + 1
  else if Z.even q then q else q + 1.

(** [d.quantize(q)]: [d] rounded to the exponent of [q]. *)
Definition quantize (d q : Decimal) : Decimal :=
  let e := expo q in
  if e <=? expo d then Dec (rescale e d) e
  else Dec (round_half_even (coef d) (10 ^ (e - expo d))) e.

(** The number a decimal denotes: [coef * 10 ^ expo]. *)
Definition value (d : Decimal) : Q := (inject_Z (coef d) * Qpower (inject_Z 10) (expo d))%Q.

(** The value in hundredths, for a decimal with at most two places. *)
Definition cents (d : Decimal) : Z := rescale (-2) d.

(** At most two digits after the point. *)
Definition two_places (d : Decimal) : Prop := -2 <= expo d.

End Decimal_.

(** The literals of the source. *)
Definition Decimal_0_0 : Decimal := Dec 0 (-1).     (* Decimal("0.0") *)
Definition Decimal_0_01 : Decimal := Dec 1 (-2).    (* Decimal("0.01") *)
Definition Decimal_32 : Decimal := Dec 32 0.        (* Decimal("32") *)
Definition Decimal_10_0 : Decimal := Dec 100 (-1).  (* Decimal("10.0") *)

(** ** The Python runtime's conversions between text and numbers

  The source stores the wallet as text and reads it back as a [Decimal]
  (send path) or as a double (admin path). Text written by [str] of a
  [Decimal] is read back by [Decimal(...)] as the same decimal, and text
  written by [str] of a double is read back by [float(...)] as the same
  double; the two crossings and the parser of gateway amounts are the
  runtime's and are not modelled. *)

Class PyRuntime := {
(** [float(d)] and [float(str(d))]: the double nearest to a decimal. *)
float_of_Decimal : Decimal -> float;
(** [Decimal(str(f))]: the decimal that the shortest text of a double
    denotes; [None] when the text is no finite number ([nan], [inf]). *)
Decimal_of_repr : float -> option Decimal;
(** [Decimal(s)] on arbitrary text; [None] is [InvalidOperation]. *)
Decimal_of_str : string -> option Decimal;
}.

(** Numeric text, by the conversion that wrote it. *)
Inductive numtext :=
| str_Decimal (d : Decimal)   (* str(d) for a Decimal d, or a decimal literal *)
| str_float (f : float).      (* str(f) for a double f *)

Section Conversions.
Context {rt : PyRuntime}.

(** [Decimal(t)]. *)
Definition Decimal_of (t : numtext) : option Decimal :=
  match t with
  | str_Decimal d => Some d
  | str_float f => Decimal_of_repr f
  end.

(** [float(t)]. *)
Definition float_of (t : numtext) : float :=
  match t with
  | str_Decimal d => float_of_Decimal d
  | str_float f => f
  end.

End Conversions.

(** ** Rate calculation ([send_sms], "Calculate SMS units") *)

(** [(msg_len // 153) + (1 if msg_len % 153 else 0) if msg_len > 160 else 1] *)
Definition sms_units (msg_len : Z) : Z :=
  if 160 <? msg_len
  then msg_len / 153 + (if msg_len mod 153 =? 0 then 0 else 1)
  else 1.

(** [cost_per_sms * sms_units * recipients_count] *)
Definition total_cost (cost_per_sms : Decimal) (sms_units recipients_count : Z) : Decimal :=
  Decimal_.mul_int (Decimal_.mul_int cost_per_sms sms_units) recipients_count.

(** ** Rows of [app/models.py]

    Only the columns the modelled handlers read or write are kept. Primary
    keys of [Transaction] and [SmsHistory] rows are generated ([uuid4]) and
    never read back: a row is identified by its position in the table, which
    is kept in insertion order. Column length limits are not modelled. *)

Definition uuid := N.
Definition datetime := Z.

Module User.
Record t := mk {
  id : uuid;
  wallet : option numtext;     (* str | None, default "10.0" *)
  sms_cost : option Decimal;   (* str | None, default "32": a decimal literal *)
}.
(** The defaults of [UserBase] for a new account. *)
Definition new (i : uuid) : t :=
  {| id := i; wallet := Some (str_Decimal Decimal_10_0); sms_cost := Some Decimal_32 |}.
Definition set_wallet (u : t) (w : option numtext) : t :=
  {| id := id u; wallet := w; sms_cost := sms_cost u |}.
End User.

Module Template.
Record t := mk {
  id : uuid;
  owner_id : uuid;
  content : string;
}.
End Template.

Module Transaction.
Record t := mk {
  user_id : uuid;
  transaction_type : string;        (* 'credit', 'debit', 'payment', 'refund' *)
  amount : float;
  currency : string;                (* default "UGX" *)
  description : option string;
  status : string;                  (* 'pending', 'completed', 'failed', 'cancelled' *)
  payment_method : option string;
  reference_number : option string;
  balance_before : option float;
  balance_after : option float;
  created_at : datetime;
  updated_at : datetime;
}.
End Transaction.

Module SmsHistory.
Record t := mk {
  user_id : uuid;
  recipient : string;
  message : string;
  status : string;
  sms_count : Z;
  cost : float;
  external_id : option string;
  template_id : option uuid;
  error_message : option string;
  sent_at : option datetime;
  delivered_at : option datetime;
}.
End SmsHistory.

(** The tables a [Session] works on. *)
#[projections(primitive)]
Record Tables := mkTables {
  users : gmap uuid User.t;
  templates : gmap uuid Template.t;
  transactions : list Transaction.t;
  sms_history : list SmsHistory.t;
}.

(** ** The gateway (Africa's Talking [SMS.send]) *)

Record SendArgs := mkSendArgs {
  send_message : string;
  send_recipients : list string;
  send_sender_id : string;
  send_enqueue : Z;
}.

(** One entry of [response["SMSMessageData"]["Recipients"]]. *)
Module Recipient.
Record t := mk {
  number : string;
  status : string;
  statusCode : Z;
  cost : string;                 (* e.g. "UGX 32.0000" *)
  messageId : option string;
}.
End Recipient.

Inductive gateway_reply :=
| SMSMessageData (Message : string) (Recipients : list Recipient.t)
| gateway_raises (what : string).

(** ** WebSocket observers and the events sent to them *)

Definition WebSocket := N.

Inductive Event :=
| sms_batch_sent (user_id : uuid) (summary : string) (total_sent : Z)
    (total_cost : Decimal) (timestamp : datetime)
| delivery_update (phoneNumber status messageId failureReason : option string).

(** ** Environment, world and the handler monad *)

(** What the process does not control during one request. *)
Record Env := mkEnv {
  utcnow : datetime;                      (* datetime.utcnow() *)
  at_sender_id : option string;           (* os.getenv("AT_SENDER_ID") *)
  sms_send : SendArgs -> gateway_reply;   (* the provider's answer to a send *)
  socket_ok : WebSocket -> bool;          (* whether conn.send_text goes through *)
  uuid4_hex8 : string;                    (* uuid.uuid4().hex[:8].upper() *)
  first_match : nat;                      (* which matching row an unordered query returns first *)
  enforces_max_length : bool;             (* whether the engine refuses text over a VARCHAR length *)
}.

#[projections(primitive)]
Record World := mkWorld {
  database : Tables;                  (* committed rows *)
  session : Tables;                   (* the rows as the request's Session sees them *)
  active_connections : gset WebSocket;         (* manager.active_connections *)
  send_text_calls : list (WebSocket * Event * bool);  (* every conn.send_text, with its success *)
  gateway_calls : list SendArgs;      (* every sms.send *)
}.

Inductive exn :=
| HTTPException (status_code : Z) (detail : string)
| PyException (name : string).

Inductive outcome (A : Type) :=
| Return (a : A)
| Raise (e : exn).
Arguments Return {A} a.
Arguments Raise {A} e.

Definition M (A : Type) : Type := Env -> World -> outcome A * World.

Definition ret {A} (a : A) : M A := fun _ w => (Return a, w).

Definition bind {A B} (m : M A) (k : A -> M B) : M B :=
  fun env w =>
    match m env w with
    | (Return a, w') => k a env w'
    | (Raise e, w') => (Raise e, w')
    end.

Definition raise {A} (e : exn) : M A := fun _ w => (Raise e, w).

(** [try: body  except Exception as e: handler(e)] *)
Definition try_except {A} (body : M A) (handler : exn -> M A) : M A :=
  fun env w =>
    match body env w with
    | (Return a, w') => (Return a, w')
    | (Raise e, w') => handler e env w'
    end.

Definition ask {A} (f : Env -> A) : M A := fun env w => (Return (f env), w).
Definition gets {A} (f : World -> A) : M A := fun _ w => (Return (f w), w).
Definition modify (f : World -> World) : M unit := fun _ w => (Return tt, f w).

Declare Scope py_scope.
Delimit Scope py_scope with py.
Notation "x <- c1 ;; c2" := (bind c1 (fun x => c2))
  (at level 100, c1 at next level, right associativity) : py_scope.
Notation "c1 ;; c2" := (bind c1 (fun _ => c2))
  (at level 100, right associativity) : py_scope.

(** [for x in xs: body(x)], with the loop's local state [acc]. *)
Fixpoint for_each {A S} (xs : list A) (acc : S) (body : S -> A -> M S) : M S :=
  match xs with
  | [] => ret acc
  | x :: xs' => bind (body acc x) (fun acc' => for_each xs' acc' body)
  end.

(** Lifting an optional result: [None] raises. *)
Definition or_raise {A} (x : option A) (e : exn) : M A :=
  match x with
  | Some a => ret a
  | None => raise e
  end.

(** The status line a client sees (FastAPI answers an unhandled exception with 500). *)
Definition http_status {A} (r : outcome A) : Z :=
  match r with
  | Return _ => 200
  | Raise (HTTPException c _) => c
  | Raise (PyException _) => 500
  end.

(** *** The Session *)

Definition set_session (t : Tables) (w : World) : World :=
  {| database := database w; session := t;
     active_connections := active_connections w;
     send_text_calls := send_text_calls w; gateway_calls := gateway_calls w |}.

Definition set_database (t : Tables) (w : World) : World :=
  {| database := t; session := session w;
     active_connections := active_connections w;
     send_text_calls := send_text_calls w; gateway_calls := gateway_calls w |}.

(** [session.add(user)], also the flush of an attribute set on a loaded user. *)
Definition add_user (u : User.t) (t : Tables) : Tables :=
  {| users := <[User.id u := u]> (users t); templates := templates t;
     transactions := transactions t; sms_history := sms_history t |}.

(** [session.add(transaction)] for a new row. *)
Definition add_transaction (x : Transaction.t) (t : Tables) : Tables :=
  {| users := users t; templates := templates t;
     transactions := transactions t ++ [x]; sms_history := sms_history t |}.

(** [session.add(history)] for a new row. *)
Definition add_history (h : SmsHistory.t) (t : Tables) : Tables :=
  {| users := users t; templates := templates t;
     transactions := transactions t; sms_history := sms_history t ++ [h] |}.

(** [session.add(history)] for the loaded row at position [i], after its
    attributes were set. *)
Definition update_history (i : nat) (h : SmsHistory.t) (t : Tables) : Tables :=
  {| users := users t; templates := templates t;
     transactions := transactions t; sms_history := <[i := h]> (sms_history t) |}.

Definition session_add (f : Tables -> Tables) : M unit :=
  modify (fun w => set_session (f (session w)) w).

(** [session.commit()]: the session's rows become the committed ones. *)
Definition session_commit : M unit :=
  modify (fun w => set_database (session w) w).

(** [session.rollback()]: everything not committed is dropped. *)
Definition session_rollback : M unit :=
  modify (fun w => set_session (database w) w).

(** [session.get(User, id)] and [session.get(Template, id)]. *)
Definition session_get_user (i : uuid) : M (option User.t) :=
  gets (fun w => users (session w) !! i).
Definition session_get_template (i : uuid) : M (option Template.t) :=
  gets (fun w => templates (session w) !! i).

(** A request runs in a Session of its own ([SessionDep]): it opens on the
    committed rows and is closed, committed or not, when the handler is left. *)
Definition endpoint {A} (handler : M A) : M A :=
  fun env w =>
    let '(r, w') := handler env (set_session (database w) w) in
    (r, set_session (database w') w').

(** ** [ConnectionManager] *)

Definition set_active_connections (s : gset WebSocket) (w : World) : World :=
  {| database := database w; session := session w;
     active_connections := s;
     send_text_calls := send_text_calls w; gateway_calls := gateway_calls w |}.

Definition set_send_text_calls (l : list (WebSocket * Event * bool)) (w : World) : World :=
  {| database := database w; session := session w;
     active_connections := active_connections w;
     send_text_calls := l; gateway_calls := gateway_calls w |}.

Definition log_send_text (conn : WebSocket) (message : Event) (ok : bool) (w : World) : World :=
  {| database := database w; session := session w;
     active_connections := active_connections w;
     send_text_calls := send_text_calls w ++ [(conn, message, ok)];
     gateway_calls := gateway_calls w |}.

Definition log_gateway_call (args : SendArgs) (w : World) : World :=
  {| database := database w; session := session w;
     active_connections := active_connections w;
     send_text_calls := send_text_calls w;
     gateway_calls := gateway_calls w ++ [args] |}.

(** [await conn.send_text(json.dumps(message))]: raises when the socket is gone. *)
Definition send_text (conn : WebSocket) (message : Event) : M unit :=
  fun env w =>
    let ok := socket_ok env conn in
    let w' := log_send_text conn message ok w in
    if ok then (Return tt, w') else (Raise (PyException "WebSocketDisconnect"), w').

(** [ConnectionManager.connect] (after [websocket.accept()]). *)
Definition connect (websocket : WebSocket) : M unit :=
  modify (fun w => set_active_connections ({[websocket]} ∪ active_connections w) w).

(** [ConnectionManager.disconnect]. *)
Definition disconnect (websocket : WebSocket) : M unit :=
  modify (fun w => set_active_connections (active_connections w ∖ {[websocket]}) w).

(** [ConnectionManager.broadcast]. The set is visited in the order of
    [elements]; [disconnected] is the loop's local set. *)
Definition broadcast (message : Event) : M unit :=
  (conns <- gets active_connections ;;
   disconnected <-
     for_each (elements conns) (∅ : gset WebSocket)
       (fun disconnected conn =>
          try_except
            (send_text conn message ;; ret disconnected)
            (fun _ => ret (disconnected ∪ {[conn]}))) ;;
   modify (fun w => set_active_connections (active_connections w ∖ disconnected) w))%py.

(** ** Request and response bodies *)

Record SendSMSRequest := mkSendSMSRequest {
  to : list string;
  message : string;
  from_ : option string;
  template_id : option uuid;
  enqueue : bool;
}.

Record SendSMSResponse := mkSendSMSResponse {
  batch_id : option string;
  summary : string;
  total_sent : Z;
  total_cost_ugx : Decimal;
  recipients : list Recipient.t;   (* RecipientResponse has the fields of a gateway recipient *)
}.

(** The body of a delivery report: any key may be missing. *)
Module Report.
Record t := mk {
  phoneNumber : option string;
  status : option string;
  id : option string;
  failureReason : option string;
}.
End Report.

Record AddBalanceRequest := mkAddBalanceRequest {
  req_user_id : uuid;
  amount : float;
  description : option string;     (* default "Admin credit adjustment" *)
  payment_method : string;         (* default "admin_adjustment" *)
}.

(** ** [deduct_and_log_wallet] *)

Section Handlers.
Context {rt : PyRuntime}.

(** [Decimal(user.wallet or "0.0")] *)
Definition wallet_Decimal (user : User.t) : option Decimal :=
  match User.wallet user with
  | Some t => Decimal_of t
  | None => Some Decimal_0_0
  end.

(** [float(user.wallet or "0.0")] *)
Definition wallet_float (user : User.t) : float :=
  match User.wallet user with
  | Some t => float_of t
  | None => float_of (str_Decimal Decimal_0_0)
  end.

(** The [Transaction(...)] that [deduct_and_log_wallet] logs. *)
Definition debit_transaction (user : User.t) (current_balance total_cost : Decimal)
    (description : string) (now : datetime) : Transaction.t :=
  {| Transaction.user_id := User.id user;
     Transaction.transaction_type := "debit";
     Transaction.amount := float_of_Decimal total_cost;
     Transaction.currency := "UGX";
     Transaction.description := Some description;
     Transaction.status := "completed";
     Transaction.payment_method := None;
     Transaction.reference_number := None;
     Transaction.balance_before := Some (float_of_Decimal current_balance);
     Transaction.balance_after :=
       Some (float_of_Decimal (Decimal_.sub current_balance total_cost));
     Transaction.created_at := now;
     Transaction.updated_at := now |}.

(** [str(new_balance.quantize(Decimal("0.01")))] for
    [new_balance = current_balance - total_cost]. *)
Definition wallet_after_debit (current_balance total_cost : Decimal) : numtext :=
  let new_balance := Decimal_.sub current_balance total_cost in
  str_Decimal (Decimal_.quantize new_balance Decimal_0_01).

Definition deduct_and_log_wallet
    (user : User.t) (total_cost : Decimal) (description : string) : M unit :=
  (current_balance <- or_raise (wallet_Decimal user) (PyException "InvalidOperation") ;;
   if Decimal_.ltb current_balance total_cost
   then raise (HTTPException 400 "Insufficient funds")
   else
     let user := User.set_wallet user (Some (wallet_after_debit current_balance total_cost)) in
     now <- ask utcnow ;;
     let transaction :=
       debit_transaction user current_balance total_cost description now in
     session_add (add_transaction transaction) ;;
     session_add (add_user user) ;;
     session_commit)%py.

(** ** [send_sms] *)

Definition len_str (s : string) : Z := Z.of_nat (String.length s).
Definition len_list {A} (l : list A) : Z := Z.of_nat (List.length l).

(** The template lookup of [send_sms]: the text that is sent. *)
Definition resolve_template (payload : SendSMSRequest) (current_user : User.t) : M string :=
  match template_id payload with
  | Some tid =>
      (template <- session_get_template tid ;;
       match template with
       | Some t =>
           if decide (Template.owner_id t = User.id current_user)
           then ret (Template.content t)
           else raise (HTTPException 404 "Template not found")
       | None => raise (HTTPException 404 "Template not found")
       end)%py
  | None => ret (message payload)
  end.

(** [Decimal(current_user.sms_cost or "32")] *)
Definition cost_per_sms (current_user : User.t) : Decimal :=
  match User.sms_cost current_user with
  | Some d => d
  | None => Decimal_32
  end.

(** The amount [send_sms] asks the wallet for. *)
Definition request_cost (final_message : string) (payload : SendSMSRequest)
    (current_user : User.t) : Decimal :=
  total_cost (cost_per_sms current_user) (sms_units (len_str final_message))
    (len_list (to payload)).

(** [sms.send(...)]: the call is recorded, the provider answers or raises. *)
Definition gateway_send (args : SendArgs) : M (string * list Recipient.t) :=
  fun env w =>
    let w' := log_gateway_call args w in
    match sms_send env args with
    | SMSMessageData msg rs => (Return (msg, rs), w')
    | gateway_raises what => (Raise (PyException what), w')
    end.

(** The [SmsHistory(...)] row for one recipient of the gateway's answer,
    once its cost is read. *)
Definition history_row (current_user : User.t) (final_message : string)
    (units : Z) (tid : option uuid) (now : datetime) (r : Recipient.t)
    (cost : Decimal) : SmsHistory.t :=
  {| SmsHistory.user_id := User.id current_user;
     SmsHistory.recipient := Recipient.number r;
     SmsHistory.message := final_message;
     SmsHistory.status := Str.lower (Recipient.status r);
     SmsHistory.sms_count := units;
     SmsHistory.cost := float_of_Decimal cost;
     SmsHistory.external_id := Recipient.messageId r;
     SmsHistory.template_id := tid;
     SmsHistory.error_message := None;
     SmsHistory.sent_at := Some now;
     SmsHistory.delivered_at := None |}.

(** [Decimal(r["cost"].replace("UGX ", "").strip())] *)
Definition recipient_cost (r : Recipient.t) : option Decimal :=
  Decimal_of_str (Str.strip (Str.remove "UGX " (Recipient.cost r))).

(** The body of the loop "Log each SMS to history". The row is added to the
    session; its INSERT is sent, and its text checked against the column,
    by the flush that the commit after the loop begins with
    ([flush_history]). *)
Definition log_history (current_user : User.t) (final_message : string)
    (units : Z) (tid : option uuid) (r : Recipient.t) : M unit :=
  (cost <- or_raise (recipient_cost r) (PyException "InvalidOperation") ;;
   now <- ask utcnow ;;
   session_add (add_history (history_row current_user final_message units tid now r cost)))%py.

(** [SmsHistory.message] is [Field(max_length=1000)]. *)
Definition fits_message_column (h : SmsHistory.t) : bool :=
  len_str (SmsHistory.message h) <=? 1000.

(** The rows added to the session and not yet committed. *)
Definition pending_history (w : World) : list SmsHistory.t :=
  drop (List.length (sms_history (database w))) (sms_history (session w)).

(** [session.commit()] begins by flushing the pending rows: an engine that
    enforces VARCHAR lengths refuses the INSERT of a history row whose
    message is over the 1000 characters of the column. *)
Definition flush_history : M unit :=
  (enforced <- ask enforces_max_length ;;
   pending <- gets pending_history ;;
   if enforced && negb (forallb fits_message_column pending)
   then raise (PyException "DataError")
   else ret tt)%py.

Definition send_sms (payload : SendSMSRequest) (current_user : User.t) : M SendSMSResponse :=
  (final_message <- resolve_template payload current_user ;;
   let units := sms_units (len_str final_message) in
   let recipients_count := len_list (to payload) in
   let total := total_cost (cost_per_sms current_user) units recipients_count in
   deduct_and_log_wallet current_user total
     ("SMS to " +:+ pretty recipients_count +:+ " recipients") ;;
   env_sender <- ask at_sender_id ;;
   let sender := Str.or_else (from_ payload) (Str.or_else env_sender "ATUpdates") in
   try_except
     (response <- gateway_send
        {| send_message := final_message;
           send_recipients := to payload;
           send_sender_id := sender;
           send_enqueue := if enqueue payload then 1 else 0 |} ;;
      let '(data_message, recipients_data) := response in
      for_each recipients_data tt
        (fun _ r => log_history current_user final_message units (template_id payload) r) ;;
      flush_history ;;
      session_commit ;;
      now <- ask utcnow ;;
      broadcast (sms_batch_sent (User.id current_user) data_message
                   (len_list recipients_data) total now) ;;
      ret {| batch_id := None;
             summary := data_message;
             total_sent := len_list recipients_data;
             total_cost_ugx := total;
             recipients := recipients_data |})
     (fun e =>
        (* Rollback wallet on failure *)
        session_rollback ;;
        raise (HTTPException 502 "SMS gateway failed")))%py.

(** ** [delivery_report_webhook] *)

(** [select(SmsHistory).where(SmsHistory.external_id == message_id)]: the
    matching rows, with their positions. A missing [id] compares with
    [IS NULL] and so matches the rows that have no [external_id]. *)
Definition rows_by_external_id (message_id : option string)
    (rows : list SmsHistory.t) : list (nat * SmsHistory.t) :=
  filter (fun row => SmsHistory.external_id row.2 = message_id) (imap pair rows).

(** [.first()] on that query. The query has no ORDER BY and [external_id]
    is not unique: which of the matching rows comes first is the database's
    choice, [choice], counted around the matching rows. *)
Definition first_by_external_id (choice : nat) (message_id : option string)
    (rows : list SmsHistory.t) : option (nat * SmsHistory.t) :=
  let matching := rows_by_external_id message_id rows in
  matching !! (choice mod List.length matching)%nat.

(** The three assignments of the webhook on the loaded row. *)
Definition reconciled (history : SmsHistory.t) (status_lower : string)
    (failure : option string) (delivered : option datetime) : SmsHistory.t :=
  {| SmsHistory.user_id := SmsHistory.user_id history;
     SmsHistory.recipient := SmsHistory.recipient history;
     SmsHistory.message := SmsHistory.message history;
     SmsHistory.status := status_lower;
     SmsHistory.sms_count := SmsHistory.sms_count history;
     SmsHistory.cost := SmsHistory.cost history;
     SmsHistory.external_id := SmsHistory.external_id history;
     SmsHistory.template_id := SmsHistory.template_id history;
     SmsHistory.error_message := failure;
     SmsHistory.sent_at := SmsHistory.sent_at history;
     SmsHistory.delivered_at := delivered |}.

Definition delivery_report_webhook (report : Report.t) : M (list (string * string)) :=
  (let phone := Report.phoneNumber report in
   let status := Report.status report in
   let message_id := Report.id report in
   let failure := Report.failureReason report in
   choice <- ask first_match ;;
   history <- gets (fun w => first_by_external_id choice message_id (sms_history (session w))) ;;
   match history with
   | Some (i, history) =>
       (* status.lower() and ["Delivered" in status] need a string *)
       s <- or_raise status (PyException "AttributeError") ;;
       now <- ask utcnow ;;
       let history :=
         reconciled history (Str.lower s) failure
           (if Str.contains "Delivered" s then Some now else None) in
       session_add (update_history i history) ;;
       session_commit
   | None => ret tt
   end ;;
   broadcast (delivery_update phone status message_id failure) ;;
   ret [("status", "received")])%py.

(** ** [add_balance_to_user] (admin credit) *)

(** The [Transaction(...)] that the admin credit logs. *)
Definition credit_transaction (user_id : uuid) (request : AddBalanceRequest)
    (current_balance new_balance : float) (hex : string) (now : datetime)
    : Transaction.t :=
  {| Transaction.user_id := user_id;
     Transaction.transaction_type := "credit";
     Transaction.amount := amount request;
     Transaction.currency := "UGX";
     Transaction.description := description request;
     Transaction.status := "completed";
     Transaction.payment_method := Some (payment_method request);
     Transaction.reference_number := Some ("ADMIN-" +:+ hex);
     Transaction.balance_before := Some current_balance;
     Transaction.balance_after := Some new_balance;
     Transaction.created_at := now;
     Transaction.updated_at := now |}.

(** [TransactionPublic.model_validate(transaction)]: the response model
    inherits [amount: float = Field(ge=0.0)] from [TransactionBase] and
    checks it, which the table model [Transaction] did not when the row was
    built. A NaN fails the comparison as a negative amount does. *)
Definition TransactionPublic_model_validate (transaction : Transaction.t)
    : M Transaction.t :=
  if PrimFloat.leb PrimFloat.zero (Transaction.amount transaction)
  then ret transaction
  else raise (PyException "ValidationError").

Definition add_balance_to_user (user_id : uuid) (request : AddBalanceRequest)
    : M Transaction.t :=
  (user <- session_get_user user_id ;;
   match user with
   | None => raise (HTTPException 404 "User not found")
   | Some user =>
       let current_balance := wallet_float user in
       let new_balance := PrimFloat.add current_balance (amount request) in
       now <- ask utcnow ;;
       hex <- ask uuid4_hex8 ;;
       let transaction :=
         credit_transaction user_id request current_balance new_balance hex now in
       let user := User.set_wallet user (Some (str_float new_balance)) in
       session_add (add_transaction transaction) ;;
       session_add (add_user user) ;;
       session_commit ;;
       TransactionPublic_model_validate transaction
   end)%py.

End Handlers.

(** ** The ledger seen from outside *)

(** A debit or a credit request against one account. *)
Inductive ledger_op :=
| debit (total_cost : Decimal) (description : string)
| credit (request : AddBalanceRequest).

Definition is_debit (op : ledger_op) : Prop :=
  match op with
  | debit _ _ => True
  | credit _ => False
  end.

Definition debit_cost (op : ledger_op) : Decimal :=
  match op with
  | debit c _ => c
  | credit _ => Decimal_0_0
  end.

Definition is_credit (op : ledger_op) : Prop :=
  match op with
  | debit _ _ => False
  | credit _ => True
  end.

Definition credit_amount (op : ledger_op) : float :=
  match op with
  | debit _ _ => PrimFloat.zero
  | credit request => amount request
  end.

(** [start + a1 + a2 + ...] on doubles, left to right. *)
Definition float_sum (start : float) (amounts : list float) : float :=
  fold_left PrimFloat.add amounts start.

(** The sum of amounts, in hundredths. *)
Definition total_cents (costs : list Decimal) : Z :=
  foldr (fun c acc => Decimal_.cents c + acc) 0 costs.

(** The signed amount of a ledger entry: credits count up, debits down. *)
Definition signed_amount (x : Transaction.t) : float :=
  if String.eqb (Transaction.transaction_type x) "credit" then Transaction.amount x
  else if String.eqb (Transaction.transaction_type x) "debit"
       then PrimFloat.opp (Transaction.amount x)
       else PrimFloat.zero.

(** The completed entries of one account. *)
Definition completed_entries (uid : uuid) (xs : list Transaction.t) : list Transaction.t :=
  List.filter
    (fun x => N.eqb (Transaction.user_id x) uid
              && String.eqb (Transaction.status x) "completed")
    xs.

(** The sum of the signed amounts of the completed entries of an account. *)
Definition ledger_total (uid : uuid) (xs : list Transaction.t) : float :=
  fold_left (fun acc x => PrimFloat.add acc (signed_amount x))
    (completed_entries uid xs) PrimFloat.zero.

Section Ledger.
Context {rt : PyRuntime}.

(** One request against the ledger of account [uid], in a session of its own. *)
Definition ledger_request (uid : uuid) (op : ledger_op) : M unit :=
  endpoint
    (match op with
     | debit c desc =>
         (user <- session_get_user uid ;;
          match user with
          | Some u => deduct_and_log_wallet u c desc
          | None => raise (HTTPException 404 "User not found")
          end)%py
     | credit request => (add_balance_to_user uid request ;; ret tt)%py
     end).

(** A sequence of requests, each with the environment it runs in; a request
    that raises leaves what it committed and the sequence goes on. *)
Fixpoint ledger_run (uid : uuid) (steps : list (Env * ledger_op)) (w : World) : World :=
  match steps with
  | [] => w
  | (env, op) :: steps' => ledger_run uid steps' (snd (ledger_request uid op env w))
  end.

(** The stored balance read as a double equals the ledger total. *)
Definition ledger_balanced (uid : uuid) (t : Tables) : bool :=
  match users t !! uid with
  | Some u => PrimFloat.eqb (wallet_float u) (ledger_total uid (transactions t))
  | None => true
  end.

(** A second delivery of the same report leaves the balances and the
    texts sent to observers as the first delivery left them. *)
Definition replay_is_silent (env : Env) (w : World) (report : Report.t) : Prop :=
  let w1 := snd (endpoint (delivery_report_webhook report) env w) in
  let w2 := snd (endpoint (delivery_report_webhook report) env w1) in
  users (database w2) = users (database w1)
  /\ send_text_calls w2 = send_text_calls w1.

End Ledger.

(** ** The rate rule in the words of the specification *)

(** One unit up to 160 characters, [ceil(length / 153)] units beyond. *)
Definition spec_unit_count (length : Z) : Z :=
  if length <=? 160 then 1 else Qceiling (length # 153).

(** ** A runtime and data for closed examples

    [short_runtime] agrees with CPython on the short numbers the examples
    use: a decimal whose coefficient and power of ten are both below 2^53
    converts to a double by one correctly rounded multiplication or division,
    and a whole double below 10^16 prints as its digits followed by [.0].
    It answers [None] on every other double, which the examples do not reach.
    Amounts are read as an optional sign, digits and an optional fraction. *)

Definition float_of_Z (n : Z) : float :=
  match n with
  | Z0 => PrimFloat.zero
  | Zpos p => PrimFloat.of_uint63 (Uint63Axioms.of_pos p)
  | Zneg p => PrimFloat.opp (PrimFloat.of_uint63 (Uint63Axioms.of_pos p))
  end.

Definition short_float_of_Decimal (d : Decimal) : float :=
  if 0 <=? expo d
  then PrimFloat.mul (float_of_Z (coef d)) (float_of_Z (10 ^ expo d))
  else PrimFloat.div (float_of_Z (coef d)) (float_of_Z (10 ^ (- expo d))).

Definition short_Decimal_of_repr (f : float) : option Decimal :=
  match Prim2SF f with
  | S754_zero _ => Some (Dec 0 (-1))
  | S754_finite s m e =>
      let n := if 0 <=? e then Z.pos m * 2 ^ e else Z.pos m / 2 ^ (- e) in
      let whole := if 0 <=? e then true else Z.pos m mod 2 ^ (- e) =? 0 in
      if whole && (n <? 10 ^ 16)
      then Some (Dec ((if s then - n else n) * 10) (-1))
      else None
  | _ => None
  end.

(** The digits of a plain numeral: coefficient so far and digits after the point. *)
Fixpoint read_digits (s : string) (acc : Z) (frac : option Z) : option Decimal :=
  match s with
  | EmptyString => Some (Dec acc (match frac with Some k => - k | None => 0 end))
  | String c t =>
      let n := Z.of_nat (nat_of_ascii c) in
      if (48 <=? n) && (n <=? 57)
      then read_digits t (acc * 10 + (n - 48)) (option_map Z.succ frac)
      else if (n =? 46) && (match frac with None => true | Some _ => false end)
           then read_digits t acc (Some 0)
           else None
  end.

Definition short_Decimal_of_str (s : string) : option Decimal :=
  match s with
  | EmptyString => None
  | String "-" t =>
      option_map (fun d => Dec (- coef d) (expo d)) (read_digits t 0 None)
  | String "+" t => read_digits t 0 None
  | _ => read_digits s 0 None
  end.

Definition short_runtime : PyRuntime :=
  {| float_of_Decimal := short_float_of_Decimal;
     Decimal_of_repr := short_Decimal_of_repr;
     Decimal_of_str := short_Decimal_of_str |}.

Module Example.

(** An account with [wallet = "100.00"] on the default price "32". *)
Definition alice : User.t :=
  {| User.id := 1%N;
     User.wallet := Some (str_Decimal (Dec 10000 (-2)));
     User.sms_cost := Some Decimal_32 |}.

(** A sent message waiting for its delivery report. *)
Definition sent_row : SmsHistory.t :=
  {| SmsHistory.user_id := 1%N;
     SmsHistory.recipient := "+256700000001";
     SmsHistory.message := "hi";
     SmsHistory.status := "success";
     SmsHistory.sms_count := 1;
     SmsHistory.cost := short_float_of_Decimal Decimal_32;
     SmsHistory.external_id := Some "ATXid_1";
     SmsHistory.template_id := None;
     SmsHistory.error_message := None;
     SmsHistory.sent_at := Some 1000;
     SmsHistory.delivered_at := None |}.

(** A new account, on the defaults of the model: [wallet = "10.0"]. *)
Definition newcomer : User.t := User.new 1%N.

(** An account with [wallet = "100.00"] that pays 1 per unit. *)
Definition bob : User.t :=
  {| User.id := 1%N;
     User.wallet := Some (str_Decimal (Dec 10000 (-2)));
     User.sms_cost := Some (Dec 1 0) |}.

(** The row above after a report "Delivered" at time 2000. *)
Definition delivered_row : SmsHistory.t :=
  reconciled sent_row "delivered" None (Some 2000).


Definition tables (u : User.t) (rows : list SmsHistory.t) : Tables :=
  {| users := {[ User.id u := u ]};
     templates := ∅;
     transactions := [];
     sms_history := rows |}.

(** A world with two observers connected. *)
Definition world (t : Tables) : World :=
  {| database := t;
     session := t;
     active_connections := {[ 7%N; 8%N ]};
     send_text_calls := [];
     gateway_calls := [] |}.

(** The provider's per-recipient answer: numbers ending in 9 are rejected. *)
Definition answer (number : string) : Recipient.t :=
  if String.eqb (String.substring (String.length number - 1) 1 number) "9"
  then {| Recipient.number := number; Recipient.status := "InvalidPhoneNumber";
          Recipient.statusCode := 403; Recipient.cost := "0";
          Recipient.messageId := None |}
  else {| Recipient.number := number; Recipient.status := "Success";
          Recipient.statusCode := 101; Recipient.cost := "UGX 32.0000";
          Recipient.messageId := Some ("ATXid_" +:+ number) |}.

(** The gateway answers; socket 8 is gone, socket 7 is up. *)
Definition env_up (now : datetime) : Env :=
  {| utcnow := now;
     at_sender_id := None;
     sms_send := fun args =>
       SMSMessageData "Sent" (List.map answer (send_recipients args));
     socket_ok := fun conn => N.eqb conn 7;
     uuid4_hex8 := "0A1B2C3D";
     first_match := 0;
     enforces_max_length := true |}.

(** The gateway cannot be reached. *)
Definition env_down (now : datetime) : Env :=
  {| utcnow := now;
     at_sender_id := None;
     sms_send := fun _ => gateway_raises "ConnectionError";
     socket_ok := fun conn => N.eqb conn 7;
     uuid4_hex8 := "0A1B2C3D";
     first_match := 0;
     enforces_max_length := true |}.

Definition one_sms : SendSMSRequest :=
  {| to := ["+256700000001"]; message := "hi"; from_ := None;
     template_id := None; enqueue := true |}.

Definition five_sms : SendSMSRequest :=
  {| to := ["+256700000001"; "+256700000002"; "+256700000003";
            "+256700000009"; "+256700000019"];
     message := "hi"; from_ := None; template_id := None; enqueue := true |}.


Definition top_up : AddBalanceRequest :=
  {| req_user_id := 1%N;
     amount := float_of_Z 5;
     description := Some "Admin credit adjustment";
     payment_method := "admin_adjustment" |}.

Definition ninety : AddBalanceRequest :=
  {| req_user_id := 1%N;
     amount := float_of_Z 90;
     description := Some "Admin credit adjustment";
     payment_method := "admin_adjustment" |}.

Definition delivered_report : Report.t :=
  {| Report.phoneNumber := Some "+256700000001";
     Report.status := Some "Delivered";
     Report.id := Some "ATXid_1";
     Report.failureReason := None |}.

Definition failed_report : Report.t :=
  {| Report.phoneNumber := Some "+256700000001";
     Report.status := Some "Failed";
     Report.id := Some "ATXid_1";
     Report.failureReason := Some "DeliveryFailure" |}.

Definition unknown_report : Report.t :=
  {| Report.phoneNumber := Some "+256700000001";
     Report.status := Some "Delivered";
     Report.id := Some "ATXid_unknown";
     Report.failureReason := None |}.

End Example.

(** ** Pure readings of the handlers' steps, used to state what they leave *)

(** The text [send_sms] sends: the template's content when a template of the
    caller is named, the payload's message when none is; [None] is the 404. *)
Definition template_text (payload : SendSMSRequest) (current_user : User.t)
    (t : Tables) : option string :=
  match template_id payload with
  | Some tid =>
      match templates t !! tid with
      | Some tpl =>
          if decide (Template.owner_id tpl = User.id current_user)
          then Some (Template.content tpl)
          else None
      | None => None
      end
  | None => Some (message payload)
  end.

(** The [send_text] calls of one broadcast over the sockets [conns]. *)
Definition send_text_log (message : Event) (env : Env) (conns : list WebSocket)
    : list (WebSocket * Event * bool) :=
  List.map (fun conn => (conn, message, socket_ok env conn)) conns.

(** The sockets of [s] whose [send_text] goes through. *)
Definition still_connected (env : Env) (s : gset WebSocket) : gset WebSocket :=
  filter (fun conn => socket_ok env conn = true) s.

(** The world after [broadcast(message)]: one [send_text] per connected
    socket, and the sockets that failed dropped from the manager. *)
Definition after_broadcast (message : Event) (env : Env) (w : World) : World :=
  set_active_connections (still_connected env (active_connections w))
    (set_send_text_calls
       (send_text_calls w ++ send_text_log message env (elements (active_connections w))) w).

(** Rows appended to the history table. *)
Definition add_histories (rows : list SmsHistory.t) (t : Tables) : Tables :=
  {| users := users t; templates := templates t;
     transactions := transactions t; sms_history := sms_history t ++ rows |}.

Section Readings.
Context {rt : PyRuntime}.

(** The world after a debit of [total_cost] from [current_balance] went
    through: the wallet and the ledger entry are written and committed. *)
Definition after_debit (user : User.t) (current_balance total_cost : Decimal)
    (description : string) (now : datetime) (w : World) : World :=
  let user' := User.set_wallet user (Some (wallet_after_debit current_balance total_cost)) in
  let t :=
    add_user user'
      (add_transaction
         (debit_transaction user' current_balance total_cost description now)
         (session w)) in
  set_database t (set_session t w).

(** The arguments [send_sms] passes to the gateway. *)
Definition send_args (payload : SendSMSRequest) (final_message : string) (env : Env)
    : SendArgs :=
  {| send_message := final_message;
     send_recipients := to payload;
     send_sender_id :=
       Str.or_else (from_ payload) (Str.or_else (at_sender_id env) "ATUpdates");
     send_enqueue := if enqueue payload then 1 else 0 |}.

(** The description of the debit of [send_sms]. *)
Definition send_description (payload : SendSMSRequest) : string :=
  "SMS to " +:+ pretty (len_list (to payload)) +:+ " recipients".

(** The rows the history loop adds for the gateway's recipients; [None] when
    some cost cannot be read. *)
Definition history_rows (current_user : User.t) (final_message : string)
    (units : Z) (tid : option uuid) (now : datetime) (rs : list Recipient.t)
    : option (list SmsHistory.t) :=
  mapM (fun r => history_row current_user final_message units tid now r
                   <$> recipient_cost r) rs.

End Readings.

(** ** [sms_websocket] *)

(** What [websocket.receive_text()] does next. *)
Inductive frame :=
| text_frame (data : string)     (* returns the text *)
| close_frame                    (* raises WebSocketDisconnect *)
| bad_frame (what : string).     (* raises another exception *)

Definition is_text (f : frame) : Prop :=
  match f with
  | text_frame _ => True
  | _ => False
  end.

(** [while True: await websocket.receive_text()] over the frames that
    arrive. The answer [false] says that the frames ran out with the
    coroutine still waiting. *)
Fixpoint receive_loop (frames : list frame) : M bool :=
  match frames with
  | [] => ret false
  | text_frame _ :: rest => receive_loop rest
  | close_frame :: _ => raise (PyException "WebSocketDisconnect")
  | bad_frame what :: _ => raise (PyException what)
  end.

(** The handler of [/ws]: only [WebSocketDisconnect] is caught. The answer
    [true] says that the handler returned. *)
Definition sms_websocket (websocket : WebSocket) (frames : list frame) : M bool :=
  (connect websocket ;;
   try_except (receive_loop frames)
     (fun e =>
        match e with
        | PyException name =>
            if String.eqb name "WebSocketDisconnect"
            then (disconnect websocket ;; ret true)
            else raise e
        | HTTPException _ _ => raise e
        end))%py.

(** The [send_text] calls made on one socket. *)
Definition calls_to (conn : WebSocket) (calls : list (WebSocket * Event * bool))
    : list (WebSocket * Event * bool) :=
  filter (fun call => call.1.1 = conn) calls.

(** ** Shapes of the stored data *)

(** The users table is keyed by the rows' own ids, as a primary key is. *)
Definition keyed_by_id (t : Tables) : Prop :=
  forall k u, users t !! k = Some u -> User.id u = k.

(** An amount as the gateway prints it: no white space and no capital U. *)
Fixpoint plain_amount (text : string) : Prop :=
  match text with
  | EmptyString => True
  | String c rest => Str.is_space c = false /\ c <> "U"%char /\ plain_amount rest
  end.

(** ** [create_prebuilt_template] (admin) *)

(** The request body [BulkTemplateCreate]; [name], [tag] and [default] go to
    columns that [Template.t] does not carry. *)
Record BulkTemplateCreate := {
  tpl_name : string;
  tpl_content : string;
  tpl_tag : string;
  tpl_default : bool;
}.

Definition add_template (tpl : Template.t) (t : Tables) : Tables :=
  {| users := users t; templates := <[Template.id tpl := tpl]> (templates t);
     transactions := transactions t; sms_history := sms_history t |}.

(** [session.add(template)] for a new row: the INSERT needs a free primary key. *)
Definition session_insert_template (tpl : Template.t) : M unit :=
  (existing <- session_get_template (Template.id tpl) ;;
   match existing with
   | Some _ => raise (PyException "IntegrityError")
   | None => session_add (add_template tpl)
   end)%py.

(** [new_id] is the [uuid.uuid4()] that the default factory of [Template.id]
    draws; [current_user] is the superuser the route's dependency let in. *)
Definition create_prebuilt_template (template_data : BulkTemplateCreate)
    (current_user : User.t) (new_id : uuid) : M Template.t :=
  (let template :=
     {| Template.id := new_id;
        Template.owner_id := User.id current_user;
        Template.content := tpl_content template_data |} in
   session_insert_template template ;;
   session_commit ;;
   ret template)%py.

(** ** [bulk_update_user_plan] (admin) *)

(** [PLANS]: each plan with the decimal its ["sms_cost"] literal denotes. *)
Definition PLANS : list (string * Decimal) :=
  [("Basic", Dec 35 0); ("Standard", Dec 33 0);
   ("Premium", Dec 32 0); ("Enterprise", Dec 30 0)].

(** [PLANS[new_plan]["sms_cost"]]; [None] when [new_plan not in PLANS]. *)
Definition PLANS_sms_cost (new_plan : string) : option Decimal :=
  snd <$> List.find (fun plan => String.eqb plan.1 new_plan) PLANS.

Definition set_sms_cost (u : User.t) (c : option Decimal) : User.t :=
  {| User.id := User.id u; User.wallet := User.wallet u; User.sms_cost := c |}.

(** [select(User).where(User.id.in_(user_ids))] then [.all()]: each matching
    row once, in the order of the table. *)
Definition select_users_in (user_ids : list uuid) (t : Tables) : list User.t :=
  filter (fun u => User.id u ∈ user_ids) (map_to_list (users t)).*2.

(** The result stands for the [Message] whose text interpolates
    [updated_count], [new_plan] and [new_sms_cost]; the column [plan_sub],
    set next to [sms_cost], is not carried by [User.t]. *)
Definition bulk_update_user_plan (user_ids : list uuid) (new_plan : string)
    : M (Z * string * Decimal) :=
  (if 1000 <? len_list user_ids
   then raise (HTTPException 400 "Cannot update more than 1000 users at once")
   else
     match PLANS_sms_cost new_plan with
     | None =>
         raise (HTTPException 400
                  ("Invalid plan. Available plans: " +:+ String.concat ", " PLANS.*1))
     | Some new_sms_cost =>
         users <- gets (fun w => select_users_in user_ids (session w)) ;;
         updated_count <-
           for_each users 0
             (fun updated_count user =>
                session_add (add_user (set_sms_cost user (Some new_sms_cost))) ;;
                ret (updated_count + 1)) ;;
         session_commit ;;
         ret (updated_count, new_plan, new_sms_cost)
     end)%py.

(** The rows after the loop of [bulk_update_user_plan] over [rows]. *)
Definition with_sms_cost (c : Decimal) (rows : list User.t) (t : Tables) : Tables :=
  foldl (fun t u => add_user (set_sms_cost u (Some c)) t) t rows.

(** ** [create_user] ([app/crud.py]) *)

(** [UserCreate], as far as the columns of [User.t] go. A field that the
    request leaves out has the default of [UserBase]. *)
Record UserCreate := {
  uc_wallet : option numtext;
  uc_sms_cost : option Decimal;
}.

(** A [UserCreate] that names neither: [wallet = "10.0"], [sms_cost = "32"]. *)
Definition UserCreate_defaults : UserCreate :=
  {| uc_wallet := Some (str_Decimal Decimal_10_0); uc_sms_cost := Some Decimal_32 |}.

(** [session.add(db_obj)] for a new row: the INSERT needs a free primary key. *)
Definition session_insert_user (u : User.t) : M unit :=
  (existing <- session_get_user (User.id u) ;;
   match existing with
   | Some _ => raise (PyException "IntegrityError")
   | None => session_add (add_user u)
   end)%py.

(** [new_id] is the [uuid.uuid4()] that the default factory of [User.id]
    draws. No ledger entry is written. *)
Definition create_user (user_create : UserCreate) (new_id : uuid) : M User.t :=
  (let db_obj :=
     {| User.id := new_id;
        User.wallet := uc_wallet user_create;
        User.sms_cost := uc_sms_cost user_create |} in
   session_insert_user db_obj ;;
   session_commit ;;
   ret db_obj)%py.

(** ** The ledger of one account in the words of the amended invariant *)

(** What the invariant sees of a ledger entry: its kind and its amount. *)
Definition entries_of (uid : uuid) (t : Tables) : list (string * float) :=
  (fun x => (Transaction.transaction_type x, Transaction.amount x))
    <$> completed_entries uid (transactions t).

Section LedgerWords.
Context {rt : PyRuntime}.

(** One request as the invariant tells it, on the stored balance and the
    entries, oldest first. A debit of [c] goes through when the balance,
    read as a decimal, covers it: the balance becomes the difference,
    rounded half-even to two places, and a debit entry of [c] is added. A
    credit of [a] goes through always: the balance becomes the binary64 sum
    of the balance read as a double and [a], and a credit entry of [a] is
    added. A request that does not go through changes nothing. *)
Definition spec_request (op : ledger_op)
    (account : option numtext * list (string * float))
    : option numtext * list (string * float) :=
  let '(balance, entries) := account in
  let text := default (str_Decimal Decimal_0_0) balance in
  match op with
  | debit c _ =>
      match Decimal_of text with
      | Some b =>
          if Decimal_.ltb b c then account
          else (Some (str_Decimal (Decimal_.quantize (Decimal_.sub b c) Decimal_0_01)),
                (entries ++ [("debit", float_of_Decimal c)])%list)
      | None => account
      end
  | credit request =>
      (Some (str_float (PrimFloat.add (float_of text) (amount request))),
       (entries ++ [("credit", amount request)])%list)
  end.

(** A sequence of requests, in order. *)
Definition spec_ledger (ops : list ledger_op)
    (account : option numtext * list (string * float))
    : option numtext * list (string * float) :=
  foldl (fun account op => spec_request op account) account ops.

End LedgerWords.

(** ** More data for closed examples *)

Module Sample.

(** A second account. *)
Definition carol : User.t :=
  {| User.id := 2%N;
     User.wallet := Some (str_Decimal (Dec 10000 (-2)));
     User.sms_cost := Some Decimal_32 |}.

(** An account whose wallet column is NULL. *)
Definition broke : User.t :=
  {| User.id := 1%N; User.wallet := None; User.sms_cost := Some Decimal_32 |}.

(** A template of account 1. *)
Definition greeting : Template.t :=
  {| Template.id := 5%N; Template.owner_id := 1%N; Template.content := "hello" |}.

Definition tables_with_template (u : User.t) : Tables :=
  {| users := {[ User.id u := u ]};
     templates := {[ 5%N := greeting ]};
     transactions := [];
     sms_history := [] |}.

Definition templated_sms : SendSMSRequest :=
  {| to := ["+256700000001"]; message := "ignored"; from_ := None;
     template_id := Some 5%N; enqueue := true |}.

Definition nobody_sms : SendSMSRequest :=
  {| to := []; message := "hi"; from_ := None;
     template_id := None; enqueue := true |}.

(** The gateway prices in another currency. *)
Definition env_other_currency (now : datetime) : Env :=
  {| utcnow := now;
     at_sender_id := None;
     sms_send := fun args =>
       SMSMessageData "Sent"
         (List.map
            (fun number =>
               {| Recipient.number := number; Recipient.status := "Success";
                  Recipient.statusCode := 101; Recipient.cost := "KES 0.8000";
                  Recipient.messageId := Some ("ATXid_" +:+ number) |})
            (send_recipients args));
     socket_ok := fun conn => N.eqb conn 7;
     uuid4_hex8 := "0A1B2C3D";
     first_match := 0;
     enforces_max_length := true |}.

(** A row for a recipient the gateway gave no message id. *)
Definition rejected_row : SmsHistory.t :=
  {| SmsHistory.user_id := 1%N;
     SmsHistory.recipient := "+256700000009";
     SmsHistory.message := "hi";
     SmsHistory.status := "invalidphonenumber";
     SmsHistory.sms_count := 1;
     SmsHistory.cost := short_float_of_Decimal (Dec 0 0);
     SmsHistory.external_id := None;
     SmsHistory.template_id := None;
     SmsHistory.error_message := None;
     SmsHistory.sent_at := Some 1000;
     SmsHistory.delivered_at := None |}.

Definition report_without_id : Report.t :=
  {| Report.phoneNumber := Some "+256700000001";
     Report.status := Some "Delivered";
     Report.id := None;
     Report.failureReason := None |}.

Definition report_without_status : Report.t :=
  {| Report.phoneNumber := Some "+256700000001";
     Report.status := None;
     Report.id := Some "ATXid_1";
     Report.failureReason := None |}.

Definition report_for_sent : Report.t :=
  {| Report.phoneNumber := Some "+256700000001";
     Report.status := Some "Delivered";
     Report.id := Some "ATXid_+256700000001";
     Report.failureReason := None |}.


(** A database that returns the later of two matching rows first. *)
Definition env_second_match (now : datetime) : Env :=
  {| utcnow := now;
     at_sender_id := None;
     sms_send := fun _ => gateway_raises "ConnectionError";
     socket_ok := fun conn => N.eqb conn 7;
     uuid4_hex8 := "0A1B2C3D";
     first_match := 1;
     enforces_max_length := true |}.

(** The report for the second number of a batch. *)
Definition report_for_second : Report.t :=
  {| Report.phoneNumber := Some "+256700000002";
     Report.status := Some "Delivered";
     Report.id := Some "ATXid_+256700000002";
     Report.failureReason := None |}.

(** An admin "credit" of -5. *)
Definition claw_back : AddBalanceRequest :=
  {| req_user_id := 1%N;
     amount := float_of_Z (-5);
     description := Some "Admin credit adjustment";
     payment_method := "admin_adjustment" |}.

Definition prebuilt : BulkTemplateCreate :=
  {| tpl_name := "welcome"; tpl_content := "Welcome to Luco";
     tpl_tag := "prebuilt"; tpl_default := true |}.

End Sample.

(** * Facts *)

(** ** Decimal arithmetic denotes what it should *)

Lemma ten_nonzero : ~ (inject_Z 10 == 0)%Q.
Proof. discriminate. Qed.

Lemma Qpower_ten_pos (e : Z) : (0 < Qpower (inject_Z 10) e)%Q.
Proof. apply Qpower_0_lt. reflexivity. Qed.

Lemma rescale_value (e : Z) (d : Decimal) :
  e <= expo d ->
  (inject_Z (Decimal_.rescale e d) == Decimal_.value d * Qpower (inject_Z 10) (- e))%Q.
Proof.
  intros He. unfold Decimal_.rescale, Decimal_.value.
  rewrite inject_Z_mult, Zpower_Qpower by lia.
  replace (expo d - e) with (expo d + - e) by lia.
  rewrite Qpower_plus by apply ten_nonzero.
  ring.
Qed.

Lemma ltb_lt (a b : Decimal) :
  Decimal_.ltb a b = true <-> (Decimal_.value a < Decimal_.value b)%Q.
Proof.
  unfold Decimal_.ltb. cbv zeta.
  set (e := Z.min (expo a) (expo b)).
  rewrite Z.ltb_lt, Zlt_Qlt, !rescale_value by lia.
  split; intros Hlt.
  - apply Qmult_lt_r in Hlt; [exact Hlt | apply Qpower_ten_pos].
  - apply Qmult_lt_r; [apply Qpower_ten_pos | exact Hlt].
Qed.

Lemma sub_value (a b : Decimal) :
  (Decimal_.value (Decimal_.sub a b) == Decimal_.value a - Decimal_.value b)%Q.
Proof.
  unfold Decimal_.sub. cbv zeta.
  set (e := Z.min (expo a) (expo b)).
  unfold Decimal_.value at 1. cbn [coef expo].
  unfold Z.sub. rewrite inject_Z_plus, inject_Z_opp, !rescale_value by lia.
  assert (Hone : (Qpower (inject_Z 10) (- e) * Qpower (inject_Z 10) e == 1)%Q).
  { rewrite <- Qpower_plus by apply ten_nonzero.
    replace (- e + e) with 0 by lia. reflexivity. }
  transitivity ((Decimal_.value a - Decimal_.value b) * (Qpower (inject_Z 10) (- e) * Qpower (inject_Z 10) e))%Q.
  - ring.
  - rewrite Hone. ring.
Qed.

Lemma mul_int_value (d : Decimal) (n : Z) :
  (Decimal_.value (Decimal_.mul_int d n) == Decimal_.value d * inject_Z n)%Q.
Proof.
  unfold Decimal_.mul_int, Decimal_.value. cbn [coef expo].
  rewrite inject_Z_mult. ring.
Qed.

Lemma round_half_even_near (n p : Z) :
  0 < p -> Z.abs (2 * (Decimal_.round_half_even n p * p - n)) <= p.
Proof.
  intros Hp. unfold Decimal_.round_half_even. cbv zeta.
  pose proof (Z.div_mod n p ltac:(lia)) as Hdm.
  pose proof (Z.mod_pos_bound n p Hp) as Hr.
  destruct (2 * (n mod p) <? p) eqn:E1; [apply Z.ltb_lt in E1; nia|].
  apply Z.ltb_ge in E1.
  destruct (p <? 2 * (n mod p)) eqn:E2; [apply Z.ltb_lt in E2; nia|].
  apply Z.ltb_ge in E2.
  destruct (Z.even (n / p)); nia.
Qed.

Lemma round_half_even_nonneg (n p : Z) :
  0 < p -> 0 <= n -> 0 <= Decimal_.round_half_even n p.
Proof.
  intros Hp Hn. unfold Decimal_.round_half_even. cbv zeta.
  pose proof (Z.div_pos n p Hn Hp).
  repeat case_match; lia.
Qed.

Lemma rescale_rescale (e1 e2 : Z) (d : Decimal) :
  e1 <= e2 <= expo d ->
  Decimal_.rescale e1 d = Decimal_.rescale e2 d * 10 ^ (e2 - e1).
Proof.
  intros He. unfold Decimal_.rescale.
  rewrite <- Z.mul_assoc, <- Z.pow_add_r by lia.
  do 2 f_equal. lia.
Qed.

Lemma quantize_expo (d q : Decimal) : expo (Decimal_.quantize d q) = expo q.
Proof. unfold Decimal_.quantize. cbv zeta. by case_match. Qed.

Lemma quantize_exact (d q : Decimal) :
  expo q <= expo d -> (Decimal_.value (Decimal_.quantize d q) == Decimal_.value d)%Q.
Proof.
  intros He. unfold Decimal_.quantize. cbv zeta.
  apply Z.leb_le in He as Hb. rewrite Hb.
  unfold Decimal_.value at 1. cbn [coef expo].
  rewrite rescale_value by lia.
  rewrite <- Qmult_assoc, <- Qpower_plus by apply ten_nonzero.
  replace (- expo q + expo q) with 0 by lia.
  cbn [Qpower]. ring.
Qed.

Lemma quantize_near (d q : Decimal) :
  (Qabs (Decimal_.value (Decimal_.quantize d q) - Decimal_.value d)
     <= (1 # 2) * Qpower (inject_Z 10) (expo q))%Q.
Proof.
  destruct (Z.le_gt_cases (expo q) (expo d)) as [He | He].
  - rewrite quantize_exact by done.
    setoid_replace (Decimal_.value d - Decimal_.value d)%Q with 0%Q using relation Qeq by ring.
    cbn [Qabs Z.abs Qnum Qden].
    apply Qmult_le_0_compat; [discriminate | apply Qlt_le_weak, Qpower_ten_pos].
  - unfold Decimal_.quantize. cbv zeta.
    apply Z.leb_gt in He as Hb. rewrite Hb.
    set (p := 10 ^ (expo q - expo d)).
    assert (Hp : 0 < p) by (apply Z.pow_pos_nonneg; lia).
    pose proof (round_half_even_near (coef d) p Hp) as Hnear.
    set (r := Decimal_.round_half_even (coef d) p) in *.
    unfold Decimal_.value. cbn [coef expo].
    assert (Hten : (Qpower (inject_Z 10) (expo q)
                    == inject_Z p * Qpower (inject_Z 10) (expo d))%Q).
    { unfold p. rewrite Zpower_Qpower by lia.
      rewrite <- Qpower_plus by apply ten_nonzero.
      replace (expo q - expo d + expo d) with (expo q) by lia. reflexivity. }
    rewrite Hten.
    setoid_replace (inject_Z r * (inject_Z p * Qpower (inject_Z 10) (expo d))
                    - inject_Z (coef d) * Qpower (inject_Z 10) (expo d))%Q
      with (inject_Z (r * p - coef d) * Qpower (inject_Z 10) (expo d))%Q
      using relation Qeq by (unfold Z.sub; rewrite inject_Z_plus, inject_Z_opp, inject_Z_mult; ring).
    rewrite Qabs_Qmult.
    rewrite (Qabs_pos (Qpower _ _)) by apply Qlt_le_weak, Qpower_ten_pos.
    rewrite Qmult_assoc.
    apply Qmult_le_compat_r; [| apply Qlt_le_weak, Qpower_ten_pos].
    replace (Qabs (inject_Z (r * p - coef d)))
      with (inject_Z (Z.abs (r * p - coef d))) by reflexivity.
    setoid_replace ((1 # 2) * inject_Z p)%Q with (inject_Z p / 2)%Q using relation Qeq by field.
    apply Qle_shift_div_l; [reflexivity|].
    change 2%Q with (inject_Z 2). rewrite <- inject_Z_mult, <- Zle_Qle.
    lia.
Qed.

Lemma quantize_nonneg (d q : Decimal) :
  0 <= coef d -> 0 <= coef (Decimal_.quantize d q).
Proof.
  intros Hc. unfold Decimal_.quantize. cbv zeta.
  case_match; cbn [coef].
  - unfold Decimal_.rescale. apply Z.mul_nonneg_nonneg; [lia|]. apply Z.pow_nonneg. lia.
  - apply round_half_even_nonneg; [|lia]. apply Z.pow_pos_nonneg; lia.
Qed.

Lemma sub_nonneg (a b : Decimal) :
  Decimal_.ltb a b = false -> 0 <= coef (Decimal_.sub a b).
Proof.
  unfold Decimal_.ltb, Decimal_.sub. cbv zeta. cbn [coef].
  intros Hlt%Z.ltb_ge. lia.
Qed.

Lemma cents_debit (a b : Decimal) :
  Decimal_.two_places a -> Decimal_.two_places b ->
  Decimal_.cents (Decimal_.quantize (Decimal_.sub a b) Decimal_0_01)
  = Decimal_.cents a - Decimal_.cents b.
Proof.
  unfold Decimal_.two_places, Decimal_.cents. intros Ha Hb.
  set (e := Z.min (expo a) (expo b)).
  assert (He : -2 <= e) by (unfold e; lia).
  unfold Decimal_.quantize, Decimal_.sub, Decimal_0_01. cbv zeta. cbn [expo].
  fold e. apply Z.leb_le in He as Hle. rewrite Hle.
  rewrite (rescale_rescale (-2) e a), (rescale_rescale (-2) e b) by (unfold e; lia).
  unfold Decimal_.rescale at 1 2. cbn [coef expo].
  replace (-2 - -2) with 0 by lia. rewrite Z.pow_0_r.
  lia.
Qed.

(** ** What each handler returns and leaves behind *)

Section Runs.
Context {rt : PyRuntime}.

Lemma resolve_template_run payload current_user env w :
  resolve_template payload current_user env w =
  match template_text payload current_user (session w) with
  | Some text => (Return text, w)
  | None => (Raise (HTTPException 404 "Template not found"), w)
  end.
Proof.
  unfold resolve_template, template_text.
  destruct (template_id payload) as [tid|]; [|reflexivity].
  unfold bind, session_get_template, gets.
  destruct (templates (session w) !! tid) as [tpl|]; [|reflexivity].
  by case_decide.
Qed.

(** The world after a debit went through. *)
Lemma deduct_and_log_wallet_run user total_cost description env w :
  deduct_and_log_wallet user total_cost description env w =
  match wallet_Decimal user with
  | None => (Raise (PyException "InvalidOperation"), w)
  | Some current_balance =>
      if Decimal_.ltb current_balance total_cost
      then (Raise (HTTPException 400 "Insufficient funds"), w)
      else
        let user' := User.set_wallet user (Some (wallet_after_debit current_balance total_cost)) in
        let t := add_user user'
                   (add_transaction
                      (debit_transaction user' current_balance total_cost description (utcnow env))
                      (session w)) in
        (Return tt, set_database t (set_session t w))
  end.
Proof.
  unfold deduct_and_log_wallet, bind, or_raise.
  destruct (wallet_Decimal user) as [current_balance|]; [|reflexivity].
  cbn [ret]. by destruct (Decimal_.ltb current_balance total_cost).
Qed.


Lemma broadcast_loop message env conns (acc : gset WebSocket) w :
  for_each conns acc
    (fun disconnected conn =>
       try_except (send_text conn message ;; ret disconnected)%py
                  (fun _ => ret (disconnected ∪ {[conn]}))) env w
  = (Return (acc ∪ list_to_set (filter (fun c => socket_ok env c = false) conns)),
     set_send_text_calls (send_text_calls w ++ send_text_log message env conns) w).
Proof.
  revert acc w. induction conns as [|conn conns IH]; intros acc w.
  - cbn. rewrite app_nil_r, (right_id_L ∅ (∪)). by destruct w.
  - cbn [for_each]. unfold bind at 1, try_except, send_text, bind at 1.
    rewrite filter_cons. cbn [send_text_log List.map].
    destruct (socket_ok env conn) eqn:Hok; cbn [ret]; rewrite IH.
    + rewrite decide_False by done. f_equal.
      unfold set_send_text_calls, log_send_text. cbn. by rewrite <- app_assoc.
    + rewrite decide_True by done. f_equal.
      * f_equal. rewrite list_to_set_cons. by rewrite (assoc_L (∪)).
      * unfold set_send_text_calls, log_send_text. cbn. by rewrite <- app_assoc.
Qed.

Lemma broadcast_run message env w :
  broadcast message env w = (Return tt, after_broadcast message env w).
Proof.
  unfold broadcast, bind at 1, gets. unfold bind at 1.
  rewrite broadcast_loop. unfold modify, after_broadcast. f_equal.
  unfold set_active_connections, set_send_text_calls. cbn. f_equal.
  unfold still_connected. apply set_eq. intros c.
  rewrite elem_of_difference, elem_of_union, elem_of_list_to_set,
    list_elem_of_filter, elem_of_elements, elem_of_filter.
  destruct (socket_ok env c); rewrite ?elem_of_empty; intuition congruence.
Qed.


Lemma log_history_run current_user final_message units tid r env w :
  log_history current_user final_message units tid r env w =
  match recipient_cost r with
  | Some cost =>
      (Return tt,
       set_session
         (add_history (history_row current_user final_message units tid (utcnow env) r cost)
            (session w)) w)
  | None => (Raise (PyException "InvalidOperation"), w)
  end.
Proof.
  unfold log_history, bind at 1, or_raise.
  by destruct (recipient_cost r).
Qed.

Lemma add_histories_cons row rows t :
  add_histories rows (add_history row t) = add_histories (row :: rows) t.
Proof. unfold add_histories, add_history. cbn. by rewrite <- app_assoc. Qed.

Lemma history_loop_Some current_user final_message units tid rs rows env w :
  history_rows current_user final_message units tid (utcnow env) rs = Some rows ->
  for_each rs tt (fun _ r => log_history current_user final_message units tid r) env w
  = (Return tt, set_session (add_histories rows (session w)) w).
Proof.
  unfold history_rows. revert rows w.
  induction rs as [|r rs IH]; intros rows w Hrows.
  - injection Hrows as <-. cbn. unfold add_histories, set_session.
    by rewrite app_nil_r.
  - cbn in Hrows. cbn [for_each].
    destruct (recipient_cost r) as [cost|] eqn:Hcost; [|done].
    cbn in Hrows.
    destruct (mapM _ rs) as [rows'|] eqn:Hrest; [|done].
    injection Hrows as <-.
    unfold bind at 1. rewrite log_history_run, Hcost.
    rewrite (IH rows') by done.
    f_equal. unfold set_session at 1 2. cbn [session database active_connections send_text_calls gateway_calls].
    rewrite add_histories_cons. reflexivity.
Qed.


Lemma history_loop_None current_user final_message units tid rs env w :
  history_rows current_user final_message units tid (utcnow env) rs = None ->
  exists t,
    for_each rs tt (fun _ r => log_history current_user final_message units tid r) env w
    = (Raise (PyException "InvalidOperation"), set_session t w).
Proof.
  unfold history_rows. revert w.
  induction rs as [|r rs IH]; intros w Hrows; [done|].
  cbn in Hrows. cbn [for_each].
  unfold bind at 1. rewrite log_history_run.
  destruct (recipient_cost r) as [cost|] eqn:Hcost.
  - cbn in Hrows. destruct (mapM _ rs) as [rows'|] eqn:Hrest; [done|].
    edestruct IH as [t Ht]; [done|].
    exists t. rewrite Ht. reflexivity.
  - exists (session w). reflexivity.
Qed.

Lemma send_sms_run payload current_user env w :
  send_sms payload current_user env w =
  match template_text payload current_user (session w) with
  | None => (Raise (HTTPException 404 "Template not found"), w)
  | Some final_message =>
      let units := sms_units (len_str final_message) in
      let total := request_cost final_message payload current_user in
      match wallet_Decimal current_user with
      | None => (Raise (PyException "InvalidOperation"), w)
      | Some current_balance =>
          if Decimal_.ltb current_balance total
          then (Raise (HTTPException 400 "Insufficient funds"), w)
          else
            let args := send_args payload final_message env in
            let w1 :=
              log_gateway_call args
                (after_debit current_user current_balance total
                   (send_description payload) (utcnow env) w) in
            match sms_send env args with
            | gateway_raises _ => (Raise (HTTPException 502 "SMS gateway failed"), w1)
            | SMSMessageData data_message recipients_data =>
                match history_rows current_user final_message units
                        (template_id payload) (utcnow env) recipients_data with
                | None => (Raise (HTTPException 502 "SMS gateway failed"), w1)
                | Some rows =>
                    if enforces_max_length env && negb (forallb fits_message_column rows)
                    then (Raise (HTTPException 502 "SMS gateway failed"), w1)
                    else
                      let t := add_histories rows (database w1) in
                      (Return {| batch_id := None;
                                 summary := data_message;
                                 total_sent := len_list recipients_data;
                                 total_cost_ugx := total;
                                 recipients := recipients_data |},
                       after_broadcast
                         (sms_batch_sent (User.id current_user) data_message
                            (len_list recipients_data) total (utcnow env))
                         env (set_database t (set_session t w1)))
                end
            end
      end
  end.
Proof.
  unfold send_sms, bind at 1. rewrite resolve_template_run.
  destruct (template_text payload current_user (session w)) as [final_message|];
    [|reflexivity].
  unfold bind at 1. rewrite deduct_and_log_wallet_run.
  fold (request_cost final_message payload current_user).
  destruct (wallet_Decimal current_user) as [current_balance|]; [|reflexivity].
  destruct (Decimal_.ltb current_balance _) eqn:Hlt; [reflexivity|].
  cbv zeta. unfold bind at 1, ask, try_except, bind at 1, gateway_send.
  fold (send_args payload final_message env).
  destruct (sms_send env (send_args payload final_message env))
    as [data_message recipients_data | what]; [|reflexivity].
  unfold bind at 1.
  destruct (history_rows current_user final_message
              (sms_units (len_str final_message)) (template_id payload)
              (utcnow env) recipients_data) as [rows|] eqn:Hrows.
  - rewrite (history_loop_Some _ _ _ _ _ rows) by done.
    unfold bind at 1, flush_history, bind at 1, ask, bind at 1, gets, pending_history.
    cbn [session database set_session set_database after_debit log_gateway_call
         add_histories sms_history].
    rewrite drop_app_length.
    destruct (enforces_max_length env && negb (forallb fits_message_column rows));
      [reflexivity|].
    unfold ret, bind at 1, session_commit, modify, bind at 1, bind at 1.
    rewrite broadcast_run. reflexivity.
  - edestruct history_loop_None as [t Ht]; [exact Hrows|].
    rewrite Ht. reflexivity.
Qed.


Lemma delivery_report_webhook_run report env w :
  delivery_report_webhook report env w =
  let event :=
    delivery_update (Report.phoneNumber report) (Report.status report)
      (Report.id report) (Report.failureReason report) in
  match first_by_external_id (first_match env) (Report.id report)
          (sms_history (session w)) with
  | Some (i, history) =>
      match Report.status report with
      | None => (Raise (PyException "AttributeError"), w)
      | Some s =>
          let t :=
            update_history i
              (reconciled history (Str.lower s) (Report.failureReason report)
                 (if Str.contains "Delivered" s then Some (utcnow env) else None))
              (session w) in
          (Return [("status", "received")],
           after_broadcast event env (set_database t (set_session t w)))
      end
  | None => (Return [("status", "received")], after_broadcast event env w)
  end.
Proof.
  unfold delivery_report_webhook. cbv zeta. unfold bind at 1, ask, bind at 1, gets.
  destruct (first_by_external_id (first_match env) (Report.id report)
              (sms_history (session w)))
    as [[i history]|].
  - unfold bind at 1, bind at 1, or_raise.
    destruct (Report.status report) as [s|]; [|reflexivity].
    cbn [ret]. unfold bind at 1, ask, bind at 1, session_add, modify, session_commit.
    unfold bind at 1, modify. cbv beta iota. rewrite broadcast_run. reflexivity.
  - unfold bind at 1, ret, bind at 1. rewrite broadcast_run. reflexivity.
Qed.

Lemma add_balance_to_user_run user_id request env w :
  add_balance_to_user user_id request env w =
  match users (session w) !! user_id with
  | None => (Raise (HTTPException 404 "User not found"), w)
  | Some user =>
      let current_balance := wallet_float user in
      let new_balance := PrimFloat.add current_balance (amount request) in
      let transaction :=
        credit_transaction user_id request current_balance new_balance
          (uuid4_hex8 env) (utcnow env) in
      let t :=
        add_user (User.set_wallet user (Some (str_float new_balance)))
          (add_transaction transaction (session w)) in
      (if PrimFloat.leb PrimFloat.zero (amount request)
       then Return transaction
       else Raise (PyException "ValidationError"),
       set_database t (set_session t w))
  end.
Proof.
  unfold add_balance_to_user, bind at 1, session_get_user, gets.
  destruct (users (session w) !! user_id) as [user|]; [|reflexivity].
  unfold bind, ask, session_add, session_commit, modify,
    TransactionPublic_model_validate.
  cbn [credit_transaction Transaction.amount].
  by destruct (PrimFloat.leb PrimFloat.zero (amount request)).
Qed.

End Runs.

(** * Claims *)

(** ** Rate calculation *)

Lemma sms_units_spec (msg_len : Z) : sms_units msg_len = spec_unit_count msg_len.
Proof.
  unfold sms_units, spec_unit_count.
  destruct (160 <? msg_len) eqn:Hlong.
  - apply Z.ltb_lt in Hlong.
    rewrite (proj2 (Z.leb_gt msg_len 160)) by lia.
    change (Qceiling (msg_len # 153)) with (- (- msg_len / 153)).
    pose proof (Z.div_mod msg_len 153 ltac:(lia)) as Hpos.
    pose proof (Z.mod_pos_bound msg_len 153 ltac:(lia)) as Hr.
    pose proof (Z.div_mod (- msg_len) 153 ltac:(lia)) as Hneg.
    pose proof (Z.mod_pos_bound (- msg_len) 153 ltac:(lia)) as Hr'.
    destruct (msg_len mod 153 =? 0) eqn:Hz;
      [apply Z.eqb_eq in Hz | apply Z.eqb_neq in Hz]; lia.
  - apply Z.ltb_ge in Hlong.
    by rewrite (proj2 (Z.leb_le msg_len 160)).
Qed.

(** C4: the rate is a function of message length, recipient count and unit
    price alone. One unit up to 160 characters, ceil(length / 153) beyond
    (160 gives 1, 161 gives 2, 306 gives 2, 307 gives 3); the total is
    unit count x unit price x recipient count, and it is the amount
    send_sms asks the wallet for. *)
Theorem rate_calculation (msg_len recipients_count : Z) (price : Decimal)
    (final_message : string) (payload : SendSMSRequest) (current_user : User.t) :
  sms_units msg_len = spec_unit_count msg_len
  /\ (Decimal_.value (total_cost price (sms_units msg_len) recipients_count)
      == inject_Z (spec_unit_count msg_len) * Decimal_.value price
         * inject_Z recipients_count)%Q
  /\ request_cost final_message payload current_user
     = total_cost (cost_per_sms current_user)
         (spec_unit_count (len_str final_message)) (len_list (to payload))
  /\ sms_units 160 = 1 /\ sms_units 161 = 2 /\ sms_units 306 = 2 /\ sms_units 307 = 3.
Proof.
  split; [apply sms_units_spec|].
  split.
  - unfold total_cost. rewrite !mul_int_value, sms_units_spec. ring.
  - split; [|by repeat split].
    unfold request_cost. by rewrite sms_units_spec.
Qed.

Lemma ltb_ge (a b : Decimal) :
  Decimal_.ltb a b = false <-> (Decimal_.value b <= Decimal_.value a)%Q.
Proof.
  rewrite <- not_true_iff_false, ltb_lt. split.
  - apply Qnot_lt_le.
  - intros Hle Hlt. by apply Qlt_not_le in Hlt.
Qed.

Lemma endpoint_run {A} (handler : M A) env w r w' :
  handler env (set_session (database w) w) = (r, w') ->
  endpoint handler env w = (r, set_session (database w') w').
Proof. unfold endpoint. by intros ->. Qed.

(** Opens a [send_sms] request whose template and wallet are known. *)
Ltac open_send_sms Htext Hwallet :=
  unfold endpoint; rewrite send_sms_run;
  cbn [session set_session]; rewrite Htext, Hwallet; cbv zeta.

Section Dispatch.
Context {rt : PyRuntime}.

(** C3: when the balance is below the cost of the request, send_sms answers
    400 "Insufficient funds" and nothing happened: the committed rows (wallet,
    ledger, history) are the ones before, the gateway was not called and no
    observer was written to. When the balance covers the cost, the debit goes
    through and the ledger gains exactly one entry, the completed debit of
    that cost. *)
Theorem insufficient_funds_abort env w payload current_user final_message balance :
  template_text payload current_user (database w) = Some final_message ->
  wallet_Decimal current_user = Some balance ->
  let cost := request_cost final_message payload current_user in
  let run := endpoint (send_sms payload current_user) env w in
  ((Decimal_.value balance < Decimal_.value cost)%Q ->
     fst run = Raise (HTTPException 400 "Insufficient funds")
     /\ http_status (fst run) = 400
     /\ database (snd run) = database w
     /\ gateway_calls (snd run) = gateway_calls w
     /\ send_text_calls (snd run) = send_text_calls w
     /\ active_connections (snd run) = active_connections w)
  /\ ((Decimal_.value cost <= Decimal_.value balance)%Q ->
     deduct_and_log_wallet current_user cost (send_description payload) env
       (set_session (database w) w)
     = (Return tt,
        after_debit current_user balance cost (send_description payload) (utcnow env)
          (set_session (database w) w))
     /\ http_status (fst run) <> 400
     /\ transactions (database (snd run))
        = (transactions (database w)
           ++ [debit_transaction current_user balance cost
                 (send_description payload) (utcnow env)])%list).
Proof.
  intros Htext Hwallet cost run. subst run.
  open_send_sms Htext Hwallet. fold cost.
  split.
  - intros Hlt%ltb_lt. rewrite Hlt. cbn. done.
  - intros Hle%ltb_ge. rewrite Hle.
    split; [by rewrite deduct_and_log_wallet_run, Hwallet, Hle|].
    destruct (sms_send env _) as [data_message recipients_data|what];
      [destruct (history_rows _ _ _ _ _ _) as [rows|];
         [destruct (enforces_max_length env && _)|]|]; cbn; done.
Qed.

(** What the code does when the debit went through and the gateway call
    raises: send_sms answers 502 after session.rollback(), which has
    nothing left to undo: the debit was committed inside
    deduct_and_log_wallet. The wallet keeps the debited value, the ledger
    keeps the one debit entry and gains no credit, and no history row is
    written. *)
Lemma gateway_failure_keeps_the_charge
    env w payload current_user final_message balance what :
  template_text payload current_user (database w) = Some final_message ->
  wallet_Decimal current_user = Some balance ->
  let cost := request_cost final_message payload current_user in
  (Decimal_.value cost <= Decimal_.value balance)%Q ->
  sms_send env (send_args payload final_message env) = gateway_raises what ->
  let run := endpoint (send_sms payload current_user) env w in
  fst run = Raise (HTTPException 502 "SMS gateway failed")
  /\ users (database (snd run)) !! User.id current_user
     = Some (User.set_wallet current_user (Some (wallet_after_debit balance cost)))
  /\ transactions (database (snd run))
     = (transactions (database w)
        ++ [debit_transaction current_user balance cost
              (send_description payload) (utcnow env)])%list
  /\ sms_history (database (snd run)) = sms_history (database w).
Proof.
  intros Htext Hwallet cost Hle%ltb_ge Hdown run. subst run.
  open_send_sms Htext Hwallet. fold cost.
  rewrite Hle, Hdown. cbn.
  by rewrite lookup_insert_eq.
Qed.


End Dispatch.

(** ** Broadcast *)

(** C8: broadcast tries every connected observer once and returns normally
    whatever the sockets do. An observer whose send fails is dropped from the
    set; every observer whose send goes through got the event and stays. *)
Theorem broadcast_is_best_effort env w message :
  let run := broadcast message env w in
  fst run = Return tt
  /\ send_text_calls (snd run)
     = (send_text_calls w
        ++ send_text_log message env (elements (active_connections w)))%list
  /\ NoDup (elements (active_connections w))
  /\ (forall conn, conn ∈ active_connections w ->
        (conn, message, socket_ok env conn) ∈ send_text_calls (snd run))
  /\ (forall conn, conn ∈ active_connections w -> socket_ok env conn = false ->
        conn ∉ active_connections (snd run))
  /\ (forall conn, conn ∈ active_connections w -> socket_ok env conn = true ->
        conn ∈ active_connections (snd run)
        /\ (conn, message, true) ∈ send_text_calls (snd run))
  /\ active_connections (snd run) ⊆ active_connections w
  /\ database (snd run) = database w
  /\ session (snd run) = session w.
Proof.
  intros run. subst run. rewrite broadcast_run. cbn.
  assert (Hin : forall conn, conn ∈ active_connections w ->
    (conn, message, socket_ok env conn)
      ∈ (send_text_calls w
         ++ send_text_log message env (elements (active_connections w)))%list).
  { intros conn Hconn. apply elem_of_app. right.
    unfold send_text_log. apply list_elem_of_In, in_map_iff.
    exists conn. split; [done|]. by apply list_elem_of_In, elem_of_elements. }
  unfold still_connected.
  split; [done|]. split; [done|]. split; [apply NoDup_elements|].
  split; [exact Hin|].
  split.
  { intros conn Hconn Hdown. rewrite elem_of_filter. intros [Hup _]. congruence. }
  split.
  { intros conn Hconn Hup. split; [by apply elem_of_filter|].
    rewrite <- Hup. by apply Hin. }
  split; [|done].
  intros conn. rewrite elem_of_filter. tauto.
Qed.

(** ** Delivery reports *)

Lemma append_cons (c : ascii) (s rest : string) :
  (String c s ++ rest)%string = String c (s ++ rest)%string.
Proof. reflexivity. Qed.

Lemma startswith_spec (p s : string) :
  Str.startswith p s = true <-> exists rest, s = (p ++ rest)%string.
Proof.
  revert s. induction p as [|a p IH]; intros s; cbn [Str.startswith].
  - split; [by exists s | done].
  - destruct s as [|b s].
    + split; [done | intros [rest Hrest]; by rewrite append_cons in Hrest].
    + destruct (Ascii.eqb_spec a b) as [->|Hne].
      * rewrite IH. split; intros [rest Hrest]; exists rest;
          rewrite append_cons in *; congruence.
      * split; [done|]. intros [rest Hrest].
        rewrite append_cons in Hrest. congruence.
Qed.

Lemma contains_spec (needle hay : string) :
  Str.contains needle hay = true
  <-> exists before after, hay = (before ++ needle ++ after)%string.
Proof.
  induction hay as [|c hay IH].
  - cbn [Str.contains]. rewrite orb_false_r, startswith_spec. split.
    + intros [rest Hrest]. by exists EmptyString, rest.
    + intros (before & after & Heq).
      destruct before as [|? ?]; [by exists after|].
      by rewrite append_cons in Heq.
  - cbn [Str.contains]. rewrite orb_true_iff, startswith_spec, IH. split.
    + intros [[rest Hrest] | (before & after & Heq)].
      * by exists EmptyString, rest.
      * exists (String c before), after. by rewrite append_cons, Heq.
    + intros (before & after & Heq). destruct before as [|b before].
      * left. by exists after.
      * right. rewrite append_cons in Heq. injection Heq as _ Heq.
        by exists before, after.
Qed.

Lemma rows_by_external_id_elem message_id rows i history :
  (i, history) ∈ rows_by_external_id message_id rows
  <-> rows !! i = Some history /\ SmsHistory.external_id history = message_id.
Proof.
  unfold rows_by_external_id. rewrite list_elem_of_filter, elem_of_lookup_imap. cbn.
  split.
  - intros [Hid (j & y & [= -> ->] & Hrow)]. done.
  - intros [Hrow Hid]. split; [done|]. by exists i, history.
Qed.

(** Whatever the database's choice, the row found carries the id. *)
Lemma first_by_external_id_Some choice message_id rows i history :
  first_by_external_id choice message_id rows = Some (i, history) ->
  rows !! i = Some history /\ SmsHistory.external_id history = message_id.
Proof.
  unfold first_by_external_id. cbv zeta. intros Hfind.
  apply rows_by_external_id_elem. by eapply list_elem_of_lookup_2.
Qed.

(** A row is found exactly when some row carries the id. *)
Lemma first_by_external_id_None choice message_id rows :
  first_by_external_id choice message_id rows = None
  <-> Forall (fun h => SmsHistory.external_id h <> message_id) rows.
Proof.
  unfold first_by_external_id. cbv zeta.
  set (matching := rows_by_external_id message_id rows).
  split.
  - intros Hnone. apply Forall_lookup. intros i history Hrow Hid.
    assert (Hin : (i, history) ∈ matching) by (by apply rows_by_external_id_elem).
    destruct matching as [|m matching']; [by apply elem_of_nil in Hin|].
    apply lookup_ge_None in Hnone.
    pose proof (Nat.mod_upper_bound choice (List.length (m :: matching'))
                  ltac:(cbn; lia)).
    lia.
  - intros Hrows. destruct matching as [|[i history] matching'] eqn:Hmatching; [done|].
    exfalso.
    assert (Hin : (i, history) ∈ rows_by_external_id message_id rows).
    { fold matching. rewrite Hmatching. by left. }
    apply rows_by_external_id_elem in Hin as [Hrow Hid].
    rewrite Forall_lookup in Hrows. by apply (Hrows i history).
Qed.

(** When one row alone carries the id, it is the row found, whatever the
    database's choice. *)
Lemma first_by_external_id_unique choice message_id rows i history :
  rows !! i = Some history ->
  SmsHistory.external_id history = message_id ->
  (forall j other, rows !! j = Some other ->
     SmsHistory.external_id other = message_id -> j = i) ->
  first_by_external_id choice message_id rows = Some (i, history).
Proof.
  intros Hrow Hid Hunique.
  destruct (first_by_external_id choice message_id rows) as [[j other]|] eqn:Hfind.
  - apply first_by_external_id_Some in Hfind as [Hother Hid'].
    pose proof (Hunique j other Hother Hid') as ->. congruence.
  - apply first_by_external_id_None in Hfind.
    rewrite Forall_lookup in Hfind. by destruct (Hfind i history Hrow).
Qed.

(** The first matching row, whatever the numbering of the rows. *)
Lemma head_matching_rows (message_id : option string) (f : nat -> nat)
    (rows : list SmsHistory.t) :
  head (filter (fun row : nat * SmsHistory.t => SmsHistory.external_id row.2 = message_id)
          (imap (fun i h => (f i, h)) rows))
  = prod_map f id <$> list_find (fun h => SmsHistory.external_id h = message_id) rows.
Proof.
  revert f. induction rows as [|h rows IH]; intros f; [done|].
  rewrite imap_cons. cbn [list_find].
  destruct (decide (SmsHistory.external_id h = message_id)) as [Hid|Hid].
  - by rewrite filter_cons_True.
  - rewrite filter_cons_False by done.
    change (imap ((fun i h0 => (f i, h0)) ∘ S) rows)
      with (imap (fun i h0 => ((f ∘ S) i, h0)) rows).
    rewrite (IH (f ∘ S)). by destruct (list_find _ rows) as [[i x]|].
Qed.

(** A database that returns rows in the order of their insertion finds the
    oldest matching row. *)
Lemma first_by_external_id_oldest message_id rows :
  first_by_external_id 0 message_id rows
  = list_find (fun h => SmsHistory.external_id h = message_id) rows.
Proof.
  unfold first_by_external_id, rows_by_external_id. cbv zeta.
  rewrite Nat.Div0.mod_0_l, <- head_lookup.
  etrans; [exact (head_matching_rows message_id id rows)|].
  by destruct (list_find _ rows) as [[i x]|].
Qed.

(** C6: a delivery report whose id matches no history row is answered with
    {"status": "received"}; the committed rows (history, wallets, ledger) are
    left as they were, and so they are when the same report comes again. *)
Theorem unknown_report_is_acknowledged env env' w report :
  Forall (fun h => SmsHistory.external_id h <> Report.id report)
    (sms_history (database w)) ->
  let run := endpoint (delivery_report_webhook report) env w in
  let again := endpoint (delivery_report_webhook report) env' (snd run) in
  fst run = Return [("status", "received")]
  /\ http_status (fst run) = 200
  /\ database (snd run) = database w
  /\ fst again = Return [("status", "received")]
  /\ database (snd again) = database w.
Proof.
  intros Hrows run again. subst again run.
  assert (Hmiss : forall choice,
            first_by_external_id choice (Report.id report) (sms_history (database w))
            = None)
    by (intros choice; by apply first_by_external_id_None).
  assert (Hone : forall e w0, database w0 = database w ->
    fst (endpoint (delivery_report_webhook report) e w0)
      = Return [("status", "received")]
    /\ database (snd (endpoint (delivery_report_webhook report) e w0)) = database w).
  { intros e w0 Hdb. unfold endpoint. rewrite delivery_report_webhook_run.
    cbn [session set_session]. rewrite Hdb, Hmiss. cbn. done. }
  destruct (Hone env w eq_refl) as [Hack Hdb].
  destruct (Hone env' _ Hdb) as [Hack' Hdb'].
  rewrite Hack, Hack'. done.
Qed.


Lemma found_report_run env w report i history s :
  first_by_external_id (first_match env) (Report.id report) (sms_history (database w))
  = Some (i, history) ->
  Report.status report = Some s ->
  endpoint (delivery_report_webhook report) env w
  = let t :=
      update_history i
        (reconciled history (Str.lower s) (Report.failureReason report)
           (if Str.contains "Delivered" s then Some (utcnow env) else None))
        (database w) in
    (Return [("status", "received")],
     after_broadcast
       (delivery_update (Report.phoneNumber report) (Some s)
          (Report.id report) (Report.failureReason report))
       env (set_database t (set_session t w))).
Proof.
  intros Hfind Hstatus. unfold endpoint. rewrite delivery_report_webhook_run.
  cbn [session set_session]. rewrite Hfind, Hstatus. reflexivity.
Qed.


(** C5 (as amended): when at most one history row carries the report's id,
    a report delivered a second time is acknowledged like the first. It
    changes no wallet and no ledger entry; the history is the one the first
    delivery left, except that delivered_at of the matched row is set again
    from the clock of the second delivery (so nothing changes when the
    status is not a delivered one or the clock reads the same); and the
    delivery_update event is sent once more to every observer still
    connected. (With several rows carrying the id, the query, which has
    no ORDER BY, may return another of them the second time.) *)
Theorem replayed_report_rewrites_and_rebroadcasts env env' w report :
  (forall i j a b,
     sms_history (database w) !! i = Some a ->
     sms_history (database w) !! j = Some b ->
     SmsHistory.external_id a = Report.id report ->
     SmsHistory.external_id b = Report.id report ->
     i = j) ->
  let run := endpoint (delivery_report_webhook report) env w in
  let again := endpoint (delivery_report_webhook report) env' (snd run) in
  let event :=
    delivery_update (Report.phoneNumber report) (Report.status report)
      (Report.id report) (Report.failureReason report) in
  fst run = Return [("status", "received")] ->
  fst again = Return [("status", "received")]
  /\ users (database (snd again)) = users (database w)
  /\ transactions (database (snd again)) = transactions (database w)
  /\ sms_history (database (snd again))
     = match first_by_external_id (first_match env) (Report.id report)
               (sms_history (database w)),
             Report.status report with
       | Some (i, history), Some s =>
           <[i := reconciled history (Str.lower s) (Report.failureReason report)
                    (if Str.contains "Delivered" s then Some (utcnow env') else None)]>
             (sms_history (database w))
       | _, _ => sms_history (database w)
       end
  /\ (utcnow env' = utcnow env -> database (snd again) = database (snd run))
  /\ send_text_calls (snd again)
     = (send_text_calls (snd run)
        ++ send_text_log event env' (elements (active_connections (snd run))))%list
  /\ active_connections (snd again) = still_connected env' (active_connections (snd run)).
Proof.
  intros Hunique run again event Hack. subst again run.
  destruct (first_by_external_id (first_match env) (Report.id report)
              (sms_history (database w)))
    as [[i history]|] eqn:Hfind.
  - destruct (Report.status report) as [s|] eqn:Hstatus.
    + rewrite (found_report_run env _ _ _ _ _ Hfind Hstatus). cbn [snd].
      set (row := reconciled history (Str.lower s) (Report.failureReason report)
                    (if Str.contains "Delivered" s then Some (utcnow env) else None)).
      set (w1 := after_broadcast _ env _).
      assert (Hfind1 : first_by_external_id (first_match env') (Report.id report)
                (sms_history (database w1)) = Some (i, row)).
      { subst w1. cbn.
        apply first_by_external_id_Some in Hfind as [Hrow Hid].
        apply first_by_external_id_unique.
        - apply list_lookup_insert_eq. by eapply lookup_lt_Some.
        - exact Hid.
        - intros j other Hother Hid'.
          destruct (decide (j = i)) as [|Hne]; [done|].
          rewrite list_lookup_insert_ne in Hother by done.
          exact (Hunique j i other history Hother Hrow Hid' Hid). }
      rewrite (found_report_run env' _ _ _ _ _ Hfind1 Hstatus).
      subst w1 event. cbn. rewrite list_insert_insert_eq.
      repeat split; try done.
      intros Hclock. subst row. unfold update_history. cbn.
      rewrite list_insert_insert_eq, Hclock. reflexivity.
    + exfalso. revert Hack. unfold endpoint.
      rewrite delivery_report_webhook_run. cbn [session set_session].
      by rewrite Hfind, Hstatus.
  - assert (Hmiss : forall choice,
      first_by_external_id choice (Report.id report) (sms_history (database w)) = None).
    { intros choice. eapply first_by_external_id_None, first_by_external_id_None.
      exact Hfind. }
    assert (Hone : forall e w0, database w0 = database w ->
      endpoint (delivery_report_webhook report) e w0
      = (Return [("status", "received")],
         after_broadcast event e (set_session (database w) w0))).
    { intros e w0 Hdb. unfold endpoint. rewrite delivery_report_webhook_run.
      cbn [session set_session]. rewrite Hdb, Hmiss. cbn. by rewrite Hdb. }
    rewrite (Hone env w eq_refl). cbn [snd].
    rewrite Hone by done. cbn. done.
Qed.


(** ** The wallet and the ledger *)

Section Wallet.
Context {rt : PyRuntime}.

Lemma debit_endpoint_run user total_cost description env w balance :
  wallet_Decimal user = Some balance ->
  endpoint (deduct_and_log_wallet user total_cost description) env w
  = if Decimal_.ltb balance total_cost
    then (Raise (HTTPException 400 "Insufficient funds"), set_session (database w) w)
    else (Return tt,
          after_debit user balance total_cost description (utcnow env)
            (set_session (database w) w)).
Proof.
  intros Hwallet. unfold endpoint.
  rewrite deduct_and_log_wallet_run, Hwallet.
  by destruct (Decimal_.ltb balance total_cost).
Qed.

(** C10: a debit that goes through stores, as text of a Decimal, the balance
    minus the cost rounded to two places: the stored value has exponent -2,
    lies within half a hundredth of the exact difference and equals it when
    balance and cost have at most two places. The admin credit stores, as
    text of a double, the binary64 sum of the balance read as a double and
    the amount, as computed, with no rounding to hundredths. *)
Theorem wallet_is_written_two_ways env w user balance cost description request :
  wallet_Decimal user = Some balance ->
  (Decimal_.value cost <= Decimal_.value balance)%Q ->
  users (database w) !! User.id user = Some user ->
  let debit_run := endpoint (deduct_and_log_wallet user cost description) env w in
  let credit_run := endpoint (add_balance_to_user (User.id user) request) env w in
  let stored := Decimal_.quantize (Decimal_.sub balance cost) Decimal_0_01 in
  fst debit_run = Return tt
  /\ User.wallet <$> users (database (snd debit_run)) !! User.id user
     = Some (Some (str_Decimal stored))
  /\ expo stored = -2
  /\ (Qabs (Decimal_.value stored - (Decimal_.value balance - Decimal_.value cost))
      <= 1 # 200)%Q
  /\ (Decimal_.two_places balance -> Decimal_.two_places cost ->
      (Decimal_.value stored == Decimal_.value balance - Decimal_.value cost)%Q)
  /\ User.wallet <$> users (database (snd credit_run)) !! User.id user
     = Some (Some (str_float (PrimFloat.add (wallet_float user) (amount request)))).
Proof.
  intros Hwallet Hle%ltb_ge Huser debit_run credit_run stored.
  subst debit_run credit_run.
  rewrite (debit_endpoint_run _ _ _ _ _ _ Hwallet), Hle.
  split; [done|].
  split; [cbn; by rewrite lookup_insert_eq|].
  split; [apply quantize_expo|].
  split.
  - rewrite <- sub_value. apply (quantize_near (Decimal_.sub balance cost) Decimal_0_01).
  - split.
    + intros Hb Hc. rewrite <- sub_value. apply quantize_exact.
      unfold Decimal_.two_places in *. cbn. lia.
    + unfold endpoint. rewrite add_balance_to_user_run.
      cbn [session set_session]. rewrite Huser. cbn.
      by rewrite lookup_insert_eq.
Qed.


Lemma ledger_request_debit uid user c desc env w balance :
  users (database w) !! uid = Some user ->
  wallet_Decimal user = Some balance ->
  ledger_request uid (debit c desc) env w
  = if Decimal_.ltb balance c
    then (Raise (HTTPException 400 "Insufficient funds"), set_session (database w) w)
    else (Return tt,
          after_debit user balance c desc (utcnow env) (set_session (database w) w)).
Proof.
  intros Huser Hwallet. unfold ledger_request, endpoint, bind at 1, session_get_user, gets.
  cbn [session set_session]. rewrite Huser.
  rewrite deduct_and_log_wallet_run, Hwallet.
  by destruct (Decimal_.ltb balance c).
Qed.

Lemma cents_ltb_false (a b : Decimal) :
  Decimal_.two_places a -> Decimal_.two_places b ->
  Decimal_.ltb a b = false -> Decimal_.cents b <= Decimal_.cents a.
Proof.
  unfold Decimal_.two_places, Decimal_.ltb, Decimal_.cents. cbv zeta.
  intros Ha Hb Hlt%Z.ltb_ge.
  set (e := Z.min (expo a) (expo b)) in *.
  rewrite (rescale_rescale (-2) e a), (rescale_rescale (-2) e b) by (unfold e; lia).
  apply Z.mul_le_mono_nonneg_r; [|done].
  apply Z.pow_nonneg. lia.
Qed.

Lemma value_nonneg (d : Decimal) : 0 <= coef d -> (0 <= Decimal_.value d)%Q.
Proof.
  intros Hc. unfold Decimal_.value.
  apply Qmult_le_0_compat.
  - change 0%Q with (inject_Z 0). by rewrite <- Zle_Qle.
  - apply Qlt_le_weak, Qpower_ten_pos.
Qed.

Lemma debits_follow_the_ledger uid steps w user b0 :
  users (database w) !! uid = Some user ->
  User.id user = uid ->
  User.wallet user = Some (str_Decimal b0) ->
  Decimal_.two_places b0 ->
  Forall (fun step => is_debit step.2 /\ Decimal_.two_places (debit_cost step.2)) steps ->
  exists b' entries costs,
    User.wallet <$> users (database (ledger_run uid steps w)) !! uid
      = Some (Some (str_Decimal b'))
    /\ Decimal_.two_places b'
    /\ transactions (database (ledger_run uid steps w))
       = (transactions (database w) ++ entries)%list
    /\ Forall2
         (fun x c =>
            Transaction.user_id x = uid
            /\ Transaction.transaction_type x = "debit"
            /\ Transaction.status x = "completed"
            /\ Transaction.amount x = float_of_Decimal c)
         entries costs
    /\ Decimal_.cents b' = Decimal_.cents b0 - total_cents costs
    /\ (0 <= Decimal_.cents b0 -> 0 <= Decimal_.cents b').
Proof.
  intros Huser Hid Hwallet Hb0 Hsteps.
  revert w user b0 Huser Hid Hwallet Hb0.
  induction Hsteps as [|[env op] steps [Hdebit Hcost] _ IH];
    intros w user b0 Huser Hid Hwallet Hb0.
  - exists b0, [], []. cbn. rewrite Huser. cbn. rewrite Hwallet, app_nil_r.
    repeat split; try done. lia.
  - destruct op as [c desc|request]; [|done]. cbn in Hcost.
    cbn [ledger_run].
    assert (Hdec : wallet_Decimal user = Some b0)
      by (unfold wallet_Decimal; by rewrite Hwallet).
    rewrite (ledger_request_debit _ _ _ _ _ _ _ Huser Hdec).
    destruct (Decimal_.ltb b0 c) eqn:Hlt; cbn [snd].
    + destruct (IH (set_session (database w) w) user b0)
        as (b' & entries & costs & Hw & Hb' & Htx & Hshape & Hsum & Hpos);
        try done.
      by exists b', entries, costs.
    + set (q := Decimal_.quantize (Decimal_.sub b0 c) Decimal_0_01).
      set (user' := User.set_wallet user (Some (str_Decimal q))).
      set (w1 := after_debit user b0 c desc (utcnow env) (set_session (database w) w)).
      assert (Hq : Decimal_.two_places q).
      { unfold Decimal_.two_places, q. by rewrite quantize_expo. }
      destruct (IH w1 user' q)
        as (b' & entries & costs & Hw & Hb' & Htx & Hshape & Hsum & Hpos);
        try done.
      { subst w1. cbn. rewrite Hid. by rewrite lookup_insert_eq. }
      pose proof (cents_debit b0 c Hb0 Hcost) as Hcents. fold q in Hcents.
      pose proof (cents_ltb_false b0 c Hb0 Hcost Hlt) as Hge.
      exists b',
        (debit_transaction user' b0 c desc (utcnow env) :: entries),
        (c :: costs).
      split; [done|]. split; [done|].
      split; [rewrite Htx; subst w1; cbn; by rewrite <- app_assoc|].
      split; [constructor; [by rewrite <- Hid | done]|].
      cbn [total_cents foldr]. fold (total_cents costs).
      split; [lia|]. intros _. apply Hpos. lia.
Qed.

Lemma debit_leaves_no_negative_balance env w u balance cost description :
  wallet_Decimal u = Some balance ->
  fst (endpoint (deduct_and_log_wallet u cost description) env w) = Return tt ->
  exists stored,
    User.wallet <$> users (database (snd (endpoint
      (deduct_and_log_wallet u cost description) env w))) !! User.id u
    = Some (Some (str_Decimal stored))
    /\ (0 <= Decimal_.value stored)%Q.
Proof.
  intros Hdec Hok.
  rewrite (debit_endpoint_run _ _ _ _ _ _ Hdec) in Hok |- *.
  destruct (Decimal_.ltb balance cost) eqn:Hlt; [done|].
  eexists. split; [cbn; by rewrite lookup_insert_eq|].
  apply value_nonneg, quantize_nonneg, sub_nonneg, Hlt.
Qed.

Lemma ledger_request_credit uid user request env w :
  users (database w) !! uid = Some user ->
  ledger_request uid (credit request) env w
  = let new_balance := PrimFloat.add (wallet_float user) (amount request) in
    let t :=
      add_user (User.set_wallet user (Some (str_float new_balance)))
        (add_transaction
           (credit_transaction uid request (wallet_float user) new_balance
              (uuid4_hex8 env) (utcnow env))
           (database w)) in
    (if PrimFloat.leb PrimFloat.zero (amount request)
     then Return tt
     else Raise (PyException "ValidationError"),
     set_database t (set_session t w)).
Proof.
  intros Huser. unfold ledger_request, endpoint, bind at 1.
  rewrite add_balance_to_user_run. cbn [session set_session].
  rewrite Huser. cbv zeta.
  by destruct (PrimFloat.leb PrimFloat.zero (amount request)).
Qed.

Lemma credits_follow_the_ledger uid steps w user :
  users (database w) !! uid = Some user ->
  User.id user = uid ->
  Forall (fun step => is_credit step.2) steps ->
  exists user' entries,
    users (database (ledger_run uid steps w)) !! uid = Some user'
    /\ wallet_float user' = float_sum (wallet_float user) (credit_amount ∘ snd <$> steps)
    /\ transactions (database (ledger_run uid steps w))
       = (transactions (database w) ++ entries)%list
    /\ Forall2
         (fun x step =>
            Transaction.user_id x = uid
            /\ Transaction.transaction_type x = "credit"
            /\ Transaction.status x = "completed"
            /\ Transaction.amount x = credit_amount step.2)
         entries steps.
Proof.
  intros Huser Hid Hsteps. revert w user Huser Hid.
  induction Hsteps as [|[env op] steps Hcredit _ IH]; intros w user Huser Hid.
  - exists user, []. cbn. by rewrite app_nil_r.
  - destruct op as [c desc|request]; [done|].
    cbn [ledger_run]. rewrite (ledger_request_credit _ _ _ _ _ Huser). cbn [snd].
    cbv zeta.
    set (new_balance := PrimFloat.add (wallet_float user) (amount request)).
    set (user1 := User.set_wallet user (Some (str_float new_balance))).
    set (entry := credit_transaction uid request (wallet_float user) new_balance
                    (uuid4_hex8 env) (utcnow env)).
    set (t := add_user user1 (add_transaction entry (database w))).
    destruct (IH (set_database t (set_session t w)) user1)
      as (user' & entries & Huser' & Hsum & Hledger & Hshape); [| done |].
    { cbn. subst t. cbn. rewrite <- Hid. by rewrite lookup_insert_eq. }
    exists user', (entry :: entries).
    split; [exact Huser'|].
    split; [rewrite Hsum; reflexivity|].
    split; [rewrite Hledger; subst t; cbn; by rewrite <- app_assoc|].
    by constructor.
Qed.

Lemma create_user_run user_create new_id env w :
  create_user user_create new_id env w
  = let db_obj :=
      {| User.id := new_id;
         User.wallet := uc_wallet user_create;
         User.sms_cost := uc_sms_cost user_create |} in
    match users (session w) !! new_id with
    | Some _ => (Raise (PyException "IntegrityError"), w)
    | None =>
        let t := add_user db_obj (session w) in
        (Return db_obj, set_database t (set_session t w))
    end.
Proof.
  unfold create_user, session_insert_user, bind at 1, bind at 1, session_get_user, gets.
  cbn [User.id]. by destruct (users (session w) !! new_id).
Qed.

Lemma entries_of_logged uid u x t :
  Transaction.user_id x = uid ->
  Transaction.status x = "completed" ->
  entries_of uid (add_user u (add_transaction x t))
  = (entries_of uid t
     ++ [(Transaction.transaction_type x, Transaction.amount x)])%list.
Proof.
  intros Hid Hstatus. unfold entries_of, completed_entries. cbn.
  rewrite List.filter_app, fmap_app. cbn.
  by rewrite Hid, Hstatus, N.eqb_refl.
Qed.

Lemma wallet_Decimal_default user :
  wallet_Decimal user = Decimal_of (default (str_Decimal Decimal_0_0) (User.wallet user)).
Proof. unfold wallet_Decimal. by destruct (User.wallet user). Qed.

Lemma wallet_float_default user :
  wallet_float user = float_of (default (str_Decimal Decimal_0_0) (User.wallet user)).
Proof. unfold wallet_float. by destruct (User.wallet user). Qed.

(** Every request follows the invariant's telling of it. *)
Lemma ledger_request_follows uid op env w user :
  users (database w) !! uid = Some user ->
  User.id user = uid ->
  exists user',
    users (database (snd (ledger_request uid op env w))) !! uid = Some user'
    /\ User.id user' = uid
    /\ (User.wallet user', entries_of uid (database (snd (ledger_request uid op env w))))
       = spec_request op (User.wallet user, entries_of uid (database w)).
Proof.
  intros Huser Hid. destruct op as [c desc|request].
  - unfold spec_request. cbv zeta. rewrite <- wallet_Decimal_default.
    destruct (wallet_Decimal user) as [b|] eqn:Hwallet.
    + rewrite (ledger_request_debit _ _ _ _ _ _ _ Huser Hwallet).
      destruct (Decimal_.ltb b c); [by exists user|].
      eexists. cbn [snd]. unfold after_debit. cbv zeta.
      cbn [database set_database set_session session].
      split; [cbn; rewrite Hid; apply lookup_insert_eq|].
      split; [exact Hid|].
      rewrite entries_of_logged by done. reflexivity.
    + exists user.
      assert (Hquiet : snd (ledger_request uid (debit c desc) env w)
                       = set_session (database w) w).
      { unfold ledger_request, endpoint, bind at 1, session_get_user, gets.
        cbn [session set_session]. rewrite Huser.
        by rewrite deduct_and_log_wallet_run, Hwallet. }
      by rewrite Hquiet.
  - rewrite (ledger_request_credit _ _ _ _ _ Huser). cbv zeta. cbn [snd].
    unfold spec_request. cbv zeta. rewrite <- wallet_float_default.
    eexists. cbn [database set_database set_session session].
    split; [cbn; rewrite Hid; apply lookup_insert_eq|].
    split; [exact Hid|].
    rewrite entries_of_logged by done. reflexivity.
Qed.

Lemma ledger_run_follows uid steps w user :
  users (database w) !! uid = Some user ->
  User.id user = uid ->
  exists user',
    users (database (ledger_run uid steps w)) !! uid = Some user'
    /\ User.id user' = uid
    /\ (User.wallet user', entries_of uid (database (ledger_run uid steps w)))
       = spec_ledger (snd <$> steps) (User.wallet user, entries_of uid (database w)).
Proof.
  revert w user. induction steps as [|[env op] steps IH]; intros w user Huser Hid.
  - by exists user.
  - cbn [ledger_run fmap list_fmap snd]. unfold spec_ledger. cbn [foldl].
    destruct (ledger_request_follows uid op env w user Huser Hid)
      as (user1 & Huser1 & Hid1 & <-).
    exact (IH _ user1 Huser1 Hid1).
Qed.

(** C2 (as amended): a new account is created with the default balance
    "10.0" and no ledger entry, so a balance is its starting balance moved by
    the requests, not the sum of its entries. For an account and every
    sequence of debit and admin-credit requests, mixed or not: (0) each
    request that goes through adds one completed entry of its kind and
    amount and moves the stored balance by that amount in the arithmetic of
    its path, a debit to the balance minus the cost in exact decimal
    arithmetic rounded half-even to two places, a credit to the binary64 sum
    of the balance read as a double and the amount; a request that does not
    go through changes neither. Hence (1) after any sequence of debit
    requests, when the starting balance and the amounts have at most two
    places, the stored balance is the starting balance minus the amounts of
    the debits that went through, each of them recorded as one completed
    debit entry; (2) after any sequence of admin credits, the stored balance
    read as a double is the starting balance plus the credited amounts,
    added in order in binary64, each recorded as one completed credit entry;
    (3) whatever the balance and the amount, a debit that goes through
    leaves a balance that is not negative. *)
Theorem ledger_follows_the_requests uid w user :
  users (database w) !! uid = Some user ->
  User.id user = uid ->
  (forall env0 w0 new_id,
     users (database w0) !! new_id = None ->
     let created := endpoint (create_user UserCreate_defaults new_id) env0 w0 in
     fst created = Return (User.new new_id)
     /\ users (database (snd created)) !! new_id = Some (User.new new_id)
     /\ wallet_Decimal (User.new new_id) = Some Decimal_10_0
     /\ (Decimal_.value Decimal_10_0 == 10)%Q
     /\ transactions (database (snd created)) = transactions (database w0)
     /\ entries_of new_id (database (snd created)) = entries_of new_id (database w0))
  /\ (forall steps,
       let told :=
         spec_ledger (snd <$> steps) (User.wallet user, entries_of uid (database w)) in
       User.wallet <$> users (database (ledger_run uid steps w)) !! uid = Some (fst told)
       /\ entries_of uid (database (ledger_run uid steps w)) = snd told)
  /\ (forall b0 steps,
     User.wallet user = Some (str_Decimal b0) ->
     Decimal_.two_places b0 ->
     Forall (fun step => is_debit step.2 /\ Decimal_.two_places (debit_cost step.2)) steps ->
     exists b' entries costs,
       User.wallet <$> users (database (ledger_run uid steps w)) !! uid
         = Some (Some (str_Decimal b'))
       /\ transactions (database (ledger_run uid steps w))
          = (transactions (database w) ++ entries)%list
       /\ Forall2
            (fun x c =>
               Transaction.user_id x = uid
               /\ Transaction.transaction_type x = "debit"
               /\ Transaction.status x = "completed"
               /\ Transaction.amount x = float_of_Decimal c)
            entries costs
       /\ Decimal_.cents b' = Decimal_.cents b0 - total_cents costs)
  /\ (forall steps,
       Forall (fun step => is_credit step.2) steps ->
       exists user' entries,
         users (database (ledger_run uid steps w)) !! uid = Some user'
         /\ wallet_float user'
            = float_sum (wallet_float user) (credit_amount ∘ snd <$> steps)
         /\ transactions (database (ledger_run uid steps w))
            = (transactions (database w) ++ entries)%list
         /\ Forall2
              (fun x step =>
                 Transaction.user_id x = uid
                 /\ Transaction.transaction_type x = "credit"
                 /\ Transaction.status x = "completed"
                 /\ Transaction.amount x = credit_amount step.2)
              entries steps)
  /\ (forall env w0 u balance cost description,
       wallet_Decimal u = Some balance ->
       fst (endpoint (deduct_and_log_wallet u cost description) env w0) = Return tt ->
       exists stored,
         User.wallet <$> users (database (snd (endpoint
           (deduct_and_log_wallet u cost description) env w0))) !! User.id u
         = Some (Some (str_Decimal stored))
         /\ (0 <= Decimal_.value stored)%Q).
Proof.
  intros Huser Hid. split; [|split; [|split; [|split]]].
  - intros env0 w0 new_id Hfresh created. subst created.
    unfold endpoint. rewrite create_user_run. cbn [session set_session].
    rewrite Hfresh. cbn.
    split; [done|]. split; [apply lookup_insert_eq|].
    split; [done|]. split; [reflexivity|]. done.
  - intros steps told. subst told.
    destruct (ledger_run_follows uid steps w user Huser Hid) as (user' & -> & _ & <-).
    done.
  - intros b0 steps Hwallet Hb0 Hsteps.
    destruct (debits_follow_the_ledger uid steps w user b0 Huser Hid Hwallet Hb0 Hsteps)
      as (b' & entries & costs & Hw & _ & Hledger & Hshape & Hsum & _).
    by exists b', entries, costs.
  - intros steps Hsteps. by apply credits_follow_the_ledger.
  - intros env w0 u balance cost description.
    apply debit_leaves_no_negative_balance.
Qed.

End Wallet.

(** C2 (as stated) fails. A new account starts at "10.0" with no ledger
    entry. After one debit of 5 the wallet reads "5.00" while the signed sum
    of its completed entries is -5; after a credit of 90 and a debit of 32
    the wallet reads "68.00" while the signed sum is 58. *)
Lemma fresh_account_is_off_the_ledger :
  let w := Example.world (Example.tables Example.newcomer []) in
  let env := Example.env_up 1000 in
  let w1 := ledger_run (rt := short_runtime) 1%N [(env, debit (Dec 5 0) "SMS")] w in
  let w2 :=
    ledger_run (rt := short_runtime) 1%N
      [(env, credit Example.ninety); (env, debit Decimal_32 "SMS to 1 recipients")] w in
  User.wallet <$> users (database w1) !! 1%N = Some (Some (str_Decimal (Dec 500 (-2))))
  /\ PrimFloat.eqb (ledger_total 1%N (transactions (database w1))) (float_of_Z (-5)) = true
  /\ ledger_balanced (rt := short_runtime) 1%N (database w1) = false
  /\ User.wallet <$> users (database w2) !! 1%N = Some (Some (str_Decimal (Dec 6800 (-2))))
  /\ List.map Transaction.transaction_type (transactions (database w2)) = ["credit"; "debit"]
  /\ PrimFloat.eqb (ledger_total 1%N (transactions (database w2))) (float_of_Z 58) = true
  /\ ledger_balanced (rt := short_runtime) 1%N (database w2) = false
  /\ ledger_balanced (rt := short_runtime) 1%N (database w) = false.
Proof. vm_compute. repeat split. Qed.


(** * Closed instances *)

(** C1 at a concrete request: the account holds "100.00", one SMS at 32 is
    asked for and the gateway cannot be reached. The caller gets 502, the
    wallet reads "68.00", the ledger holds the debit and nothing else, and
    no history row exists. *)
Lemma gateway_down_leaves_the_wallet_charged :
  let w := Example.world (Example.tables Example.alice []) in
  let run :=
    endpoint (send_sms (rt := short_runtime) Example.one_sms Example.alice)
      (Example.env_down 1000) w in
  http_status (fst run) = 502
  /\ User.wallet <$> users (database w) !! 1%N
     = Some (Some (str_Decimal (Dec 10000 (-2))))
  /\ User.wallet <$> users (database (snd run)) !! 1%N
     = Some (Some (str_Decimal (Dec 6800 (-2))))
  /\ List.map Transaction.transaction_type (transactions (database (snd run)))
     = ["debit"]
  /\ sms_history (database (snd run)) = [].
Proof.
  intros w run.
  assert (Hcost : (Decimal_.value (request_cost "hi" Example.one_sms Example.alice)
                   <= Decimal_.value (Dec 10000 (-2)))%Q) by (vm_compute; discriminate).
  destruct (gateway_failure_keeps_the_charge (rt := short_runtime)
              (Example.env_down 1000) w Example.one_sms Example.alice "hi"
              (Dec 10000 (-2)) "ConnectionError" eq_refl eq_refl Hcost eq_refl)
    as (Hstatus & Hwallet & Hledger & Hhistory).
  fold run in Hstatus, Hwallet, Hledger, Hhistory.
  split; [by rewrite Hstatus|].
  split; [reflexivity|].
  split.
  { rewrite (Hwallet : users (database (snd run)) !! 1%N = Some _).
    vm_compute. reflexivity. }
  split; [by rewrite Hledger | by rewrite Hhistory].
Qed.

(** C3 at a new account ("10.0") asking for one SMS at 32, and at an account
    holding "100.00" asking for the same. *)
Lemma insufficient_funds_abort_witness :
  let w := Example.world (Example.tables Example.newcomer []) in
  let run :=
    endpoint (send_sms (rt := short_runtime) Example.one_sms Example.newcomer)
      (Example.env_up 1000) w in
  let w' := Example.world (Example.tables Example.alice []) in
  let run' :=
    endpoint (send_sms (rt := short_runtime) Example.one_sms Example.alice)
      (Example.env_up 1000) w' in
  (Decimal_.value Decimal_10_0
   < Decimal_.value (request_cost "hi" Example.one_sms Example.newcomer))%Q
  /\ fst run = Raise (HTTPException 400 "Insufficient funds")
  /\ database (snd run) = database w
  /\ gateway_calls (snd run) = []
  /\ send_text_calls (snd run) = []
  /\ (Decimal_.value (request_cost "hi" Example.one_sms Example.alice)
      <= Decimal_.value (Dec 10000 (-2)))%Q
  /\ List.length (transactions (database (snd run'))) = 1%nat.
Proof.
  intros w run w' run'.
  assert (Hlow : (Decimal_.value Decimal_10_0
                  < Decimal_.value (request_cost "hi" Example.one_sms Example.newcomer))%Q)
    by (vm_compute; reflexivity).
  assert (Hcovered : (Decimal_.value (request_cost "hi" Example.one_sms Example.alice)
                      <= Decimal_.value (Dec 10000 (-2)))%Q)
    by (vm_compute; discriminate).
  destruct (insufficient_funds_abort (rt := short_runtime) (Example.env_up 1000) w
              Example.one_sms Example.newcomer "hi" Decimal_10_0 eq_refl eq_refl)
    as [Habort _].
  destruct (Habort Hlow) as (Hraise & _ & Hdb & Hgateway & Hsockets & _).
  destruct (insufficient_funds_abort (rt := short_runtime) (Example.env_up 1000) w'
              Example.one_sms Example.alice "hi" (Dec 10000 (-2)) eq_refl eq_refl)
    as [_ Hdebit].
  destruct (Hdebit Hcovered) as (_ & _ & Hledger).
  fold run' in Hledger.
  split; [exact Hlow|].
  split; [exact Hraise|].
  split; [exact Hdb|].
  split; [exact Hgateway|].
  split; [exact Hsockets|].
  split; [exact Hcovered|].
  by rewrite Hledger.
Defined.



(** C8 with socket 7 up and socket 8 gone. *)
Lemma broadcast_is_best_effort_witness :
  let w := Example.world (Example.tables Example.alice []) in
  let event := delivery_update None (Some "Delivered") (Some "ATXid_1") None in
  let run := broadcast event (Example.env_up 1000) w in
  fst run = Return tt
  /\ (7%N, event, true) ∈ send_text_calls (snd run)
  /\ (8%N, event, false) ∈ send_text_calls (snd run)
  /\ 7%N ∈ active_connections (snd run)
  /\ 8%N ∉ active_connections (snd run).
Proof.
  intros w event run.
  destruct (broadcast_is_best_effort (Example.env_up 1000) w event)
    as (Hreturn & _ & _ & Htried & Hdropped & Hkept & _).
  fold run in Hreturn, Htried, Hdropped, Hkept.
  assert (H7 : 7%N ∈ active_connections w) by (apply elem_of_union; left; by apply elem_of_singleton).
  assert (H8 : 8%N ∈ active_connections w) by (apply elem_of_union; right; by apply elem_of_singleton).
  split; [exact Hreturn|].
  split; [exact (proj2 (Hkept 7%N H7 eq_refl))|].
  split; [exact (Htried 8%N H8)|].
  split; [exact (proj1 (Hkept 7%N H7 eq_refl)) | exact (Hdropped 8%N H8 eq_refl)].
Defined.

(** C6 at a report for a message id that was never recorded. *)
Lemma unknown_report_is_acknowledged_witness :
  let w := Example.world (Example.tables Example.alice [Example.sent_row]) in
  let run :=
    endpoint (delivery_report_webhook Example.unknown_report)
      (Example.env_up 2000) w in
  let again :=
    endpoint (delivery_report_webhook Example.unknown_report)
      (Example.env_up 3000) (snd run) in
  Forall (fun h => SmsHistory.external_id h <> Report.id Example.unknown_report)
    (sms_history (database w))
  /\ fst run = Return [("status", "received")]
  /\ database (snd run) = database w
  /\ fst again = Return [("status", "received")]
  /\ database (snd again) = database w.
Proof.
  intros w run again.
  assert (Hmiss : Forall
            (fun h => SmsHistory.external_id h <> Report.id Example.unknown_report)
            (sms_history (database w))).
  { constructor; [discriminate | constructor]. }
  destruct (unknown_report_is_acknowledged
              (Example.env_up 2000) (Example.env_up 3000) w Example.unknown_report Hmiss)
    as (Hack & _ & Hdb & Hack' & Hdb').
  repeat split; assumption.
Defined.


(** C5 (as stated) fails: with one observer connected, the second delivery
    of the same "Delivered" report sends the delivery_update event again. *)
Lemma replay_is_not_silent :
  let w := Example.world (Example.tables Example.alice [Example.sent_row]) in
  let env := Example.env_up 2000 in
  let w1 := snd (endpoint (delivery_report_webhook Example.delivered_report) env w) in
  let w2 := snd (endpoint (delivery_report_webhook Example.delivered_report) env w1) in
  List.length (send_text_calls w1) = 2%nat
  /\ elements (active_connections w1) = [7%N]
  /\ List.length (send_text_calls w2) = 3%nat
  /\ ~ replay_is_silent env w Example.delivered_report.
Proof.
  intros w env w1 w2.
  split; [by vm_compute|].
  split; [by vm_compute|].
  split; [by vm_compute|].
  intros [_ Hsame]. apply (f_equal List.length) in Hsame.
  vm_compute in Hsame. discriminate.
Qed.

(** C5 (as amended) at a "Delivered" report received at 2000 and again at
    3000, by a database that orders its rows differently the second time;
    the history holds the row of the report and a row without message id. *)
Lemma replayed_report_rewrites_and_rebroadcasts_witness :
  let w := Example.world
             (Example.tables Example.alice [Example.sent_row; Sample.rejected_row]) in
  let report := Example.delivered_report in
  let run := endpoint (delivery_report_webhook report) (Example.env_up 2000) w in
  let again :=
    endpoint (delivery_report_webhook report) (Sample.env_second_match 3000) (snd run) in
  fst run = Return [("status", "received")]
  /\ fst again = Return [("status", "received")]
  /\ users (database (snd again)) = users (database w)
  /\ transactions (database (snd again)) = []
  /\ SmsHistory.delivered_at <$> sms_history (database (snd run)) !! 0%nat
     = Some (Some 2000)
  /\ SmsHistory.delivered_at <$> sms_history (database (snd again)) !! 0%nat
     = Some (Some 3000)
  /\ sms_history (database (snd again)) !! 1%nat = Some Sample.rejected_row
  /\ List.length (send_text_calls (snd again))
     = S (List.length (send_text_calls (snd run))).
Proof.
  intros w report run again.
  assert (Hunique : forall i j a b,
            sms_history (database w) !! i = Some a ->
            sms_history (database w) !! j = Some b ->
            SmsHistory.external_id a = Report.id report ->
            SmsHistory.external_id b = Report.id report ->
            i = j).
  { intros i j a b Hi Hj Ha Hb.
    destruct i as [|[|i]], j as [|[|j]]; try reflexivity;
      cbn in Hi, Hj; try discriminate;
      injection Hi as <-; injection Hj as <-; discriminate. }
  assert (Hack : fst run = Return [("status", "received")]) by reflexivity.
  destruct (replayed_report_rewrites_and_rebroadcasts
              (Example.env_up 2000) (Sample.env_second_match 3000) w report Hunique Hack)
    as (Hack' & Husers & Hledger & Hhistory & _ & Hcalls & _).
  fold run again in Hack', Husers, Hledger, Hhistory, Hcalls.
  split; [exact Hack|].
  split; [exact Hack'|].
  split; [exact Husers|].
  split; [by rewrite Hledger|].
  split; [reflexivity|].
  split; [by rewrite Hhistory|].
  split; [by rewrite Hhistory|].
  rewrite Hcalls, length_app. vm_compute. reflexivity.
Defined.

(** Without that hypothesis the second delivery may rewrite another row: two
    rows have no message id, a report without id arrives twice, and the
    database returns the first row the first time and the second row the
    second time. *)
Example replay_may_rewrite_another_row :
  let w := Example.world
             (Example.tables Example.alice [Sample.rejected_row; Sample.rejected_row]) in
  let w1 := snd (endpoint (delivery_report_webhook Sample.report_without_id)
                   (Example.env_up 2000) w) in
  let w2 := snd (endpoint (delivery_report_webhook Sample.report_without_id)
                   (Sample.env_second_match 3000) w1) in
  SmsHistory.status <$> sms_history (database w1) = ["delivered"; "invalidphonenumber"]
  /\ SmsHistory.status <$> sms_history (database w2) = ["delivered"; "delivered"]
  /\ SmsHistory.delivered_at <$> sms_history (database w2) = [Some 2000; Some 3000].
Proof. vm_compute. repeat split. Qed.

(** C10 at "100.00": a debit of 32 and a credit of 5.0. *)
Lemma wallet_is_written_two_ways_witness :
  let w := Example.world (Example.tables Example.alice []) in
  let env := Example.env_up 1000 in
  let debit_run :=
    endpoint (deduct_and_log_wallet (rt := short_runtime) Example.alice Decimal_32
                "SMS to 1 recipients") env w in
  let credit_run :=
    endpoint (add_balance_to_user (rt := short_runtime) 1%N Example.top_up) env w in
  wallet_Decimal (rt := short_runtime) Example.alice = Some (Dec 10000 (-2))
  /\ (Decimal_.value Decimal_32 <= Decimal_.value (Dec 10000 (-2)))%Q
  /\ users (database w) !! 1%N = Some Example.alice
  /\ User.wallet <$> users (database (snd debit_run)) !! 1%N
     = Some (Some (str_Decimal (Dec 6800 (-2))))
  /\ User.wallet <$> users (database (snd credit_run)) !! 1%N
     = Some (Some (str_float (float_of_Z 105))).
Proof.
  intros w env debit_run credit_run.
  assert (Hcost : (Decimal_.value Decimal_32 <= Decimal_.value (Dec 10000 (-2)))%Q)
    by (vm_compute; discriminate).
  destruct (wallet_is_written_two_ways (rt := short_runtime) env w Example.alice
              (Dec 10000 (-2)) Decimal_32 "SMS to 1 recipients" Example.top_up
              eq_refl Hcost eq_refl)
    as (_ & Hdebit & _ & _ & _ & Hcredit).
  fold debit_run in Hdebit. fold credit_run in Hcredit.
  split; [reflexivity|].
  split; [exact Hcost|].
  split; [reflexivity|].
  split.
  - rewrite (Hdebit : User.wallet <$> users (database (snd debit_run)) !! 1%N = Some _).
    vm_compute. reflexivity.
  - rewrite (Hcredit : User.wallet <$> users (database (snd credit_run)) !! 1%N = Some _).
    vm_compute. reflexivity.
Defined.

(** C2 (as amended) at a new account, "10.0": a credit of 90 followed by a
    debit of 32 (the balance is "68.00", with one entry of each kind); three
    debits, one of them refused; two credits of 5.0; and the creation of a
    second account. *)
Lemma ledger_follows_the_requests_witness :
  let w := Example.world (Example.tables Example.newcomer []) in
  let env := Example.env_up 1000 in
  let mixed :=
    [(env, credit Example.ninety); (env, debit Decimal_32 "SMS to 1 recipients")] in
  let debits :=
    [(env, debit (Dec 5 0) "SMS to 1 recipients");
     (env, debit (Dec 500 0) "SMS to 10 recipients");
     (env, debit (Dec 50 (-2)) "SMS to 1 recipients")] in
  let credits := [(env, credit Example.top_up); (env, credit Example.top_up)] in
  let created := endpoint (create_user UserCreate_defaults 2%N) env w in
  users (database w) !! 1%N = Some Example.newcomer
  /\ users (database w) !! 2%N = None
  /\ Decimal_.two_places Decimal_10_0
  /\ Forall (fun step => is_debit step.2 /\ Decimal_.two_places (debit_cost step.2)) debits
  /\ Forall (fun step => is_credit step.2) credits
  /\ users (database (snd created)) !! 2%N = Some (User.new 2%N)
  /\ transactions (database (snd created)) = []
  /\ User.wallet <$> users (database (ledger_run (rt := short_runtime) 1%N mixed w)) !! 1%N
     = Some (Some (str_Decimal (Dec 6800 (-2))))
  /\ List.map fst (entries_of 1%N (database (ledger_run (rt := short_runtime) 1%N mixed w)))
     = ["credit"; "debit"]
  /\ (exists b' entries costs,
        User.wallet <$> users (database (ledger_run (rt := short_runtime) 1%N debits w)) !! 1%N
          = Some (Some (str_Decimal b'))
        /\ transactions (database (ledger_run (rt := short_runtime) 1%N debits w)) = entries
        /\ List.length entries = List.length costs
        /\ Decimal_.cents b' = 1000 - total_cents costs)
  /\ (exists user',
        users (database (ledger_run (rt := short_runtime) 1%N credits w)) !! 1%N = Some user'
        /\ wallet_float (rt := short_runtime) user'
           = float_sum (short_float_of_Decimal Decimal_10_0) [float_of_Z 5; float_of_Z 5]).
Proof.
  intros w env mixed debits credits created.
  assert (Hplaces : Decimal_.two_places Decimal_10_0)
    by (unfold Decimal_.two_places; cbn; lia).
  assert (Hdebits : Forall
            (fun step => is_debit step.2 /\ Decimal_.two_places (debit_cost step.2)) debits).
  { repeat (constructor; [split; [exact I | unfold Decimal_.two_places; cbn; lia]|]).
    constructor. }
  assert (Hcredits : Forall (fun step => is_credit step.2) credits).
  { repeat (constructor; [exact I|]). constructor. }
  destruct (ledger_follows_the_requests (rt := short_runtime) 1%N w Example.newcomer
              eq_refl eq_refl)
    as (Hnew & Hmixed & Hdebit & Hcredit & _).
  destruct (Hnew env w 2%N eq_refl) as (_ & Hcreated & _ & _ & Hledger0 & _).
  destruct (Hmixed mixed) as [Hbalance Hentries].
  destruct (Hdebit Decimal_10_0 debits eq_refl Hplaces Hdebits)
    as (b' & entries & costs & Hwallet & Hledger & Hshape & Hsum).
  destruct (Hcredit credits Hcredits) as (user' & _ & Huser' & Hfloat & _).
  split; [reflexivity|].
  split; [reflexivity|].
  split; [exact Hplaces|].
  split; [exact Hdebits|].
  split; [exact Hcredits|].
  split; [exact Hcreated|].
  split; [exact Hledger0|].
  split; [etrans; [exact Hbalance|]; vm_compute; reflexivity|].
  split; [etrans; [exact (f_equal (List.map fst) Hentries)|]; vm_compute; reflexivity|].
  split.
  - exists b', entries, costs.
    split; [exact Hwallet|].
    split; [exact Hledger|].
    split; [by apply Forall2_length in Hshape | exact Hsum].
  - exists user'. split; [exact Huser'|]. rewrite Hfloat. reflexivity.
Defined.

(** The two paths do not agree on the same amounts: crediting 0.1 to a wallet
    of "0.20" stores a double that differs from [float("0.30")], while
    debiting 0.10 from "0.30" stores "0.20" exactly. *)
Example credit_is_not_rounded_to_hundredths :
  let user :=
    {| User.id := 1%N;
       User.wallet := Some (str_Decimal (Dec 20 (-2)));
       User.sms_cost := Some Decimal_32 |} in
  let dime :=
    {| req_user_id := 1%N;
       amount := short_float_of_Decimal (Dec 1 (-1));
       description := None;
       payment_method := "admin_adjustment" |} in
  let w := Example.world (Example.tables user []) in
  let credited :=
    snd (endpoint (add_balance_to_user (rt := short_runtime) 1%N dime)
           (Example.env_up 1000) w) in
  (exists f,
     User.wallet <$> users (database credited) !! 1%N = Some (Some (str_float f))
     /\ PrimFloat.eqb f (short_float_of_Decimal (Dec 30 (-2))) = false
     /\ PrimFloat.ltb (short_float_of_Decimal (Dec 30 (-2))) f = true)
  /\ wallet_after_debit (Dec 30 (-2)) (Dec 10 (-2)) = str_Decimal (Dec 20 (-2)).
Proof.
  split; [|reflexivity].
  eexists. split; [vm_compute; reflexivity|]. split; vm_compute; reflexivity.
Qed.

(** * Further properties of the handlers *)

(** ** The observers' sockets *)

Lemma calls_to_log conn message env (conns : list WebSocket) :
  NoDup conns ->
  calls_to conn (send_text_log message env conns)
  = if decide (conn ∈ conns) then [(conn, message, socket_ok env conn)] else [].
Proof.
  unfold calls_to, send_text_log.
  induction 1 as [|c conns Hc Hnodup IH]; [done|].
  cbn [List.map]. rewrite filter_cons. cbn [fst]. rewrite IH.
  destruct (decide (c = conn)) as [->|Hne].
  - rewrite decide_False by done.
    by rewrite decide_True by (apply elem_of_cons; by left).
  - destruct (decide (conn ∈ conns)) as [Hin|Hnot].
    + by rewrite decide_True by (apply elem_of_cons; by right).
    + rewrite decide_False; [done|]. intros [?|?]%elem_of_cons; done.
Qed.

Lemma calls_to_app conn l1 l2 :
  calls_to conn (l1 ++ l2)%list = (calls_to conn l1 ++ calls_to conn l2)%list.
Proof. unfold calls_to. apply filter_app. Qed.

Lemma after_broadcast_calls message env w :
  send_text_calls (after_broadcast message env w)
  = (send_text_calls w ++ send_text_log message env (elements (active_connections w)))%list.
Proof. reflexivity. Qed.

Lemma after_broadcast_connections message env w :
  active_connections (after_broadcast message env w)
  = still_connected env (active_connections w).
Proof. reflexivity. Qed.

Lemma calls_to_after_broadcast conn message env w :
  calls_to conn (send_text_calls (after_broadcast message env w))
  = (calls_to conn (send_text_calls w)
     ++ if decide (conn ∈ active_connections w)
        then [(conn, message, socket_ok env conn)] else [])%list.
Proof.
  rewrite after_broadcast_calls, calls_to_app, calls_to_log by apply NoDup_elements.
  f_equal. destruct (decide (conn ∈ active_connections w)) as [Hin|Hnot].
  - by rewrite decide_True by (by apply elem_of_elements).
  - by rewrite decide_False by (by rewrite elem_of_elements).
Qed.

(** X1: registering a socket that is already registered changes nothing,
    and a broadcast calls [send_text] exactly once on a registered socket,
    however often it was connected. After [disconnect] a broadcast makes no
    call on the socket, and disconnecting a socket that is not registered
    leaves the manager as it was ([set.discard] does not raise). *)
Theorem broadcast_sends_once_per_socket env w websocket other message :
  let twice := snd ((connect websocket ;; connect websocket)%py env w) in
  let run := broadcast message env twice in
  let gone := snd (disconnect other env w) in
  snd (connect websocket env twice) = twice
  /\ calls_to websocket (send_text_calls (snd run))
     = (calls_to websocket (send_text_calls w)
        ++ [(websocket, message, socket_ok env websocket)])%list
  /\ calls_to other (send_text_calls (snd (broadcast message env gone)))
     = calls_to other (send_text_calls w)
  /\ (other ∉ active_connections w -> gone = w).
Proof.
  intros twice run gone. subst run gone twice.
  rewrite !broadcast_run. cbn [snd].
  rewrite !calls_to_after_broadcast.
  unfold connect, disconnect, bind, modify. cbn [snd].
  split; [|split; [|split]].
  - unfold set_active_connections. f_equal. cbn.
    apply set_eq. intros conn. rewrite !elem_of_union. tauto.
  - rewrite decide_True; [done|]. cbn.
    apply elem_of_union. left. by apply elem_of_singleton.
  - rewrite decide_False; [by rewrite app_nil_r|]. cbn.
    rewrite elem_of_difference, elem_of_singleton. by intros [_ Hne].
  - intros Hnot. unfold set_active_connections.
    assert (Hsame : active_connections w ∖ {[other]} = active_connections w).
    { apply set_eq. intros conn. rewrite elem_of_difference, elem_of_singleton.
      split; [tauto|]. intros Hconn. split; [done|]. by intros ->. }
    rewrite Hsame. reflexivity.
Qed.

Lemma still_connected_idem env (s : gset WebSocket) :
  still_connected env (still_connected env s) = still_connected env s.
Proof.
  unfold still_connected. apply set_eq. intros conn.
  rewrite !elem_of_filter. tauto.
Qed.

(** X2: a socket whose [send_text] failed in a broadcast is not tried again.
    In the next broadcast, the sockets answering as before, every call goes
    through and no socket is removed; a socket that was registered and gone
    has got exactly one failed call, in the first broadcast. *)
Theorem broadcast_drops_dead_sockets_for_good env w first second :
  let w1 := snd (broadcast first env w) in
  let run := broadcast second env w1 in
  active_connections (snd run) = active_connections w1
  /\ (forall call,
        call ∈ send_text_log second env (elements (active_connections w1)) ->
        call.2 = true)
  /\ send_text_calls (snd run)
     = (send_text_calls w1
        ++ send_text_log second env (elements (active_connections w1)))%list
  /\ (forall conn, conn ∈ active_connections w -> socket_ok env conn = false ->
        calls_to conn (send_text_calls (snd run))
        = (calls_to conn (send_text_calls w) ++ [(conn, first, false)])%list).
Proof.
  intros w1 run. subst run w1. rewrite !broadcast_run. cbn [snd].
  rewrite after_broadcast_connections, (after_broadcast_connections first).
  split; [apply still_connected_idem|].
  split.
  { intros [[conn event] ok]. unfold send_text_log.
    intros Hcall. apply list_elem_of_In, in_map_iff in Hcall.
    destruct Hcall as (c & Heq & Hc).
    apply list_elem_of_In, elem_of_elements, elem_of_filter in Hc as [Hup _].
    injection Heq as _ _ <-. exact Hup. }
  split; [reflexivity|].
  intros conn Hconn Hdown.
  rewrite !calls_to_after_broadcast, after_broadcast_connections.
  rewrite (decide_True _ _ Hconn), Hdown.
  rewrite decide_False; [by rewrite app_nil_r|].
  unfold still_connected. rewrite elem_of_filter. intros [Hup _]. congruence.
Qed.

Lemma receive_loop_texts texts rest env w :
  Forall is_text texts ->
  receive_loop (texts ++ rest) env w = receive_loop rest env w.
Proof.
  induction 1 as [|f texts Htext _ IH]; [done|].
  destruct f; done.
Qed.

Lemma sms_websocket_run websocket frames env w :
  sms_websocket websocket frames env w =
  let w1 := set_active_connections ({[websocket]} ∪ active_connections w) w in
  match receive_loop frames env w1 with
  | (Return b, w2) => (Return b, w2)
  | (Raise (PyException name), w2) =>
      if String.eqb name "WebSocketDisconnect"
      then (Return true,
            set_active_connections (active_connections w2 ∖ {[websocket]}) w2)
      else (Raise (PyException name), w2)
  | (Raise e, w2) => (Raise e, w2)
  end.
Proof.
  unfold sms_websocket, bind at 1, connect, modify, try_except. cbv zeta.
  destruct (receive_loop frames env _) as [[b|[code detail|name]] w2]; try done.
  by destruct (String.eqb name "WebSocketDisconnect").
Qed.

Lemma receive_loop_only_texts texts env w :
  Forall is_text texts -> receive_loop texts env w = (Return false, w).
Proof.
  intros Htexts. rewrite <- (app_nil_r texts). by rewrite receive_loop_texts.
Qed.

Lemma receive_loop_world frames env w : snd (receive_loop frames env w) = w.
Proof. induction frames as [|[data| |what] frames IH]; done. Qed.

(** X3: the handler of [/ws] registers the socket and stays in its receive
    loop as long as texts arrive, which it ignores; on [WebSocketDisconnect]
    it unregisters the socket and returns. Neither the rows nor the log of
    [send_text] calls change. *)
Theorem websocket_session_ends_on_disconnect env w websocket texts rest :
  Forall is_text texts ->
  let waiting := sms_websocket websocket texts env w in
  let closed := sms_websocket websocket (texts ++ close_frame :: rest) env w in
  fst waiting = Return false
  /\ active_connections (snd waiting) = {[websocket]} ∪ active_connections w
  /\ fst closed = Return true
  /\ active_connections (snd closed) = active_connections w ∖ {[websocket]}
  /\ database (snd closed) = database w
  /\ send_text_calls (snd closed) = send_text_calls w.
Proof.
  intros Htexts waiting closed. subst waiting closed.
  rewrite !sms_websocket_run. cbv zeta.
  rewrite (receive_loop_only_texts texts) by done.
  rewrite receive_loop_texts by done. cbn.
  split; [done|]. split; [done|]. split; [done|].
  split; [|split; reflexivity].
  apply set_eq. intros conn.
  rewrite !elem_of_difference, elem_of_union, elem_of_singleton. tauto.
Qed.

(** X4: an exception of [receive_text] other than [WebSocketDisconnect]
    leaves the handler of [/ws] with the socket still registered. The next
    broadcast in which the socket's [send_text] fails returns normally and
    removes the socket. *)
Theorem websocket_crash_leaves_socket_registered env env' w websocket texts what rest message :
  Forall is_text texts ->
  what <> "WebSocketDisconnect" ->
  let crashed := sms_websocket websocket (texts ++ bad_frame what :: rest) env w in
  fst crashed = Raise (PyException what)
  /\ websocket ∈ active_connections (snd crashed)
  /\ (socket_ok env' websocket = false ->
      let run := broadcast message env' (snd crashed) in
      fst run = Return tt
      /\ (websocket ∉ active_connections (snd run))
      /\ active_connections (snd run)
         = still_connected env' (active_connections w) ∖ {[websocket]}).
Proof.
  intros Htexts Hwhat crashed. subst crashed.
  rewrite sms_websocket_run. cbv zeta.
  rewrite receive_loop_texts by done. cbn [receive_loop raise].
  apply String.eqb_neq in Hwhat. rewrite Hwhat. cbn [fst snd].
  split; [done|].
  split; [cbn; apply elem_of_union; left; by apply elem_of_singleton|].
  intros Hdown. rewrite broadcast_run. cbn [fst snd].
  rewrite after_broadcast_connections. cbn.
  split; [done|]. unfold still_connected.
  split.
  - rewrite elem_of_filter. intros [Hup _]. congruence.
  - apply set_eq. intros conn.
    rewrite elem_of_difference, !elem_of_filter, elem_of_union, !elem_of_singleton.
    split.
    + intros [Hup [->|Hin]]; [congruence|]. split; [done|]. intros ->. congruence.
    + intros [[Hup Hin] Hne]. split; [done | by right].
Qed.

(** ** Dispatch *)

Lemma sms_units_pos (msg_len : Z) : 0 <= msg_len -> 1 <= sms_units msg_len.
Proof.
  intros Hlen. unfold sms_units.
  destruct (160 <? msg_len) eqn:Hlong; [|lia].
  apply Z.ltb_lt in Hlong.
  pose proof (Z.div_le_lower_bound msg_len 153 1 ltac:(lia) ltac:(lia)).
  destruct (msg_len mod 153 =? 0); lia.
Qed.

Lemma len_str_nonneg (s : string) : 0 <= len_str s.
Proof. unfold len_str. lia. Qed.


Section MoreDispatch.
Context {rt : PyRuntime}.

(** X5: with a [template_id] the payload's [message] is not used. A template
    that is missing or owned by someone else gives 404 with no row written,
    no gateway call and no broadcast; for a template of the caller whose
    cost the balance covers, the template's content is what the gateway is
    sent and what the debit is computed from. *)
Theorem template_decides_the_text env w payload current_user tid :
  template_id payload = Some tid ->
  let run := endpoint (send_sms payload current_user) env w in
  (match templates (database w) !! tid with
   | Some tpl => Template.owner_id tpl <> User.id current_user
   | None => True
   end ->
   fst run = Raise (HTTPException 404 "Template not found")
   /\ database (snd run) = database w
   /\ gateway_calls (snd run) = gateway_calls w
   /\ send_text_calls (snd run) = send_text_calls w)
  /\ (forall tpl balance,
        templates (database w) !! tid = Some tpl ->
        Template.owner_id tpl = User.id current_user ->
        wallet_Decimal current_user = Some balance ->
        let cost := request_cost (Template.content tpl) payload current_user in
        (Decimal_.value cost <= Decimal_.value balance)%Q ->
        gateway_calls (snd run)
        = (gateway_calls w ++ [send_args payload (Template.content tpl) env])%list
        /\ send_message (send_args payload (Template.content tpl) env)
           = Template.content tpl
        /\ transactions (database (snd run))
           = (transactions (database w)
              ++ [debit_transaction current_user balance cost
                    (send_description payload) (utcnow env)])%list).
Proof.
  intros Htid run. subst run. split.
  - intros Hno.
    assert (Htext : template_text payload current_user (database w) = None).
    { unfold template_text. rewrite Htid.
      destruct (templates (database w) !! tid) as [tpl|]; [|done].
      by rewrite decide_False. }
    unfold endpoint. rewrite send_sms_run. cbn [session set_session].
    by rewrite Htext.
  - intros tpl balance Htpl Howner Hwallet cost Hle%ltb_ge.
    assert (Htext : template_text payload current_user (database w)
                    = Some (Template.content tpl)).
    { unfold template_text. rewrite Htid, Htpl. by rewrite decide_True. }
    open_send_sms Htext Hwallet. fold cost. rewrite Hle.
    destruct (sms_send env _) as [data_message recipients_data|what];
      [destruct (history_rows _ _ _ _ _ _) as [rows|];
         [destruct (enforces_max_length env && _)|]|]; cbn; done.
Qed.

(** X6: [send_sms] calls the gateway exactly when it has logged the debit.
    Either the ledger and the gateway calls are as before, or each grew by
    one: the debit of the request's cost, and one call with the payload's
    recipients whose sender id is the payload's [from] when not empty, else
    [AT_SENDER_ID] when not empty, else "ATUpdates". *)
Theorem gateway_is_called_exactly_when_debited env w payload current_user :
  let run := endpoint (send_sms payload current_user) env w in
  (transactions (database (snd run)) = transactions (database w)
   /\ gateway_calls (snd run) = gateway_calls w)
  \/ (exists final_message balance,
        template_text payload current_user (database w) = Some final_message
        /\ wallet_Decimal current_user = Some balance
        /\ transactions (database (snd run))
           = (transactions (database w)
              ++ [debit_transaction current_user balance
                    (request_cost final_message payload current_user)
                    (send_description payload) (utcnow env)])%list
        /\ gateway_calls (snd run)
           = (gateway_calls w ++ [send_args payload final_message env])%list
        /\ send_recipients (send_args payload final_message env) = to payload
        /\ send_sender_id (send_args payload final_message env)
           = match from_ payload, at_sender_id env with
             | Some (String c s), _ => String c s
             | _, Some (String c s) => String c s
             | _, _ => "ATUpdates"
             end).
Proof.
  intros run. subst run.
  unfold endpoint. rewrite send_sms_run. cbn [session set_session].
  destruct (template_text payload current_user (database w)) as [final_message|] eqn:Htext;
    [|by left].
  cbv zeta.
  destruct (wallet_Decimal current_user) as [balance|] eqn:Hwallet; [|by left].
  destruct (Decimal_.ltb balance _) eqn:Hlt; [by left|].
  right. exists final_message, balance.
  split; [done|]. split; [done|].
  assert (Hsender : send_sender_id (send_args payload final_message env)
            = match from_ payload, at_sender_id env with
              | Some (String c s), _ => String c s
              | _, Some (String c s) => String c s
              | _, _ => "ATUpdates"
              end).
  { unfold send_args, Str.or_else. cbn.
    destruct (from_ payload) as [[|c s]|], (at_sender_id env) as [[|c' s']|]; done. }
  destruct (sms_send env _) as [data_message recipients_data|what];
    [destruct (history_rows _ _ _ _ _ _) as [rows|];
       [destruct (enforces_max_length env && _)|]|]; cbn; done.
Qed.

(** X7: when the gateway answers and the cost text of one recipient cannot be
    read as a [Decimal], the request fails with 502 after the charge: the
    wallet is debited, the debit entry and the gateway call are there, and
    no history row is kept, also none for the recipients read before the
    unreadable one; nothing is broadcast. *)
Theorem unreadable_cost_loses_the_history
    env w payload current_user final_message balance data_message recipients_data :
  template_text payload current_user (database w) = Some final_message ->
  wallet_Decimal current_user = Some balance ->
  let cost := request_cost final_message payload current_user in
  (Decimal_.value cost <= Decimal_.value balance)%Q ->
  sms_send env (send_args payload final_message env)
    = SMSMessageData data_message recipients_data ->
  Exists (fun r => recipient_cost r = None) recipients_data ->
  let run := endpoint (send_sms payload current_user) env w in
  fst run = Raise (HTTPException 502 "SMS gateway failed")
  /\ sms_history (database (snd run)) = sms_history (database w)
  /\ users (database (snd run)) !! User.id current_user
     = Some (User.set_wallet current_user (Some (wallet_after_debit balance cost)))
  /\ transactions (database (snd run))
     = (transactions (database w)
        ++ [debit_transaction current_user balance cost
              (send_description payload) (utcnow env)])%list
  /\ gateway_calls (snd run)
     = (gateway_calls w ++ [send_args payload final_message env])%list
  /\ send_text_calls (snd run) = send_text_calls w.
Proof.
  intros Htext Hwallet cost Hle%ltb_ge Hreply Hbad run. subst run.
  assert (Hrows : history_rows current_user final_message
                    (sms_units (len_str final_message)) (template_id payload)
                    (utcnow env) recipients_data = None).
  { unfold history_rows. apply mapM_None.
    eapply Exists_impl; [exact Hbad|]. intros r Hr. cbn. by rewrite Hr. }
  open_send_sms Htext Hwallet. fold cost.
  rewrite Hle, Hreply, Hrows. cbn.
  by rewrite lookup_insert_eq.
Qed.


(** X8: an account on the defaults of [UserBase] (wallet "10.0", sms_cost
    "32") cannot send: every request with at least one recipient is refused
    with 400 "Insufficient funds", with nothing written and no gateway
    call. *)
Theorem new_account_cannot_send env w i payload final_message :
  to payload <> [] ->
  template_text payload (User.new i) (database w) = Some final_message ->
  let run := endpoint (send_sms payload (User.new i)) env w in
  fst run = Raise (HTTPException 400 "Insufficient funds")
  /\ database (snd run) = database w
  /\ gateway_calls (snd run) = gateway_calls w.
Proof.
  intros Hto Htext run. subst run.
  assert (Hwallet : wallet_Decimal (User.new i) = Some Decimal_10_0) by reflexivity.
  open_send_sms Htext Hwallet.
  assert (Hlow : Decimal_.ltb Decimal_10_0
                   (request_cost final_message payload (User.new i)) = true).
  { unfold request_cost, total_cost, Decimal_.mul_int, Decimal_.ltb, Decimal_.rescale.
    cbn [coef expo cost_per_sms User.new User.sms_cost Decimal_32 Decimal_10_0].
    apply Z.ltb_lt.
    pose proof (sms_units_pos _ (len_str_nonneg final_message)) as Hunits.
    assert (Hcount : 1 <= len_list (to payload)).
    { unfold len_list. destruct (to payload); [done|]. cbn [List.length]. lia. }
    change (Z.min (-1) 0) with (-1). change (10 ^ (-1 - -1)) with 1.
    change (10 ^ (0 - -1)) with 10. nia. }
  rewrite Hlow. done.
Qed.

(** X9: an empty recipient list is not refused. The cost is zero, so any
    balance that is not negative passes the funds check; a debit entry of
    amount zero with the description "SMS to 0 recipients" is logged and the
    gateway is called with no recipient. *)
Theorem empty_recipient_list_is_dispatched env w payload current_user final_message balance :
  to payload = [] ->
  template_text payload current_user (database w) = Some final_message ->
  wallet_Decimal current_user = Some balance ->
  0 <= coef balance ->
  let run := endpoint (send_sms payload current_user) env w in
  request_cost final_message payload current_user
    = Dec 0 (expo (cost_per_sms current_user))
  /\ http_status (fst run) <> 400
  /\ transactions (database (snd run))
     = (transactions (database w)
        ++ [debit_transaction current_user balance
              (Dec 0 (expo (cost_per_sms current_user)))
              "SMS to 0 recipients" (utcnow env)])%list
  /\ gateway_calls (snd run)
     = (gateway_calls w ++ [send_args payload final_message env])%list
  /\ send_recipients (send_args payload final_message env) = [].
Proof.
  intros Hto Htext Hwallet Hbalance run. subst run.
  assert (Hcost : request_cost final_message payload current_user
                  = Dec 0 (expo (cost_per_sms current_user))).
  { unfold request_cost, total_cost, Decimal_.mul_int, len_list.
    rewrite Hto. cbn. f_equal. lia. }
  assert (Hdesc : send_description payload = "SMS to 0 recipients").
  { unfold send_description, len_list. by rewrite Hto. }
  split; [exact Hcost|].
  open_send_sms Htext Hwallet. rewrite Hcost, Hdesc.
  assert (Hcovered : Decimal_.ltb balance (Dec 0 (expo (cost_per_sms current_user))) = false).
  { unfold Decimal_.ltb, Decimal_.rescale. cbn [coef expo]. apply Z.ltb_ge.
    rewrite Z.mul_0_l. apply Z.mul_nonneg_nonneg; [done|]. apply Z.pow_nonneg. lia. }
  rewrite Hcovered.
  assert (Hnone : send_recipients (send_args payload final_message env) = [])
    by (by cbn).
  destruct (sms_send env _) as [data_message recipients_data|what];
    [destruct (history_rows _ _ _ _ _ _) as [rows|];
       [destruct (enforces_max_length env && _)|]|]; cbn; done.
Qed.

(** X10: whatever the request and however it ends, [send_sms] changes no
    other account's row and no template, only appends to the ledger, to the
    history, to the gateway calls and to the [send_text] calls, and adds no
    observer. *)
Theorem send_sms_is_confined_and_append_only env w payload current_user :
  let w' := snd (endpoint (send_sms payload current_user) env w) in
  (forall other, other <> User.id current_user ->
     users (database w') !! other = users (database w) !! other)
  /\ templates (database w') = templates (database w)
  /\ transactions (database w) `prefix_of` transactions (database w')
  /\ sms_history (database w) `prefix_of` sms_history (database w')
  /\ gateway_calls w `prefix_of` gateway_calls w'
  /\ send_text_calls w `prefix_of` send_text_calls w'
  /\ active_connections w' ⊆ active_connections w.
Proof.
  intros w'. subst w'.
  unfold endpoint. rewrite send_sms_run. cbn [session set_session].
  assert (Hstill : still_connected env (active_connections w) ⊆ active_connections w).
  { unfold still_connected. intros conn. rewrite elem_of_filter. tauto. }
  destruct (template_text payload current_user (database w)) as [final_message|];
    [|cbn; by repeat split].
  cbv zeta.
  destruct (wallet_Decimal current_user) as [balance|]; [|cbn; by repeat split].
  destruct (Decimal_.ltb balance _); [cbn; by repeat split|].
  destruct (sms_send env _) as [data_message recipients_data|what];
    [destruct (history_rows _ _ _ _ _ _) as [rows|];
       [destruct (enforces_max_length env && _)|]|]; cbn.
  all: split; [intros other Hne; by rewrite lookup_insert_ne|].
  all: split; [done|].
  all: split; [by apply prefix_app_r|].
  all: split; [first [done | by apply prefix_app_r]|].
  all: split; [by apply prefix_app_r|].
  all: split; [first [done | by apply prefix_app_r]|].
  all: done.
Qed.

(** X11: for an answer of the gateway whose recipients have the shape of
    [Recipient.t]: when [send_sms] returns, every observer registered at
    that time was sent one [sms_batch_sent] event carrying the response's summary,
    [total_sent] and total cost; [total_sent] counts every recipient of the
    gateway's answer, rejected ones included, and one history row per
    recipient was added. When it raises, nothing was broadcast, no observer
    was dropped and no history row was added. *)
Theorem observers_hear_what_the_caller_hears env w payload current_user :
  let run := endpoint (send_sms payload current_user) env w in
  match fst run with
  | Return response =>
      send_text_calls (snd run)
      = (send_text_calls w
         ++ send_text_log
              (sms_batch_sent (User.id current_user) (summary response)
                 (total_sent response) (total_cost_ugx response) (utcnow env))
              env (elements (active_connections w)))%list
      /\ active_connections (snd run) = still_connected env (active_connections w)
      /\ total_sent response = len_list (recipients response)
      /\ List.length (sms_history (database (snd run)))
         = (List.length (sms_history (database w))
            + List.length (recipients response))%nat
  | Raise _ =>
      send_text_calls (snd run) = send_text_calls w
      /\ active_connections (snd run) = active_connections w
      /\ sms_history (database (snd run)) = sms_history (database w)
  end.
Proof.
  intros run. subst run.
  unfold endpoint. rewrite send_sms_run. cbn [session set_session].
  destruct (template_text payload current_user (database w)) as [final_message|];
    [|done].
  cbv zeta.
  destruct (wallet_Decimal current_user) as [balance|]; [|done].
  destruct (Decimal_.ltb balance _); [done|].
  destruct (sms_send env _) as [data_message recipients_data|what]; [|done].
  destruct (history_rows _ _ _ _ _ _) as [rows|] eqn:Hrows; [|done].
  destruct (enforces_max_length env && _); [done|].
  cbn. repeat split; try done.
  rewrite length_app. f_equal.
  unfold history_rows in Hrows. apply mapM_Some in Hrows.
  symmetry. by eapply Forall2_length.
Qed.

End MoreDispatch.

(** ** The funds check *)

Lemma Decimal_eqb_eq (a b : Decimal) :
  Decimal_.eqb a b = true <-> (Decimal_.value a == Decimal_.value b)%Q.
Proof.
  unfold Decimal_.eqb. cbv zeta.
  set (e := Z.min (expo a) (expo b)).
  rewrite Z.eqb_eq, <- inject_Z_injective, !rescale_value by lia.
  split; intros Heq.
  - apply Qmult_inj_r in Heq; [exact Heq|].
    intros Hzero. pose proof (Qpower_ten_pos (- e)) as Hpos.
    rewrite Hzero in Hpos. by apply Qlt_irrefl in Hpos.
  - by rewrite Heq.
Qed.

Lemma quantize_zero (e : Z) (q : Decimal) : Decimal_.quantize (Dec 0 e) q = Dec 0 (expo q).
Proof.
  unfold Decimal_.quantize, Decimal_.rescale, Decimal_.round_half_even.
  cbn [coef expo]. destruct (expo q <=? e) eqn:He; [done|].
  apply Z.leb_gt in He.
  assert (Hp : 0 < 10 ^ (expo q - e)) by (apply Z.pow_pos_nonneg; lia).
  rewrite Z.div_0_l, Z.mod_0_l by lia.
  by rewrite (proj2 (Z.ltb_lt (2 * 0) _)) by lia.
Qed.

Section MoreWallet.
Context {rt : PyRuntime}.

(** X12: the boundaries of the funds check. A balance equal to the cost is
    enough: the debit goes through and the stored wallet is "0.00". A wallet
    that is NULL is read as "0.0", so every positive cost is refused with
    400 and nothing is written. *)
Theorem debit_boundaries env w user cost description :
  let run := endpoint (deduct_and_log_wallet user cost description) env w in
  (forall balance,
     wallet_Decimal user = Some balance ->
     (Decimal_.value balance == Decimal_.value cost)%Q ->
     fst run = Return tt
     /\ User.wallet <$> users (database (snd run)) !! User.id user
        = Some (Some (str_Decimal (Dec 0 (-2)))))
  /\ (User.wallet user = None ->
      (0 < Decimal_.value cost)%Q ->
      fst run = Raise (HTTPException 400 "Insufficient funds")
      /\ database (snd run) = database w).
Proof.
  intros run. subst run. split.
  - intros balance Hwallet Heq.
    assert (Hlt : Decimal_.ltb balance cost = false).
    { apply ltb_ge. rewrite Heq. apply Qle_refl. }
    rewrite (debit_endpoint_run _ _ _ _ _ _ Hwallet), Hlt.
    split; [done|]. cbn. rewrite lookup_insert_eq. cbn.
    do 3 f_equal. unfold wallet_after_debit. cbv zeta.
    apply Decimal_eqb_eq in Heq. unfold Decimal_.eqb in Heq. cbv zeta in Heq.
    apply Z.eqb_eq in Heq.
    unfold Decimal_.sub. cbv zeta. rewrite Heq, Z.sub_diag.
    by rewrite quantize_zero.
  - intros Hnone Hpos.
    assert (Hwallet : wallet_Decimal user = Some Decimal_0_0)
      by (unfold wallet_Decimal; by rewrite Hnone).
    rewrite (debit_endpoint_run _ _ _ _ _ _ Hwallet).
    assert (Hlt : Decimal_.ltb Decimal_0_0 cost = true).
    { apply ltb_lt. unfold Decimal_.value at 1. cbn [coef Decimal_0_0].
      by rewrite Qmult_0_l. }
    by rewrite Hlt.
Qed.

End MoreWallet.

(** ** Delivery reports *)

Lemma lower_app (a b : string) :
  Str.lower (a ++ b)%string = (Str.lower a ++ Str.lower b)%string.
Proof.
  induction a as [|c a IH]; [done|].
  rewrite append_cons. cbn [Str.lower]. by rewrite append_cons, IH.
Qed.

Lemma contains_lower (needle hay : string) :
  Str.contains needle hay = true ->
  Str.contains (Str.lower needle) (Str.lower hay) = true.
Proof.
  rewrite !contains_spec. intros (before & after & ->).
  exists (Str.lower before), (Str.lower after). by rewrite !lower_app.
Qed.

(** X13: a report whose id is found and that carries a status rewrites one
    row, a row that carries that [external_id]: the table keeps its length,
    no other row changes, and the row keeps every column but [status],
    [error_message] and [delivered_at]; [error_message] becomes the report's
    [failureReason], which erases an earlier reason when the report has
    none. Which row it is when several carry the id is the database's
    choice (the query has no ORDER BY); when one row alone carries the id,
    it is that row. *)
Theorem report_rewrites_one_row_three_columns env w report i history s :
  first_by_external_id (first_match env) (Report.id report) (sms_history (database w))
  = Some (i, history) ->
  Report.status report = Some s ->
  let rows := sms_history (database w) in
  let rows' := sms_history (database (snd (endpoint (delivery_report_webhook report) env w))) in
  rows !! i = Some history
  /\ SmsHistory.external_id history = Report.id report
  /\ List.length rows' = List.length rows
  /\ (forall j, j <> i -> rows' !! j = rows !! j)
  /\ (forall k,
        (forall j other, rows !! j = Some other ->
           SmsHistory.external_id other = Report.id report -> j = k) ->
        i = k)
  /\ exists row',
       rows' !! i = Some row'
       /\ SmsHistory.user_id row' = SmsHistory.user_id history
       /\ SmsHistory.recipient row' = SmsHistory.recipient history
       /\ SmsHistory.message row' = SmsHistory.message history
       /\ SmsHistory.sms_count row' = SmsHistory.sms_count history
       /\ SmsHistory.cost row' = SmsHistory.cost history
       /\ SmsHistory.external_id row' = SmsHistory.external_id history
       /\ SmsHistory.template_id row' = SmsHistory.template_id history
       /\ SmsHistory.sent_at row' = SmsHistory.sent_at history
       /\ SmsHistory.error_message row' = Report.failureReason report.
Proof.
  intros Hfind Hstatus rows rows'. subst rows rows'.
  rewrite (found_report_run _ _ _ _ _ _ Hfind Hstatus). cbn.
  apply first_by_external_id_Some in Hfind as [Hi Hid].
  split; [exact Hi|].
  split; [exact Hid|].
  split; [apply length_insert|].
  split; [intros j Hne; by apply list_lookup_insert_ne|].
  split; [intros k Honly; by apply (Honly i history)|].
  eexists. split; [apply list_lookup_insert_eq; by eapply lookup_lt_Some|].
  done.
Qed.

(** X14: a report without [id] is not ignored. Its lookup compares
    [external_id] with NULL, so when the history holds a row without
    message id (a recipient the gateway rejected), one such row is
    rewritten with the report's status and the webhook acknowledges. *)
Theorem report_without_id_hits_a_row_without_message_id env w report s :
  Report.id report = None ->
  Report.status report = Some s ->
  Exists (fun row => SmsHistory.external_id row = None) (sms_history (database w)) ->
  let run := endpoint (delivery_report_webhook report) env w in
  exists i history,
    sms_history (database w) !! i = Some history
    /\ SmsHistory.external_id history = None
    /\ fst run = Return [("status", "received")]
    /\ sms_history (database (snd run))
       = <[i := reconciled history (Str.lower s) (Report.failureReason report)
                  (if Str.contains "Delivered" s then Some (utcnow env) else None)]>
           (sms_history (database w)).
Proof.
  intros Hid Hstatus Hrows run. subst run.
  destruct (first_by_external_id (first_match env) (Report.id report)
              (sms_history (database w)))
    as [[i history]|] eqn:Hfind.
  - exists i, history.
    rewrite (found_report_run _ _ _ _ _ _ Hfind Hstatus). cbn.
    apply first_by_external_id_Some in Hfind as [Hi Hmatch].
    rewrite Hid in Hmatch. done.
  - exfalso. apply first_by_external_id_None in Hfind. rewrite Hid in Hfind.
    apply Exists_exists in Hrows as (row & Hin & Hnone).
    rewrite Forall_forall in Hfind. by apply (Hfind row).
Qed.

(** X15: a report whose id is found and that carries no [status] fails at
    [status.lower()]: the request ends in an [AttributeError] (status 500),
    no row is changed and nothing is broadcast. *)
Theorem report_without_status_fails_on_a_match env w report i history :
  first_by_external_id (first_match env) (Report.id report) (sms_history (database w))
  = Some (i, history) ->
  Report.status report = None ->
  let run := endpoint (delivery_report_webhook report) env w in
  fst run = Raise (PyException "AttributeError")
  /\ http_status (fst run) = 500
  /\ database (snd run) = database w
  /\ send_text_calls (snd run) = send_text_calls w
  /\ active_connections (snd run) = active_connections w.
Proof.
  intros Hfind Hstatus run. subst run.
  unfold endpoint. rewrite delivery_report_webhook_run.
  cbn [session set_session]. by rewrite Hfind, Hstatus.
Qed.

(** X16: after a report was applied to a row, [delivered_at] is set only if
    the stored status contains "delivered", and it is not set when the
    report's status does not contain "Delivered" as written. *)
Theorem delivery_time_implies_delivered_status env w report i history s :
  first_by_external_id (first_match env) (Report.id report) (sms_history (database w))
  = Some (i, history) ->
  Report.status report = Some s ->
  let rows' := sms_history (database (snd (endpoint (delivery_report_webhook report) env w))) in
  exists row',
    rows' !! i = Some row'
    /\ (is_Some (SmsHistory.delivered_at row') ->
        Str.contains "delivered" (SmsHistory.status row') = true)
    /\ (Str.contains "Delivered" s = false -> SmsHistory.delivered_at row' = None).
Proof.
  intros Hfind Hstatus rows'. subst rows'.
  rewrite (found_report_run _ _ _ _ _ _ Hfind Hstatus). cbn.
  apply first_by_external_id_Some in Hfind as [Hi _].
  eexists. split; [apply list_lookup_insert_eq; by eapply lookup_lt_Some|].
  cbn. destruct (Str.contains "Delivered" s) eqn:Hdelivered.
  - split; [|done]. intros _.
    by apply (contains_lower "Delivered" s).
  - split; [|done]. by intros [t Ht].
Qed.

(** X17: no delivery report, found or not, with or without status, touches
    an account, the ledger, a template or the gateway; it adds and removes
    no history row, and leaves every row's [external_id], [recipient] and
    [cost] as they were. *)
Theorem report_never_touches_money_or_row_identity env w report :
  let w' := snd (endpoint (delivery_report_webhook report) env w) in
  users (database w') = users (database w)
  /\ transactions (database w') = transactions (database w)
  /\ templates (database w') = templates (database w)
  /\ gateway_calls w' = gateway_calls w
  /\ SmsHistory.external_id <$> sms_history (database w')
     = SmsHistory.external_id <$> sms_history (database w)
  /\ SmsHistory.recipient <$> sms_history (database w')
     = SmsHistory.recipient <$> sms_history (database w)
  /\ SmsHistory.cost <$> sms_history (database w')
     = SmsHistory.cost <$> sms_history (database w).
Proof.
  intros w'. subst w'.
  unfold endpoint. rewrite delivery_report_webhook_run. cbn [session set_session].
  cbv zeta.
  destruct (first_by_external_id (first_match env) (Report.id report)
              (sms_history (database w)))
    as [[i history]|] eqn:Hfind; [|done].
  destruct (Report.status report) as [s|]; [|done].
  cbn. apply first_by_external_id_Some in Hfind as [Hi _].
  repeat split; try done.
  all: rewrite list_fmap_insert; apply list_insert_id.
  all: by rewrite list_lookup_fmap, Hi.
Qed.

(** ** From a send to its delivery report *)

Section RoundTrip.
Context {rt : PyRuntime}.

Lemma send_sms_rows env w payload current_user response :
  fst (endpoint (send_sms payload current_user) env w) = Return response ->
  exists rows,
    sms_history (database (snd (endpoint (send_sms payload current_user) env w)))
    = (sms_history (database w) ++ rows)%list
    /\ Forall2
         (fun r row =>
            SmsHistory.external_id row = Recipient.messageId r
            /\ SmsHistory.recipient row = Recipient.number r
            /\ SmsHistory.user_id row = User.id current_user
            /\ SmsHistory.status row = Str.lower (Recipient.status r)
            /\ SmsHistory.delivered_at row = None)
         (recipients response) rows.
Proof.
  unfold endpoint. rewrite send_sms_run. cbn [session set_session].
  destruct (template_text payload current_user (database w)) as [final_message|];
    [|done].
  cbv zeta.
  destruct (wallet_Decimal current_user) as [balance|]; [|done].
  destruct (Decimal_.ltb balance _); [done|].
  destruct (sms_send env _) as [data_message recipients_data|what]; [|done].
  destruct (history_rows _ _ _ _ _ _) as [rows|] eqn:Hrows; [|done].
  destruct (enforces_max_length env && _); [done|].
  cbn. intros [= <-]. exists rows. split; [done|]. cbn.
  unfold history_rows in Hrows. apply mapM_Some in Hrows.
  eapply Forall2_impl; [exact Hrows|].
  intros r row Hrow. cbn in Hrow.
  destruct (recipient_cost r) as [c|]; [|done].
  cbn in Hrow. injection Hrow as <-. done.
Qed.

(** X18: a delivery report finds the row its send wrote. When [send_sms]
    returned and the gateway gave recipient number [k] a message id that no
    row of the history before and no other recipient of the answer carries,
    a report with that id and a status rewrites the row at position (rows
    before the send) + [k], which is the row of that recipient and of the
    sender, in whatever order the database returns its rows. *)
Theorem report_finds_the_row_its_send_wrote env env' w payload current_user
    response k r m report s :
  fst (endpoint (send_sms payload current_user) env w) = Return response ->
  recipients response !! k = Some r ->
  Recipient.messageId r = Some m ->
  (forall row, row ∈ sms_history (database w) -> SmsHistory.external_id row <> Some m) ->
  (forall j r', j <> k -> recipients response !! j = Some r' ->
                Recipient.messageId r' <> Some m) ->
  Report.id report = Some m ->
  Report.status report = Some s ->
  let w1 := snd (endpoint (send_sms payload current_user) env w) in
  let w2 := snd (endpoint (delivery_report_webhook report) env' w1) in
  let i := (List.length (sms_history (database w)) + k)%nat in
  exists row,
    sms_history (database w1) !! i = Some row
    /\ SmsHistory.recipient row = Recipient.number r
    /\ SmsHistory.user_id row = User.id current_user
    /\ SmsHistory.status row = Str.lower (Recipient.status r)
    /\ SmsHistory.delivered_at row = None
    /\ sms_history (database w2)
       = <[i := reconciled row (Str.lower s) (Report.failureReason report)
                  (if Str.contains "Delivered" s then Some (utcnow env') else None)]>
           (sms_history (database w1)).
Proof.
  intros Hrun Hk Hm Hold Hothers Hid Hstatus w1 w2 i. subst w1 w2 i.
  destruct (send_sms_rows _ _ _ _ _ Hrun) as (rows & Hhistory & Hrows).
  destruct (Forall2_lookup_l _ _ _ _ _ Hrows Hk) as (row & Hrow & Hext & Hrec & Huser & Hst & Hdel).
  exists row. rewrite Hhistory.
  split; [rewrite lookup_app_r by lia; rewrite <- Hrow; f_equal; lia|].
  do 4 (split; [done|]).
  assert (Hfind : first_by_external_id (first_match env') (Report.id report)
                    (sms_history (database
                       (snd (endpoint (send_sms payload current_user) env w))))
                  = Some ((List.length (sms_history (database w)) + k)%nat, row)).
  { rewrite Hhistory, Hid. apply first_by_external_id_unique.
    - rewrite lookup_app_r by lia. rewrite <- Hrow. f_equal. lia.
    - by rewrite Hext.
    - intros j other Hother Hmatch.
      destruct (decide (j < List.length (sms_history (database w)))%nat) as [Hold'|Hnew].
      + rewrite lookup_app_l in Hother by done.
        exfalso. apply (Hold other); [|done]. by eapply list_elem_of_lookup_2.
      + rewrite lookup_app_r in Hother by lia.
        destruct (Forall2_lookup_r _ _ _ _ _ Hrows Hother) as (r' & Hr' & Hext' & _).
        destruct (decide ((j - List.length (sms_history (database w)))%nat = k))
          as [Hk'|Hk']; [lia|].
        exfalso. apply (Hothers _ r' Hk' Hr'). by rewrite <- Hext'. }
  rewrite (found_report_run _ _ _ _ _ _ Hfind Hstatus). cbn.
  by rewrite Hhistory.
Qed.

End RoundTrip.

(** ** The admin credit and the ledger *)

Section MoreCredit.
Context {rt : PyRuntime}.

(** X19: the admin credit. For an unknown user it answers 404 and writes
    nothing. For a known user it appends one entry to the ledger and stores
    the new wallet, for any amount: nothing checks the amount before the
    commit. It returns the entry when the amount is at least zero;
    otherwise it fails after the commit, where the response model checks
    [amount >= 0]: the request ends in a [ValidationError] (status 500) with
    the entry and the lowered wallet kept. The entry's [balance_before] is
    the wallet read as a double and its [balance_after] is the stored wallet
    read as a double; the price of the account, the other accounts, the
    history and the templates are untouched. It never calls the gateway or
    the observers. *)
Theorem credit_touches_one_account env w user_id request :
  let run := endpoint (add_balance_to_user user_id request) env w in
  match users (database w) !! user_id with
  | None =>
      fst run = Raise (HTTPException 404 "User not found")
      /\ database (snd run) = database w
  | Some user =>
      exists entry user',
        transactions (database (snd run)) = (transactions (database w) ++ [entry])%list
        /\ (PrimFloat.leb PrimFloat.zero (amount request) = true ->
            fst run = Return entry)
        /\ (PrimFloat.leb PrimFloat.zero (amount request) = false ->
            fst run = Raise (PyException "ValidationError")
            /\ http_status (fst run) = 500)
        /\ Transaction.user_id entry = user_id
        /\ Transaction.amount entry = amount request
        /\ Transaction.balance_before entry = Some (wallet_float user)
        /\ Transaction.balance_after entry = Some (wallet_float user')
        /\ users (database (snd run)) !! User.id user = Some user'
        /\ User.wallet user'
           = Some (str_float (PrimFloat.add (wallet_float user) (amount request)))
        /\ User.sms_cost user' = User.sms_cost user
        /\ (forall other, other <> User.id user ->
              users (database (snd run)) !! other = users (database w) !! other)
        /\ sms_history (database (snd run)) = sms_history (database w)
        /\ templates (database (snd run)) = templates (database w)
  end
  /\ gateway_calls (snd run) = gateway_calls w
  /\ send_text_calls (snd run) = send_text_calls w
  /\ active_connections (snd run) = active_connections w.
Proof.
  intros run. subst run. unfold endpoint. rewrite add_balance_to_user_run.
  cbn [session set_session].
  destruct (users (database w) !! user_id) as [user|]; [|done].
  cbn. split; [|done].
  eexists _, _. split; [reflexivity|].
  split; [by intros ->|]. split; [by intros ->|].
  split; [done|]. split; [done|]. split; [done|].
  split; [|split; [apply lookup_insert_eq|]].
  - done.
  - split; [done|]. split; [done|]. split; [|done].
    intros other Hother. by apply lookup_insert_ne.
Qed.

Lemma quiet_request uid (kind : string) w w' :
  keyed_by_id (database w) ->
  database w' = database w ->
  gateway_calls w' = gateway_calls w ->
  send_text_calls w' = send_text_calls w ->
  keyed_by_id (database w')
  /\ (forall other, other <> uid -> users (database w') !! other = users (database w) !! other)
  /\ (is_Some (users (database w') !! uid) <-> is_Some (users (database w) !! uid))
  /\ sms_history (database w') = sms_history (database w)
  /\ templates (database w') = templates (database w)
  /\ gateway_calls w' = gateway_calls w
  /\ send_text_calls w' = send_text_calls w
  /\ exists entries,
       transactions (database w') = (transactions (database w) ++ entries)%list
       /\ (List.length entries <= 1)%nat
       /\ Forall (fun x => Transaction.user_id x = uid
                           /\ Transaction.status x = "completed"
                           /\ Transaction.transaction_type x = kind)
            entries.
Proof.
  intros Hkeyed -> -> ->. repeat split; try done.
  exists []. split; [by rewrite app_nil_r|]. split; [cbn; lia|constructor].
Qed.

Lemma keyed_by_id_request uid op env w :
  keyed_by_id (database w) ->
  let w' := snd (ledger_request uid op env w) in
  keyed_by_id (database w')
  /\ (forall other, other <> uid -> users (database w') !! other = users (database w) !! other)
  /\ (is_Some (users (database w') !! uid) <-> is_Some (users (database w) !! uid))
  /\ sms_history (database w') = sms_history (database w)
  /\ templates (database w') = templates (database w)
  /\ gateway_calls w' = gateway_calls w
  /\ send_text_calls w' = send_text_calls w
  /\ exists entries,
       transactions (database w') = (transactions (database w) ++ entries)%list
       /\ (List.length entries <= 1)%nat
       /\ Forall (fun x => Transaction.user_id x = uid
                           /\ Transaction.status x = "completed"
                           /\ Transaction.transaction_type x
                              = match op with debit _ _ => "debit" | credit _ => "credit" end)
            entries.
Proof.
  intros Hkeyed w'. subst w'.
  assert (Hwritten : forall user entry (w1 : World),
    users (database w) !! uid = Some user ->
    Transaction.user_id entry = uid ->
    Transaction.status entry = "completed" ->
    Transaction.transaction_type entry
    = match op with debit _ _ => "debit" | credit _ => "credit" end ->
    forall user',
    database w1 = add_user (User.set_wallet user user') (add_transaction entry (database w)) ->
    gateway_calls w1 = gateway_calls w ->
    send_text_calls w1 = send_text_calls w ->
    keyed_by_id (database w1)
    /\ (forall other, other <> uid -> users (database w1) !! other = users (database w) !! other)
    /\ (is_Some (users (database w1) !! uid) <-> is_Some (users (database w) !! uid))
    /\ sms_history (database w1) = sms_history (database w)
    /\ templates (database w1) = templates (database w)
    /\ gateway_calls w1 = gateway_calls w
    /\ send_text_calls w1 = send_text_calls w
    /\ exists entries,
         transactions (database w1) = (transactions (database w) ++ entries)%list
         /\ (List.length entries <= 1)%nat
         /\ Forall (fun x => Transaction.user_id x = uid
                             /\ Transaction.status x = "completed"
                             /\ Transaction.transaction_type x
                                = match op with debit _ _ => "debit" | credit _ => "credit" end)
              entries).
  { intros user entry w1 Huser Hentry Hdone Hkind user' -> -> ->.
    pose proof (Hkeyed _ _ Huser) as Hid.
    unfold keyed_by_id. cbn. rewrite Hid.
    split.
    { intros k u. destruct (decide (k = uid)) as [->|Hne].
      - rewrite lookup_insert_eq. by intros [= <-].
      - rewrite lookup_insert_ne by done. apply Hkeyed. }
    split; [intros other Hother; by apply lookup_insert_ne|].
    split; [rewrite lookup_insert_eq, Huser; split; intros _; by eexists|].
    do 4 (split; [done|]).
    exists [entry]. split; [done|]. split; [done|].
    by constructor. }
  assert (Hcase : (exists user, users (database w) !! uid = Some user)
                  \/ users (database w) !! uid = None).
  { destruct (users (database w) !! uid); eauto. }
  destruct Hcase as [[user Huser]|Huser].
  - destruct op as [c desc|request].
    + destruct (wallet_Decimal user) as [balance|] eqn:Hwallet.
      * rewrite (ledger_request_debit _ _ _ _ _ _ _ Huser Hwallet).
        destruct (Decimal_.ltb balance c); [by apply quiet_request|].
        eapply (Hwritten user);
          [exact Huser| | | |reflexivity|reflexivity|reflexivity];
          [exact (Hkeyed _ _ Huser)|done|done].
      * assert (Hquiet : snd (ledger_request uid (debit c desc) env w)
                         = set_session (database w) w).
        { unfold ledger_request, endpoint, bind at 1, session_get_user, gets.
          cbn [session set_session]. rewrite Huser.
          by rewrite deduct_and_log_wallet_run, Hwallet. }
        rewrite Hquiet. by apply quiet_request.
    + rewrite (ledger_request_credit _ _ _ _ _ Huser).
      eapply (Hwritten user);
        [exact Huser| | | |reflexivity|reflexivity|reflexivity]; done.
  - assert (Hquiet : snd (ledger_request uid op env w) = set_session (database w) w).
    { destruct op as [c desc|request].
      - unfold ledger_request, endpoint, bind at 1, session_get_user, gets.
        cbn [session set_session]. by rewrite Huser.
      - unfold ledger_request, endpoint, bind at 1.
        rewrite add_balance_to_user_run. cbn [session set_session].
        by rewrite Huser. }
    rewrite Hquiet. by apply quiet_request.
Qed.

(** X20: on a users table keyed by id, no sequence of debit and credit
    requests against one account changes another account's row, creates or
    deletes an account, or touches the history, the templates, the gateway
    or the observers. The ledger only grows, by at most one entry per
    request, each a completed debit or credit of that account. *)
Theorem requests_on_one_account_stay_there uid steps w :
  keyed_by_id (database w) ->
  let w' := ledger_run uid steps w in
  keyed_by_id (database w')
  /\ (forall other, other <> uid -> users (database w') !! other = users (database w) !! other)
  /\ (is_Some (users (database w') !! uid) <-> is_Some (users (database w) !! uid))
  /\ sms_history (database w') = sms_history (database w)
  /\ templates (database w') = templates (database w)
  /\ gateway_calls w' = gateway_calls w
  /\ send_text_calls w' = send_text_calls w
  /\ exists entries,
       transactions (database w') = (transactions (database w) ++ entries)%list
       /\ (List.length entries <= List.length steps)%nat
       /\ Forall (fun x => Transaction.user_id x = uid
                           /\ Transaction.status x = "completed"
                           /\ (Transaction.transaction_type x = "debit"
                               \/ Transaction.transaction_type x = "credit"))
            entries.
Proof.
  intros Hkeyed w'. subst w'. revert w Hkeyed.
  induction steps as [|[env op] steps IH]; intros w Hkeyed.
  - cbn. repeat split; try done. exists []. split; [by rewrite app_nil_r|]. split; [cbn; lia|constructor].
  - cbn [ledger_run].
    destruct (keyed_by_id_request uid op env w Hkeyed)
      as (Hkeyed1 & Hothers1 & Hsome1 & Hhist1 & Htpl1 & Hgw1 & Hst1
          & entries1 & Hledger1 & Hlen1 & Hentries1).
    destruct (IH _ Hkeyed1)
      as (Hkeyed2 & Hothers2 & Hsome2 & Hhist2 & Htpl2 & Hgw2 & Hst2
          & entries2 & Hledger2 & Hlen2 & Hentries2).
    split; [done|].
    split; [intros other Hother; by rewrite Hothers2, Hothers1|].
    split; [by rewrite Hsome2, Hsome1|].
    split; [by rewrite Hhist2|]. split; [by rewrite Htpl2|].
    split; [by rewrite Hgw2|]. split; [by rewrite Hst2|].
    exists (entries1 ++ entries2)%list.
    split; [by rewrite Hledger2, Hledger1, <- app_assoc|].
    split; [rewrite length_app; cbn [List.length]; lia|].
    apply Forall_app. split; [|done].
    eapply Forall_impl; [exact Hentries1|].
    intros x (? & ? & Htype). split; [done|]. split; [done|].
    destruct op; [by left|by right].
Qed.

End MoreCredit.

(** ** Units and amounts *)

Lemma sms_units_long (msg_len : Z) :
  160 < msg_len ->
  153 * (sms_units msg_len - 1) < msg_len <= 153 * sms_units msg_len.
Proof.
  intros Hlong. unfold sms_units. rewrite (proj2 (Z.ltb_lt _ _) Hlong).
  pose proof (Z.div_mod msg_len 153 ltac:(lia)).
  pose proof (Z.mod_pos_bound msg_len 153 ltac:(lia)).
  destruct (msg_len mod 153 =? 0) eqn:Hz;
    [apply Z.eqb_eq in Hz | apply Z.eqb_neq in Hz]; lia.
Qed.

Lemma sms_units_validated (msg_len : Z) :
  0 <= msg_len <= 1600 -> 1 <= sms_units msg_len <= 11.
Proof.
  intros [Hlo Hhi]. split; [by apply sms_units_pos|].
  destruct (Z_lt_le_dec 160 msg_len) as [Hlong|Hshort].
  - pose proof (sms_units_long msg_len Hlong). lia.
  - unfold sms_units. rewrite (proj2 (Z.ltb_ge _ _) Hshort). lia.
Qed.

(** X21: the unit count never decreases when the text grows and is at least
    1; the units of a text always cover it at 160 characters each, and
    beyond 160 characters they are the least number of 153-character parts
    that cover it. A text within the 1600 characters that the request body
    admits has at most 11 units. *)
Theorem units_grow_with_the_text (a b : Z) :
  0 <= a <= b ->
  1 <= sms_units a <= sms_units b
  /\ a <= 160 * sms_units a
  /\ (160 < a -> 153 * (sms_units a - 1) < a <= 153 * sms_units a)
  /\ (b <= 1600 -> sms_units b <= 11).
Proof.
  intros [Ha Hab].
  pose proof (sms_units_pos a Ha) as Hpa.
  pose proof (sms_units_pos b ltac:(lia)) as Hpb.
  split; [split; [done|]|split; [|split]].
  - destruct (Z_lt_le_dec 160 a) as [Hlong|Hshort].
    + pose proof (sms_units_long a Hlong). pose proof (sms_units_long b ltac:(lia)). lia.
    + unfold sms_units at 1. rewrite (proj2 (Z.ltb_ge _ _) Hshort). done.
  - destruct (Z_lt_le_dec 160 a) as [Hlong|Hshort].
    + pose proof (sms_units_long a Hlong). lia.
    + lia.
  - apply sms_units_long.
  - intros Hb. apply sms_units_validated. lia.
Qed.

Section MoreRate.
Context {rt : PyRuntime}.

(** X22: a request without template, whose text the request body bounds to
    1600 characters, sends the payload's message and costs between one and
    eleven times price x recipients. *)
Theorem validated_text_costs_at_most_eleven_units payload current_user t :
  template_id payload = None ->
  len_str (message payload) <= 1600 ->
  0 <= coef (cost_per_sms current_user) ->
  template_text payload current_user t = Some (message payload)
  /\ (Decimal_.value (cost_per_sms current_user) * inject_Z (len_list (to payload))
      <= Decimal_.value (request_cost (message payload) payload current_user))%Q
  /\ (Decimal_.value (request_cost (message payload) payload current_user)
      <= 11 * Decimal_.value (cost_per_sms current_user)
         * inject_Z (len_list (to payload)))%Q.
Proof.
  intros Htid Hlen Hprice.
  split; [unfold template_text; by rewrite Htid|].
  unfold request_cost, total_cost. rewrite !mul_int_value.
  pose proof (value_nonneg _ Hprice) as Hv.
  assert (Hn : (0 <= inject_Z (len_list (to payload)))%Q).
  { change 0%Q with (inject_Z 0). rewrite <- Zle_Qle. unfold len_list. lia. }
  destruct (sms_units_validated (len_str (message payload))) as [Hlo Hhi];
    [unfold len_str in *; lia|].
  set (units := sms_units (len_str (message payload))) in *.
  set (price := Decimal_.value (cost_per_sms current_user)) in *.
  set (n := inject_Z (len_list (to payload))) in *.
  assert (Hu1 : (1 <= inject_Z units)%Q) by (change 1%Q with (inject_Z 1); by rewrite <- Zle_Qle).
  assert (Hu11 : (inject_Z units <= 11)%Q) by (change 11%Q with (inject_Z 11); by rewrite <- Zle_Qle).
  split.
  - setoid_replace (price * n)%Q with (price * 1 * n)%Q using relation Qeq by ring.
    apply Qmult_le_compat_r; [|done].
    rewrite !(Qmult_comm price). by apply Qmult_le_compat_r.
  - apply Qmult_le_compat_r; [|done].
    rewrite (Qmult_comm price). by apply Qmult_le_compat_r.
Qed.

Lemma remove_plain (text : string) :
  plain_amount text -> Str.remove "UGX " text = text.
Proof.
  unfold Str.remove. induction text as [|c rest IH]; [done|].
  intros (_ & HU & Hrest). cbn [Str.remove_from Str.startswith].
  destruct (Ascii.eqb_spec "U" c) as [<-|_]; [done|].
  by rewrite IH.
Qed.

Lemma rstrip_plain (text : string) : plain_amount text -> Str.rstrip text = text.
Proof.
  induction text as [|c rest IH]; [done|].
  intros (Hc & _ & Hrest). cbn [Str.rstrip]. rewrite (IH Hrest), Hc.
  by destruct rest.
Qed.

Lemma strip_plain (text : string) : plain_amount text -> Str.strip text = text.
Proof.
  intros Hplain. unfold Str.strip.
  destruct text as [|c rest]; [done|].
  cbn [Str.lstrip]. destruct Hplain as (Hc & HU & Hrest). rewrite Hc.
  by apply rstrip_plain.
Qed.

(** X23: the cost text of the gateway is read behind its currency: for an
    amount without white space and without a capital U, the texts "amount",
    "UGX amount" and " UGX amount" are all read as [Decimal("amount")]. *)
Theorem cost_is_read_behind_the_currency (r : Recipient.t) (text : string) :
  plain_amount text ->
  Recipient.cost r = text
  \/ Recipient.cost r = ("UGX " ++ text)%string
  \/ Recipient.cost r = (" UGX " ++ text)%string ->
  recipient_cost r = Decimal_of_str text.
Proof.
  intros Hplain Hcost. unfold recipient_cost. f_equal.
  destruct Hcost as [-> | [-> | ->]].
  - by rewrite remove_plain, strip_plain.
  - change (Str.remove "UGX " ("UGX " ++ text))
      with (Str.remove "UGX " text).
    by rewrite remove_plain, strip_plain.
  - change (Str.remove "UGX " (" UGX " ++ text))
      with (String " " (Str.remove "UGX " text)).
    rewrite remove_plain by done. unfold Str.strip.
    change (Str.lstrip (String " " text)) with (Str.lstrip text).
    by apply strip_plain.
Qed.

End MoreRate.

(** ** Admin: prebuilt templates and plans *)

Lemma create_prebuilt_template_run template_data current_user new_id env w :
  create_prebuilt_template template_data current_user new_id env w
  = let template :=
      {| Template.id := new_id;
         Template.owner_id := User.id current_user;
         Template.content := tpl_content template_data |} in
    match templates (session w) !! new_id with
    | Some _ => (Raise (PyException "IntegrityError"), w)
    | None =>
        let t := add_template template (session w) in
        (Return template, set_database t (set_session t w))
    end.
Proof.
  unfold create_prebuilt_template, session_insert_template, bind at 1, bind at 1,
    session_get_template, gets.
  cbn [Template.id]. by destruct (templates (session w) !! new_id).
Qed.

Section Prebuilt.
Context {rt : PyRuntime}.

(** X24: a prebuilt template belongs to the admin who created it. Creating
    it adds one template row owned by the admin, with the content given, and
    touches no account, ledger or history; the admin can send it, and
    [send_sms] of any other account that names it answers 404 "Template not
    found", writes nothing and reaches neither gateway nor observers. *)
Theorem prebuilt_template_is_private_to_its_admin env env' w template_data admin
    new_id payload user :
  templates (database w) !! new_id = None ->
  template_id payload = Some new_id ->
  let created := endpoint (create_prebuilt_template template_data admin new_id) env w in
  let sent := endpoint (send_sms payload user) env' (snd created) in
  (exists template,
     fst created = Return template
     /\ templates (database (snd created)) = <[new_id := template]> (templates (database w))
     /\ Template.owner_id template = User.id admin
     /\ Template.content template = tpl_content template_data)
  /\ users (database (snd created)) = users (database w)
  /\ transactions (database (snd created)) = transactions (database w)
  /\ sms_history (database (snd created)) = sms_history (database w)
  /\ template_text payload admin (database (snd created)) = Some (tpl_content template_data)
  /\ (User.id user <> User.id admin ->
      fst sent = Raise (HTTPException 404 "Template not found")
      /\ database (snd sent) = database (snd created)
      /\ gateway_calls (snd sent) = gateway_calls w
      /\ send_text_calls (snd sent) = send_text_calls w).
Proof.
  intros Hfresh Htid created sent. subst created sent.
  assert (Hcreated :
    endpoint (create_prebuilt_template template_data admin new_id) env w
    = let template :=
        {| Template.id := new_id; Template.owner_id := User.id admin;
           Template.content := tpl_content template_data |} in
      let t := add_template template (database w) in
      (Return template, set_database t (set_session t w))).
  { unfold endpoint. rewrite create_prebuilt_template_run.
    cbn [session set_session]. by rewrite Hfresh. }
  rewrite Hcreated. cbv zeta. cbn [fst snd].
  split; [by eexists|].
  do 3 (split; [done|]).
  split.
  { unfold template_text. rewrite Htid. cbn.
    rewrite lookup_insert_eq. cbn. by rewrite decide_True. }
  intros Hother. unfold endpoint. rewrite send_sms_run.
  cbn [session set_session database set_database].
  unfold template_text. rewrite Htid. cbn.
  rewrite lookup_insert_eq. cbn. rewrite decide_False by done. done.
Qed.

End Prebuilt.

(** ** Plans *)

Lemma bulk_update_loop c rows count env w :
  for_each rows count
    (fun updated_count user =>
       session_add (add_user (set_sms_cost user (Some c))) ;;
       ret (updated_count + 1))%py env w
  = (Return (count + len_list rows),
     set_session (with_sms_cost c rows (session w)) w).
Proof.
  revert count w. induction rows as [|u rows IH]; intros count w.
  - cbn. unfold ret, len_list. cbn. by rewrite Z.add_0_r.
  - cbn [for_each]. unfold bind at 1, bind at 1, session_add, modify, ret.
    rewrite IH. cbn. f_equal. unfold len_list. cbn [List.length]. f_equal. lia.
Qed.

Lemma bulk_update_user_plan_run user_ids new_plan env w :
  bulk_update_user_plan user_ids new_plan env w
  = if 1000 <? len_list user_ids
    then (Raise (HTTPException 400 "Cannot update more than 1000 users at once"), w)
    else
      match PLANS_sms_cost new_plan with
      | None =>
          (Raise (HTTPException 400
                    "Invalid plan. Available plans: Basic, Standard, Premium, Enterprise"), w)
      | Some c =>
          let rows := select_users_in user_ids (session w) in
          let t := with_sms_cost c rows (session w) in
          (Return (len_list rows, new_plan, c), set_database t (set_session t w))
      end.
Proof.
  unfold bulk_update_user_plan.
  destruct (1000 <? len_list user_ids); [done|].
  destruct (PLANS_sms_cost new_plan) as [c|]; [|done].
  unfold bind at 1, gets, bind at 1. rewrite bulk_update_loop.
  reflexivity.
Qed.

Lemma with_sms_cost_frame c rows t :
  templates (with_sms_cost c rows t) = templates t
  /\ transactions (with_sms_cost c rows t) = transactions t
  /\ sms_history (with_sms_cost c rows t) = sms_history t.
Proof.
  revert t. induction rows as [|u rows IH]; intros t; [done|].
  change (with_sms_cost c (u :: rows) t)
    with (with_sms_cost c rows (add_user (set_sms_cost u (Some c)) t)).
  destruct (IH (add_user (set_sms_cost u (Some c)) t)) as (-> & -> & ->). done.
Qed.

Lemma with_sms_cost_lookup c rows t0 t k :
  (forall u, u ∈ rows -> users t0 !! User.id u = Some u) ->
  users (with_sms_cost c rows t) !! k
  = if decide (k ∈ User.id <$> rows)
    then (fun u => set_sms_cost u (Some c)) <$> users t0 !! k
    else users t !! k.
Proof.
  revert t. induction rows as [|u rows IH]; intros t Hrows.
  - cbn. by rewrite decide_False by apply not_elem_of_nil.
  - change (with_sms_cost c (u :: rows) t)
      with (with_sms_cost c rows (add_user (set_sms_cost u (Some c)) t)).
    rewrite IH by (intros u' Hu'; apply Hrows; by right).
    cbn [fmap list_fmap].
    destruct (decide (k ∈ User.id <$> rows)) as [Hin|Hout].
    + rewrite decide_True by (by right). done.
    + destruct (decide (k = User.id u)) as [->|Hne].
      * rewrite decide_True by left. cbn.
        rewrite lookup_insert_eq, (Hrows u) by left. done.
      * rewrite decide_False by (rewrite elem_of_cons; tauto).
        cbn. by rewrite lookup_insert_ne.
Qed.

Lemma select_users_in_spec user_ids t u :
  keyed_by_id t ->
  u ∈ select_users_in user_ids t
  <-> users t !! User.id u = Some u /\ User.id u ∈ user_ids.
Proof.
  intros Hkeyed. unfold select_users_in.
  rewrite list_elem_of_filter, list_elem_of_fmap. split.
  - intros [Hin ([k u'] & -> & Hrow%elem_of_map_to_list)]. cbn in *.
    split; [|done]. by rewrite (Hkeyed _ _ Hrow).
  - intros [Hrow Hin]. split; [done|].
    exists (User.id u, u). split; [done|]. by apply elem_of_map_to_list.
Qed.

(** X25: a plan change for at most 1000 ids and a plan of [PLANS] sets the
    price of every listed account that exists to the plan's price and of no
    other; no wallet changes, no ledger entry is written, and the history
    and templates are untouched. The count it reports lies between 0 and
    the number of accounts. From then on [send_sms] prices a listed account
    at the plan's price. *)
Theorem plan_change_sets_the_price_of_the_listed_users env w user_ids new_plan c :
  keyed_by_id (database w) ->
  len_list user_ids <= 1000 ->
  PLANS_sms_cost new_plan = Some c ->
  let run := endpoint (bulk_update_user_plan user_ids new_plan) env w in
  (exists updated_count,
     fst run = Return (updated_count, new_plan, c)
     /\ 0 <= updated_count <= Z.of_nat (size (users (database w))))
  /\ (forall k,
        users (database (snd run)) !! k
        = if decide (k ∈ user_ids)
          then (fun u => set_sms_cost u (Some c)) <$> users (database w) !! k
          else users (database w) !! k)
  /\ (forall k u', users (database (snd run)) !! k = Some u' ->
        User.wallet <$> users (database w) !! k = Some (User.wallet u')
        /\ (k ∈ user_ids -> cost_per_sms u' = c))
  /\ transactions (database (snd run)) = transactions (database w)
  /\ sms_history (database (snd run)) = sms_history (database w)
  /\ templates (database (snd run)) = templates (database w).
Proof.
  intros Hkeyed Hsize Hplan run. subst run.
  unfold endpoint. rewrite bulk_update_user_plan_run. cbn [session set_session].
  rewrite (proj2 (Z.ltb_ge _ _) Hsize), Hplan. cbv zeta. cbn [fst snd database set_database set_session].
  set (rows := select_users_in user_ids (database w)).
  destruct (with_sms_cost_frame c rows (database w)) as (Htpl & Htx & Hhist).
  assert (Hlookup : forall k,
    users (with_sms_cost c rows (database w)) !! k
    = if decide (k ∈ user_ids)
      then (fun u => set_sms_cost u (Some c)) <$> users (database w) !! k
      else users (database w) !! k).
  { intros k.
    rewrite (with_sms_cost_lookup c rows (database w))
      by (intros u Hu; by apply (select_users_in_spec user_ids) in Hu as [? ?]).
    destruct (decide (k ∈ User.id <$> rows)) as [Hin|Hout].
    - apply list_elem_of_fmap in Hin as (u & -> & Hu).
      apply select_users_in_spec in Hu as [Hrow Hin]; [|done].
      by rewrite decide_True.
    - destruct (decide (k ∈ user_ids)) as [Hin|]; [|done].
      destruct (users (database w) !! k) as [u|] eqn:Hrow; [|done].
      exfalso. apply Hout. apply list_elem_of_fmap. exists u.
      pose proof (Hkeyed _ _ Hrow) as Hid. split; [done|].
      apply select_users_in_spec; [done|]. by rewrite Hid. }
  split.
  { eexists. split; [reflexivity|]. unfold len_list. split; [lia|].
    apply inj_le. unfold rows, select_users_in.
    etrans; [apply length_filter|].
    by rewrite length_fmap, length_map_to_list. }
  split; [exact Hlookup|].
  split; [|done].
  intros k u'. rewrite Hlookup.
  destruct (decide (k ∈ user_ids)) as [Hin|Hout].
  - destruct (users (database w) !! k) as [u|]; [|done].
    cbn. intros [= <-]. done.
  - intros ->. done.
Qed.

(** X26: a plan change with more than 1000 ids or with a plan that is not in
    [PLANS] is refused with 400 and writes nothing; the size of the list is
    checked first. *)
Theorem plan_change_is_refused_whole env w user_ids new_plan :
  1000 < len_list user_ids \/ (forall plan, plan ∈ PLANS -> plan.1 <> new_plan) ->
  let run := endpoint (bulk_update_user_plan user_ids new_plan) env w in
  http_status (fst run) = 400
  /\ database (snd run) = database w
  /\ (1000 < len_list user_ids ->
      fst run = Raise (HTTPException 400 "Cannot update more than 1000 users at once")).
Proof.
  intros Hbad run. subst run.
  unfold endpoint. rewrite bulk_update_user_plan_run. cbn [session set_session].
  destruct (1000 <? len_list user_ids) eqn:Hmany.
  - done.
  - apply Z.ltb_ge in Hmany. destruct Hbad as [Hmany'|Hplan]; [lia|].
    assert (PLANS_sms_cost new_plan = None) as ->.
    { unfold PLANS_sms_cost.
      destruct (List.find _ PLANS) as [plan|] eqn:Hfind; [|done].
      apply List.find_some in Hfind as [Hin Heq]. apply String.eqb_eq in Heq.
      exfalso. apply (Hplan plan); [|done]. by apply list_elem_of_In. }
    split; [done|]. split; [done|]. lia.
Qed.

(** * Closed instances of the further properties *)

(** X3 on socket 9: one text, then the client leaves. *)
Lemma websocket_session_ends_on_disconnect_witness :
  let w := Example.world (Example.tables Example.alice []) in
  let closed :=
    sms_websocket 9%N [text_frame "ping"; close_frame] (Example.env_up 1000) w in
  Forall is_text [text_frame "ping"]
  /\ fst closed = Return true
  /\ active_connections (snd closed) = active_connections w ∖ {[9%N]}.
Proof.
  intros w closed.
  assert (Htexts : Forall is_text [text_frame "ping"]) by (repeat constructor).
  destruct (websocket_session_ends_on_disconnect (Example.env_up 1000) w 9%N
              [text_frame "ping"] [] Htexts)
    as (_ & _ & Hreturn & Hset & _).
  split; [exact Htexts|]. split; [exact Hreturn | exact Hset].
Defined.

(** X4 on socket 9, which fails with a [RuntimeError] and does not answer
    the next broadcast. *)
Lemma websocket_crash_leaves_socket_registered_witness :
  let w := Example.world (Example.tables Example.alice []) in
  let crashed :=
    sms_websocket 9%N [text_frame "ping"; bad_frame "RuntimeError"]
      (Example.env_up 1000) w in
  let message := delivery_update None None None None in
  fst crashed = Raise (PyException "RuntimeError")
  /\ 9%N ∈ active_connections (snd crashed)
  /\ 9%N ∉ active_connections (snd (broadcast message (Example.env_up 1001) (snd crashed))).
Proof.
  intros w crashed message.
  assert (Htexts : Forall is_text [text_frame "ping"]) by (repeat constructor).
  assert (Hwhat : "RuntimeError" <> "WebSocketDisconnect") by discriminate.
  destruct (websocket_crash_leaves_socket_registered (Example.env_up 1000)
              (Example.env_up 1001) w 9%N [text_frame "ping"] "RuntimeError" []
              message Htexts Hwhat)
    as (Hraise & Hin & Hnext).
  split; [exact Hraise|]. split; [exact Hin|].
  destruct (Hnext eq_refl) as (_ & Hout & _). exact Hout.
Defined.

(** X5: account 2 names the template of account 1. *)
Lemma template_decides_the_text_witness :
  let w := Example.world (Sample.tables_with_template Sample.carol) in
  let run :=
    endpoint (send_sms (rt := short_runtime) Sample.templated_sms Sample.carol)
      (Example.env_up 1000) w in
  template_id Sample.templated_sms = Some 5%N
  /\ fst run = Raise (HTTPException 404 "Template not found")
  /\ database (snd run) = database w.
Proof.
  intros w run.
  destruct (template_decides_the_text (rt := short_runtime) (Example.env_up 1000) w
              Sample.templated_sms Sample.carol 5%N eq_refl)
    as [Hforeign _].
  assert (Howner : match templates (database w) !! 5%N with
                   | Some tpl => Template.owner_id tpl <> User.id Sample.carol
                   | None => True
                   end) by (vm_compute; discriminate).
  destruct (Hforeign Howner) as (Hraise & Hdb & _).
  split; [reflexivity|]. split; [exact Hraise | exact Hdb].
Defined.

(** X7: the gateway prices the message in "KES"; account 1 pays 1 and has
    no history row. *)
Lemma unreadable_cost_loses_the_history_witness :
  let w := Example.world (Example.tables Example.bob []) in
  let env := Sample.env_other_currency 1000 in
  let run := endpoint (send_sms (rt := short_runtime) Example.one_sms Example.bob) env w in
  Exists (fun r => recipient_cost (rt := short_runtime) r = None)
    (match sms_send env (send_args Example.one_sms "hi" env) with
     | SMSMessageData _ recipients_data => recipients_data
     | gateway_raises _ => []
     end)
  /\ fst run = Raise (HTTPException 502 "SMS gateway failed")
  /\ sms_history (database (snd run)) = []
  /\ User.wallet <$> users (database (snd run)) !! 1%N
     = Some (Some (str_Decimal (Dec 9900 (-2)))).
Proof.
  intros w env run.
  assert (Hcost : (Decimal_.value (request_cost "hi" Example.one_sms Example.bob)
                   <= Decimal_.value (Dec 10000 (-2)))%Q) by (vm_compute; discriminate).
  assert (Hbad : Exists (fun r => recipient_cost (rt := short_runtime) r = None)
                   (match sms_send env (send_args Example.one_sms "hi" env) with
                    | SMSMessageData _ recipients_data => recipients_data
                    | gateway_raises _ => []
                    end)).
  { left. vm_compute. reflexivity. }
  destruct (unreadable_cost_loses_the_history (rt := short_runtime) env w
              Example.one_sms Example.bob "hi" (Dec 10000 (-2)) "Sent" _
              eq_refl eq_refl Hcost eq_refl Hbad)
    as (Hraise & Hhistory & Hwallet & _).
  split; [exact Hbad|]. split; [exact Hraise|]. split; [exact Hhistory|].
  fold run in Hwallet.
  rewrite (Hwallet : users (database (snd run)) !! 1%N = Some _).
  vm_compute. reflexivity.
Defined.

(** X8: a new account sends "hi" to one number. *)
Lemma new_account_cannot_send_witness :
  let w := Example.world (Example.tables Example.newcomer []) in
  let run :=
    endpoint (send_sms (rt := short_runtime) Example.one_sms (User.new 1%N))
      (Example.env_up 1000) w in
  to Example.one_sms <> []
  /\ fst run = Raise (HTTPException 400 "Insufficient funds")
  /\ gateway_calls (snd run) = [].
Proof.
  intros w run.
  assert (Hto : to Example.one_sms <> []) by discriminate.
  destruct (new_account_cannot_send (rt := short_runtime) (Example.env_up 1000) w 1%N
              Example.one_sms "hi" Hto eq_refl)
    as (Hraise & _ & Hgateway).
  split; [exact Hto|]. split; [exact Hraise | exact Hgateway].
Defined.

(** X9: "hi" to nobody, from an account with 100.00. *)
Lemma empty_recipient_list_is_dispatched_witness :
  let w := Example.world (Example.tables Example.alice []) in
  let run :=
    endpoint (send_sms (rt := short_runtime) Sample.nobody_sms Example.alice)
      (Example.env_up 1000) w in
  to Sample.nobody_sms = []
  /\ http_status (fst run) <> 400
  /\ List.map Transaction.description (transactions (database (snd run)))
     = [Some "SMS to 0 recipients"]
  /\ List.length (gateway_calls (snd run)) = 1%nat.
Proof.
  intros w run.
  assert (Hbalance : 0 <= coef (Dec 10000 (-2))) by (cbn; lia).
  destruct (empty_recipient_list_is_dispatched (rt := short_runtime)
              (Example.env_up 1000) w Sample.nobody_sms Example.alice "hi"
              (Dec 10000 (-2)) eq_refl eq_refl eq_refl Hbalance)
    as (_ & Hstatus & Hledger & Hgateway & _).
  fold run in Hstatus, Hledger, Hgateway.
  split; [reflexivity|]. split; [exact Hstatus|].
  split; [by rewrite Hledger | by rewrite Hgateway].
Defined.

(** X12: a cost of 100 against 100.00, and a cost of 32 against a NULL wallet. *)
Lemma debit_boundaries_witness :
  let w := Example.world (Example.tables Example.alice []) in
  let exact :=
    endpoint (deduct_and_log_wallet (rt := short_runtime) Example.alice (Dec 100 0) "SMS")
      (Example.env_up 1000) w in
  let null :=
    endpoint (deduct_and_log_wallet (rt := short_runtime) Sample.broke Decimal_32 "SMS")
      (Example.env_up 1000) w in
  (fst exact = Return tt
   /\ User.wallet <$> users (database (snd exact)) !! 1%N
      = Some (Some (str_Decimal (Dec 0 (-2)))))
  /\ fst null = Raise (HTTPException 400 "Insufficient funds")
  /\ database (snd null) = database w.
Proof.
  intros w exact null. split.
  - apply (proj1 (debit_boundaries (rt := short_runtime) (Example.env_up 1000) w
                    Example.alice (Dec 100 0) "SMS") (Dec 10000 (-2)) eq_refl).
    vm_compute. reflexivity.
  - apply (proj2 (debit_boundaries (rt := short_runtime) (Example.env_up 1000) w
                    Sample.broke Decimal_32 "SMS") eq_refl).
    vm_compute. reflexivity.
Defined.

(** X13: two rows carry the id of a "Failed" report, and the database
    returns the later one first: row 1 is rewritten and row 0 is left. *)
Lemma report_rewrites_one_row_three_columns_witness :
  let w := Example.world
             (Example.tables Example.alice [Example.sent_row; Example.delivered_row]) in
  let env := Sample.env_second_match 3000 in
  let rows' :=
    sms_history (database (snd (endpoint (delivery_report_webhook Example.failed_report)
                                  env w))) in
  first_by_external_id (first_match env) (Report.id Example.failed_report)
    (sms_history (database w))
  = Some (1%nat, Example.delivered_row)
  /\ List.length rows' = 2%nat
  /\ rows' !! 0%nat = Some Example.sent_row
  /\ exists row',
       rows' !! 1%nat = Some row'
       /\ SmsHistory.recipient row' = "+256700000001"
       /\ SmsHistory.error_message row' = Some "DeliveryFailure".
Proof.
  intros w env rows'.
  assert (Hfind : first_by_external_id (first_match env) (Report.id Example.failed_report)
                    (sms_history (database w)) = Some (1%nat, Example.delivered_row))
    by (vm_compute; reflexivity).
  destruct (report_rewrites_one_row_three_columns env w
              Example.failed_report 1%nat Example.delivered_row "Failed" Hfind eq_refl)
    as (_ & _ & Hlength & Hothers & _ & row' & Hrow & _ & Hrecipient & _ & _ & _ & _ & _ & _
        & Herror).
  split; [exact Hfind|]. split; [exact Hlength|].
  split; [exact (Hothers 0%nat ltac:(discriminate))|].
  exists row'. split; [exact Hrow|]. split; [exact Hrecipient | exact Herror].
Defined.

(** X14: a report without id meets a row of a rejected recipient. *)
Lemma report_without_id_hits_a_row_without_message_id_witness :
  let w := Example.world
             (Example.tables Example.alice [Example.sent_row; Sample.rejected_row]) in
  let run := endpoint (delivery_report_webhook Sample.report_without_id)
               (Example.env_up 2000) w in
  Exists (fun row => SmsHistory.external_id row = None) (sms_history (database w))
  /\ exists i history,
       sms_history (database w) !! i = Some history
       /\ SmsHistory.external_id history = None
       /\ fst run = Return [("status", "received")]
       /\ sms_history (database (snd run))
          = <[i := reconciled history "delivered" None (Some 2000)]>
              (sms_history (database w)).
Proof.
  intros w run.
  assert (Hrows : Exists (fun row => SmsHistory.external_id row = None)
                    (sms_history (database w))).
  { right. left. reflexivity. }
  split; [exact Hrows|].
  exact (report_without_id_hits_a_row_without_message_id (Example.env_up 2000) w
           Sample.report_without_id "Delivered" eq_refl eq_refl Hrows).
Defined.

(** X15: a report for the sent row that has no status. *)
Lemma report_without_status_fails_on_a_match_witness :
  let w := Example.world (Example.tables Example.alice [Example.sent_row]) in
  let run := endpoint (delivery_report_webhook Sample.report_without_status)
               (Example.env_up 2000) w in
  first_by_external_id (first_match (Example.env_up 2000))
    (Report.id Sample.report_without_status)
    (sms_history (database w)) = Some (0%nat, Example.sent_row)
  /\ http_status (fst run) = 500
  /\ database (snd run) = database w
  /\ send_text_calls (snd run) = [].
Proof.
  intros w run.
  assert (Hfind : first_by_external_id (first_match (Example.env_up 2000))
                    (Report.id Sample.report_without_status)
                    (sms_history (database w)) = Some (0%nat, Example.sent_row))
    by (vm_compute; reflexivity).
  destruct (report_without_status_fails_on_a_match (Example.env_up 2000) w
              Sample.report_without_status 0%nat Example.sent_row Hfind eq_refl)
    as (_ & Hstatus & Hdb & Hcalls & _).
  split; [exact Hfind|]. split; [exact Hstatus|]. split; [exact Hdb | exact Hcalls].
Defined.

(** X16: "Delivered" for the sent row. *)
Lemma delivery_time_implies_delivered_status_witness :
  let w := Example.world (Example.tables Example.alice [Example.sent_row]) in
  let rows' :=
    sms_history (database (snd (endpoint (delivery_report_webhook Example.delivered_report)
                                  (Example.env_up 2000) w))) in
  first_by_external_id (first_match (Example.env_up 2000))
    (Report.id Example.delivered_report) (sms_history (database w))
  = Some (0%nat, Example.sent_row)
  /\ exists row',
       rows' !! 0%nat = Some row'
       /\ (is_Some (SmsHistory.delivered_at row') ->
           Str.contains "delivered" (SmsHistory.status row') = true).
Proof.
  intros w rows'.
  assert (Hfind : first_by_external_id (first_match (Example.env_up 2000))
                    (Report.id Example.delivered_report)
                    (sms_history (database w)) = Some (0%nat, Example.sent_row))
    by (vm_compute; reflexivity).
  destruct (delivery_time_implies_delivered_status (Example.env_up 2000) w
              Example.delivered_report 0%nat Example.sent_row "Delivered" Hfind eq_refl)
    as (row' & Hrow & Hdelivered & _).
  split; [exact Hfind|]. exists row'. split; [exact Hrow | exact Hdelivered].
Defined.

(** X18: the history holds one row; account 1 sends "hi" to five numbers at
    time 1000, three accepted and two rejected without message id; the
    report for the second number arrives at time 2000, at a database that
    orders its rows in its own way, and rewrites row 1 + 1. *)
Lemma report_finds_the_row_its_send_wrote_witness :
  let w := Example.world (Example.tables Example.bob [Example.sent_row]) in
  let sent := endpoint (send_sms (rt := short_runtime) Example.five_sms Example.bob)
                (Example.env_up 1000) w in
  let w2 := snd (endpoint (delivery_report_webhook Sample.report_for_second)
                   (Sample.env_second_match 2000) (snd sent)) in
  fst sent
  = Return {| batch_id := None; summary := "Sent"; total_sent := 5;
              total_cost_ugx := Dec 5 0;
              recipients := List.map Example.answer (to Example.five_sms) |}
  /\ List.length (sms_history (database (snd sent))) = 6%nat
  /\ exists row,
       sms_history (database (snd sent)) !! 2%nat = Some row
       /\ SmsHistory.recipient row = "+256700000002"
       /\ SmsHistory.delivered_at row = None
       /\ sms_history (database w2)
          = <[2%nat := reconciled row "delivered" None (Some 2000)]>
              (sms_history (database (snd sent))).
Proof.
  intros w sent w2.
  assert (Hsent : fst sent
                  = Return {| batch_id := None; summary := "Sent"; total_sent := 5;
                              total_cost_ugx := Dec 5 0;
                              recipients := List.map Example.answer (to Example.five_sms) |})
    by (vm_compute; reflexivity).
  assert (Hold : forall row, row ∈ sms_history (database w) ->
                   SmsHistory.external_id row <> Some "ATXid_+256700000002").
  { intros row Hrow. apply elem_of_cons in Hrow as [->|Hrow]; [discriminate|].
    by apply elem_of_nil in Hrow. }
  assert (Hothers : forall j r', j <> 1%nat ->
            recipients {| batch_id := None; summary := "Sent"; total_sent := 5;
                          total_cost_ugx := Dec 5 0;
                          recipients := List.map Example.answer (to Example.five_sms) |}
              !! j = Some r' ->
            Recipient.messageId r' <> Some "ATXid_+256700000002").
  { intros j r' Hne Hj.
    destruct j as [|[|[|[|[|j]]]]]; try done;
      vm_compute in Hj; try discriminate; injection Hj as <-; discriminate. }
  destruct (report_finds_the_row_its_send_wrote (rt := short_runtime)
              (Example.env_up 1000) (Sample.env_second_match 2000) w
              Example.five_sms Example.bob
              _ 1%nat (Example.answer "+256700000002") "ATXid_+256700000002"
              Sample.report_for_second "Delivered"
              Hsent eq_refl eq_refl Hold Hothers eq_refl eq_refl)
    as (row & Hrow & Hrecipient & _ & _ & Hdelivered & Hrewritten).
  split; [exact Hsent|].
  split; [by vm_compute|].
  exists row. split; [exact Hrow|]. split; [exact Hrecipient|].
  split; [exact Hdelivered | exact Hrewritten].
Defined.

(** X19: an admin "credit" of -5 on a wallet of 100.00 lowers the wallet to
    95.0, logs the entry and then fails. *)
Lemma credit_touches_one_account_witness :
  let w := Example.world (Example.tables Example.alice []) in
  let run :=
    endpoint (add_balance_to_user (rt := short_runtime) 1%N Sample.claw_back)
      (Example.env_up 1000) w in
  PrimFloat.leb PrimFloat.zero (amount Sample.claw_back) = false
  /\ fst run = Raise (PyException "ValidationError")
  /\ http_status (fst run) = 500
  /\ List.length (transactions (database (snd run))) = 1%nat
  /\ PrimFloat.eqb (wallet_float (rt := short_runtime) Example.alice) (float_of_Z 100) = true
  /\ User.wallet <$> users (database (snd run)) !! 1%N
     = Some (Some (str_float (float_of_Z 95))).
Proof.
  intros w run.
  pose proof (proj1 (credit_touches_one_account (rt := short_runtime)
                       (Example.env_up 1000) w 1%N Sample.claw_back)) as Hknown.
  change (users (database w) !! 1%N) with (Some Example.alice) in Hknown.
  destruct Hknown as (entry & user' & Hledger & _ & Hfails & _).
  fold run in Hledger, Hfails.
  destruct (Hfails eq_refl) as [Hraise Hstatus].
  split; [reflexivity|]. split; [exact Hraise|]. split; [exact Hstatus|].
  split; [by rewrite Hledger|].
  split; vm_compute; reflexivity.
Defined.

(** X20: a debit of 32 and a credit of 5 on account 1. *)
Lemma requests_on_one_account_stay_there_witness :
  let w := Example.world (Example.tables Example.alice [Example.sent_row]) in
  let w' :=
    ledger_run (rt := short_runtime) 1%N
      [(Example.env_up 1000, debit Decimal_32 "SMS to 1 recipients");
       (Example.env_up 1001, credit Example.top_up)] w in
  keyed_by_id (database w)
  /\ sms_history (database w') = [Example.sent_row]
  /\ users (database w') !! 2%N = None
  /\ gateway_calls w' = [].
Proof.
  intros w w'.
  assert (Hkeyed : keyed_by_id (database w)).
  { intros k u Hrow.
    change (({[1%N := Example.alice]} : gmap uuid User.t) !! k = Some u) in Hrow.
    apply lookup_singleton_Some in Hrow as [<- <-]. reflexivity. }
  destruct (requests_on_one_account_stay_there (rt := short_runtime) 1%N
              [(Example.env_up 1000, debit Decimal_32 "SMS to 1 recipients");
               (Example.env_up 1001, credit Example.top_up)] w Hkeyed)
    as (_ & Hothers & _ & Hhistory & _ & Hgateway & _).
  split; [exact Hkeyed|]. split; [exact Hhistory|].
  split; [|exact Hgateway].
  etrans; [exact (Hothers 2%N ltac:(discriminate))|]. vm_compute. reflexivity.
Defined.

(** X21 at 161 and 307 characters. *)
Lemma units_grow_with_the_text_witness :
  1 <= sms_units 161 <= sms_units 307
  /\ 153 * (sms_units 161 - 1) < 161 <= 153 * sms_units 161.
Proof.
  destruct (units_grow_with_the_text 161 307 ltac:(lia)) as (Hmono & _ & Hlong & _).
  split; [exact Hmono|]. apply Hlong. lia.
Defined.

(** X22 for "hi" to one number at price 32. *)
Lemma validated_text_costs_at_most_eleven_units_witness :
  let t := Example.tables Example.alice [] in
  len_str (message Example.one_sms) <= 1600
  /\ template_text Example.one_sms Example.alice t = Some "hi"
  /\ (Decimal_.value (request_cost "hi" Example.one_sms Example.alice)
      <= 11 * Decimal_.value Decimal_32 * inject_Z 1)%Q.
Proof.
  intros t.
  assert (Hlen : len_str (message Example.one_sms) <= 1600) by (vm_compute; discriminate).
  assert (Hprice : 0 <= coef (cost_per_sms Example.alice)) by (vm_compute; discriminate).
  destruct (validated_text_costs_at_most_eleven_units Example.one_sms Example.alice t
              eq_refl Hlen Hprice)
    as (Htext & _ & Hhigh).
  split; [exact Hlen|]. split; [exact Htext | exact Hhigh].
Defined.

(** X23 on the gateway's "UGX 32.0000". *)
Lemma cost_is_read_behind_the_currency_witness :
  plain_amount "32.0000"
  /\ recipient_cost (rt := short_runtime) (Example.answer "+256700000001")
     = Some (Dec 320000 (-4)).
Proof.
  assert (Hplain : plain_amount "32.0000").
  { cbn. repeat split; solve [reflexivity | discriminate]. }
  split; [exact Hplain|].
  rewrite (cost_is_read_behind_the_currency (rt := short_runtime)
             (Example.answer "+256700000001") "32.0000" Hplain
             (or_intror (or_introl eq_refl))).
  vm_compute. reflexivity.
Defined.

(** X24: account 1 creates a prebuilt template with id 5; account 2 names it. *)
Lemma prebuilt_template_is_private_to_its_admin_witness :
  let w := Example.world (Example.tables Example.alice []) in
  let created :=
    endpoint (create_prebuilt_template Sample.prebuilt Example.alice 5%N)
      (Example.env_up 1000) w in
  let sent :=
    endpoint (send_sms (rt := short_runtime) Sample.templated_sms Sample.carol)
      (Example.env_up 1001) (snd created) in
  templates (database w) !! 5%N = None
  /\ template_text Sample.templated_sms Example.alice (database (snd created))
     = Some "Welcome to Luco"
  /\ fst sent = Raise (HTTPException 404 "Template not found")
  /\ gateway_calls (snd sent) = [].
Proof.
  intros w created sent.
  destruct (prebuilt_template_is_private_to_its_admin (rt := short_runtime)
              (Example.env_up 1000) (Example.env_up 1001) w Sample.prebuilt
              Example.alice 5%N Sample.templated_sms Sample.carol eq_refl eq_refl)
    as (_ & _ & _ & _ & Htext & Hother).
  destruct (Hother ltac:(discriminate)) as (Hraise & _ & Hgateway & _).
  split; [reflexivity|]. split; [exact Htext|]. split; [exact Hraise | exact Hgateway].
Defined.

(** X25: account 1 is moved to "Basic". *)
Lemma plan_change_sets_the_price_of_the_listed_users_witness :
  let w := Example.world (Example.tables Example.alice []) in
  let run := endpoint (bulk_update_user_plan [1%N] "Basic") (Example.env_up 1000) w in
  keyed_by_id (database w)
  /\ PLANS_sms_cost "Basic" = Some (Dec 35 0)
  /\ users (database (snd run)) !! 1%N = Some (set_sms_cost Example.alice (Some (Dec 35 0)))
  /\ transactions (database (snd run)) = [].
Proof.
  intros w run.
  assert (Hkeyed : keyed_by_id (database w)).
  { intros k u Hrow.
    change (({[1%N := Example.alice]} : gmap uuid User.t) !! k = Some u) in Hrow.
    apply lookup_singleton_Some in Hrow as [<- <-]. reflexivity. }
  assert (Hsize : len_list [1%N] <= 1000) by (vm_compute; discriminate).
  destruct (plan_change_sets_the_price_of_the_listed_users (Example.env_up 1000) w
              [1%N] "Basic" (Dec 35 0) Hkeyed Hsize eq_refl)
    as (_ & Hlookup & _ & Hledger & _).
  split; [exact Hkeyed|]. split; [reflexivity|].
  split; [|exact Hledger].
  etrans; [exact (Hlookup 1%N)|]. vm_compute. reflexivity.
Defined.

(** X26: there is no plan "Gold". *)
Lemma plan_change_is_refused_whole_witness :
  let w := Example.world (Example.tables Example.alice []) in
  let run := endpoint (bulk_update_user_plan [1%N] "Gold") (Example.env_up 1000) w in
  PLANS_sms_cost "Gold" = None
  /\ http_status (fst run) = 400
  /\ database (snd run) = database w.
Proof.
  intros w run.
  assert (Hplan : forall plan, plan ∈ PLANS -> plan.1 <> "Gold").
  { intros plan Hin. unfold PLANS in Hin.
    repeat (apply elem_of_cons in Hin as [->|Hin]; [discriminate|]).
    by apply elem_of_nil in Hin. }
  destruct (plan_change_is_refused_whole (Example.env_up 1000) w [1%N] "Gold"
              (or_intror Hplan))
    as (Hstatus & Hdb & _).
  split; [reflexivity|]. split; [exact Hstatus | exact Hdb].
Defined.
